(* ===== verification/_CoqProject ===== *)
-Q . S2P
Prelude.v
Rounding.v
Schema.v
Views.v
Api.v
Store.v
Hierarchy.v
Lifecycle.v
Tables.v
Client.v
Navigation.v
CreateFolder.v
Upload.v
Sizes.v
UploadView.v
Actions.v
ListEvents.v
Auth.v
AuthView.v
Shell.v
Landing.v
Dashboard.v
System.v
