(* ===== verification/Prelude.v ===== *)
(** * Echo-Files: a verification development of the file manager

    ** The program

    Echo-Files (src/) is a Next.js application that keeps, per user, a
    tree of files and folders in one database table declared in
    [src/lib/db/schema.ts].  The browser side lives in [src/components/]:
    [FileList.tsx] fetches the rows of the current folder, filters them
    into three tabs (all, starred, trash) and runs the optimistic star,
    trash, delete and empty-trash handlers; its navigation functions,
    [FolderNavigation.tsx] and the callback of [DashboardContent.tsx] keep
    the breadcrumb; [CreateFolderModal.tsx] and [FileUploadModal.tsx]
    validate and send new folders and uploads; [FileActions.tsx],
    [FileTabs.tsx], [FileListHeaderActions.tsx] and [FileIcon.tsx] decide
    what each row and tab offers and shows.  The HTTP routes the browser
    calls ([/api/files], [/api/files/:id/star], [/api/folders/create],
    ...) are not part of src/: they are modelled from the specification
    (spec.md) and marked as such in the manifest.

    ** How the parts interact, and where each is modelled

    - [Prelude] (this file): the JavaScript built-ins the code calls
      ([trim], [startsWith], [split], regular-expression character
      classes, [===], [Math.round] of a quotient), an error monad
      [result] with stdpp's [≫=] notation, the tactics, the hint
      databases [echo] and [echo_rw], and the shared list and string
      lemmas.
    - [Rounding]: [Math.round] as [floor(x + 1/2)] on QArith's
      rationals, the reference for the integer computation of Prelude.
    - [Schema]: the table row [File], the insert type [NewFile] with its
      column defaults and the 32-bit range of [size] ([insert_row]), the
      parent/children relation, and the setoid "equal up to
      [updatedAt]" ([≡]) with its [Proper] instances.
    - [Views]: [filteredFiles] and the three badge counters of
      FileList.tsx.
    - [Api]: the contract between browser and server as a type class
      ([FilesApi], [FilesApiLaws]) over an abstract server state.
    - [Store]: the routes over a list of rows (spec-modelled):
      listing, star, trash, delete, empty trash, with ownership; the
      instance [store_laws] discharges the contract.
    - [Hierarchy]: the validator (names, parents), the parent walk
      [chain] with fuel, path derivation, the create route
      [api_create_entry] for folders and uploads, and the table
      invariant [store_wf] (spec-modelled).
    - [Lifecycle]: the invariant under star, trash, delete and empty
      trash: rewrites that keep a row's shape ([store_wf_map]) and
      removals closed under [parent] ([store_wf_filter]).
    - [Client]: FileList's state [ListState] and its handlers, each
      cut at its [await] into [_start] (the synchronous prefix and the
      request) and [_finish] (the continuation on the response);
      [serve] answers a request through the contract and [round_trip]
      is one exchange.
    - [Navigation]: [navigateToFolder], [navigateUp],
      [navigateToPathFolder], [handleItemClick], the buttons of
      FolderNavigation and the dashboard's [handleFolderChange].
    - [CreateFolder]: the new-folder dialog, its validation, request and
      continuation, the disabled button and the Enter key.
    - [Upload]: the upload dialog as an event system ([upload_event],
      [run]) over the dialog state and the uploads in flight, and the
      upload route (spec-modelled, [api_upload]) with the object
      storage's answer as an input.
    - [Sizes]: the size labels of the file list and of the upload
      preview, with [Number.prototype.toFixed(1)] on the exact quotient.
    - [UploadView]: what the upload dialog renders (drop-zone style, its
      content panels, the error box, the footer labels).
    - [Tables]: the column types and the key of every table the
      mutating routes can build ([table_step], [rtc]).
    - [Actions]: the row actions, tab badges, header buttons, icons, list
      view, table rows and download of FileList and its child
      components.
    - [ListEvents]: FileList as one component: its props, the fetch
      effect on its dependencies, and every callback of its render
      ([list_event]), guarded by what the render shows.
    - [Auth]: SignInForm and SignUpForm as state machines over the
      identity provider's calls (answers are inputs, awaited calls a
      list), the verification-code schema and input, and the dashboard
      page's redirect and user.
    - [AuthView]: what the two forms render (error boxes, fields,
      password inputs, submit buttons, the verification screen).
    - [Shell]: the title metadata of the root layout and the pages, and
      the providers (ImageKit configuration and authenticator).
    - [Landing]: the landing page, the sign-up page and the chrome of
      the dashboard page (navigation-bar user, footer).
    - [Dashboard]: DashboardContent's tabs, refresh counter, copy of the
      current folder and dialogs, the refresh effect of FileList, and
      what the dashboard renders.
    - [System]: the browser and the table together as a step relation
      [step]: user events of the file list ([list_event], with its fetch
      effect), requests in flight served in any order or lost, and
      answers handled in the order chosen; reachability is stdpp's
      [rtc].  It also holds the specification's
      flat starred and trash views.

    ** What the theorems show

    - Views: the all and trash tabs partition the rows, and the starred
      tab lies inside the all tab (C1, C2).
    - Store: star and trash are involutions up to [updatedAt] (C3, C4).
    - Client against the contract: after any action, whether the server
      accepts it, refuses it or never receives it, the browser shows the
      server's listing up to [updatedAt] (C5).  For any two actions
      started one after the other, a failure of the first puts back the
      list from before both, erasing the second's update whatever its
      answer (C6, a defect of the code); System replays it as a trace
      of the whole system ([stale_revert_trace]).
    - Navigation: the current folder is always the last breadcrumb and
      the dashboard agrees (C7), into-then-up is the identity (C8), and
      no rendered button reaches the [TypeError] of
      [navigateToPathFolder] (C9).
    - Hierarchy: a create appends the entry with its derived path (C10)
      and preserves [store_wf] (C11); the path derivation's fuel is
      always enough ([derive_path_inconsistent_iff]).
    - CreateFolder: the dialog's checks imply the server's name check
      (C12); whenever the dialog sends a create, a second Enter sends
      it again and a server that accepted the first accepts the copy
      (C13, a defect).
    - Upload: the selected and sent files meet the 5 MB and type limits
      and the progress stays in [0, 100] (C14); without a close, at most
      one upload is in flight (C15); after any events, the request sent
      never makes the upload route fail for the [integer] column (C16);
      whenever an upload is in flight, a drop or a close leaves the
      dialog reporting the wrong file or state (C17, C18, defects); a
      progress report sets [Math.round(loaded * 100 / total)] (C34).
    - Actions: every action a synced row offers is accepted by the
      server (C19); PDFs get the red icon, text files the grey one and
      images their thumbnail (C20).
    - Lifecycle: star and trash keep [store_wf] (C21); a delete keeps it
      exactly when the row has no children (C22), emptying the trash
      exactly when no kept row has a removed parent (C23); on every
      well-formed table, trashing a row with an untrashed child and
      emptying the trash orphans the child (C24, a gap the
      specification leaves open).
    - System: in every state in step with the server, the starred tab
      is the specification's flat starred view cut to the current
      folder (C25), and the Empty Trash route removes the announced
      [trashCount] plus the trashed rows of other folders (C26).
    - ListEvents: from any state, a refresh and a navigation answered
      out of order leave the list in the new folder showing the old
      one's listing (C27, a defect; [System.stale_fetch_trace] replays
      it); every listing requested is of the user and of the folder
      shown after the event (C37); every event keeps the current folder
      equal to the last breadcrumb entry ([list_event_nav_inv]), and
      the deletion modal deletes the row it names
      ([delete_modal_targets_row]).
    - Auth: every error thrown to the sign-up form ends in a non-empty
      message and a settled form (C28); a provider that accepts leads the
      sign-up flow to the dashboard (C29); verification codes sent have
      exactly 6 characters (C30); the sign-in outcome for every pair of
      answers (C31); the dashboard renders exactly for signed-in users,
      the ones the landing page links there (C32).
    - Dashboard: a folder created through the dialog is listed after the
      refresh the dashboard triggers (C33).
    - Rounding: the integer [js_round_div] is [Math.round] of the
      quotient ([js_round_div_math_round], used by C34).  Lifecycle: on
      a well-formed table the create route's fuelled parent walk always
      reaches the root (C35).
    - Sizes: the size column shows a number within 0.05 of the size in
      its unit (C36); 51 sizes just under 1 MiB read
      "1024.0 KB" (C38, a defect).
    - Tables: every table the routes build from the empty one has unique
      ids and typed rows (C39), by rule induction on [rtc table_step].
    - UploadView: while the dialog stays open and the files meet its
      limits, the drop zone shows exactly one panel (C40); a close or an
      over-limit drop during an upload leaves it empty
      ([close_during_upload_blank], [invalid_drop_during_upload_blank]).

    ** Bounds and fuel

    [chain] walks at most [length rows] parents: along a successful walk
    the rows met are pairwise distinct ([chain_nodup]), so a walk that
    succeeds with some fuel succeeds with that much
    ([chain_fuel_enough]).  Sizes are [Z] checked against the int4 range
    [-2^31, 2^31 - 1] at insertion, as the database does; browser file
    sizes and byte counts are [N].  [toFixed(1)] is modelled for
    quotients below [10 ^ 21], its exact range for these sizes; the
    quotients are exact in binary64 because the divisors are powers of
    two and the sizes below [2 ^ 53].  Strings are ASCII ([trim] removes
    the ASCII white space only).

    ** Not modelled

    The identity provider (Clerk) itself: its answers are inputs, and
    the sign-in and sign-up schemas the forms import are not in the
    repository, so the data they validate is an input too, as are the
    field errors react-hook-form derives from them.  The Clerk, theme,
    toast and HeroUI providers and the root layout's markup and font
    (framework wiring without decisions of their own); the components
    the pages import but the repository lacks (Navbar, UserProfile),
    and ConfirmationModal, FileEmptyState and FileLoadingState, whose
    props FileList passes but whose code is absent (a confirmation is
    modelled as the call of [onConfirm]); the object storage itself
    behind the upload route (its answer is an input); the DOM operations
    of a download (its temporary link element is the [SaveAs] effect of
    ListEvents); the date column (date-fns
    formatting of [createdAt]); CSS classes other than the drop zone's.
    Timers ([setTimeout]) are modelled as the event they eventually
    cause, and the current year of the footers is a parameter. *)

From stdpp Require Export base list strings relations.
From Stdlib Require Export ZArith Lia.

Declare Scope echo_scope.
Delimit Scope echo_scope with echo.
Open Scope echo_scope.

(** Conversions between strings and their character lists. *)
Abbreviation string_of_list_ascii := Stdlib.Strings.String.string_of_list_ascii.
Abbreviation list_ascii_of_string := Stdlib.Strings.String.list_ascii_of_string.
Abbreviation list_ascii_of_string_of_list_ascii :=
  Stdlib.Strings.String.list_ascii_of_string_of_list_ascii.

(** ** JavaScript built-ins used by the source *)

(** Strict equality of two JavaScript strings, [a === b]. *)
Notation "a === b" := (String.eqb a b) (at level 70, no associativity) : echo_scope.

(** The characters [String.prototype.trim] removes, restricted to the
    ASCII range the model's strings range over: TAB, LF, VT, FF, CR and
    SPACE. *)
Definition js_is_space (c : Ascii.ascii) : bool :=
  match Ascii.nat_of_ascii c with
  | 9 | 10 | 11 | 12 | 13 | 32 => true
  | _ => false
  end.

Fixpoint drop_spaces (l : list Ascii.ascii) : list Ascii.ascii :=
  match l with
  | [] => []
  | c :: r => if js_is_space c then drop_spaces r else l
  end.

(** [s.trim()]: drop leading and trailing white space. *)
Definition js_trim (s : string) : string :=
  string_of_list_ascii
    (rev (drop_spaces (rev (drop_spaces (list_ascii_of_string s))))).

(** [/[...]/.test(s)] for a character-class regular expression: does one
    character of [s] belong to the class? *)
Definition js_test_class (cls : list Ascii.ascii) (s : string) : bool :=
  existsb (fun c => bool_decide (c ∈ cls)) (list_ascii_of_string s).

(** The double-quote character, which a string literal of this
    development spells by its code. *)
Definition dquote : Ascii.ascii := Ascii.ascii_of_nat 34.

(** A string between double quotes, as a template literal writes
    [`"${s}"`]. *)
Definition quoted (s : string) : string := String dquote (s ++ String dquote "")%string.

(** [s.startsWith(p)]. *)
Definition js_starts_with (p s : string) : bool := String.prefix p s.

(** [s.split(sep)] for a one-character separator. *)
Fixpoint js_split_aux (sep : Ascii.ascii) (l : list Ascii.ascii)
    (cur : list Ascii.ascii) : list string :=
  match l with
  | [] => [string_of_list_ascii (rev cur)]
  | c :: r =>
      if bool_decide (c = sep)
      then string_of_list_ascii (rev cur) :: js_split_aux sep r []
      else js_split_aux sep r (c :: cur)
  end.

Definition js_split (sep : Ascii.ascii) (s : string) : list string :=
  js_split_aux sep (list_ascii_of_string s) [].

(** [arr[i]] for an array of strings: [undefined] out of range. *)
Definition js_index {A} (l : list A) (i : nat) : option A := l !! i.

(** The truthiness of a string that may be [null]: present and not the
    empty string. *)
Definition js_truthy (o : option string) : bool :=
  match o with Some m => negb (m === "") | None => false end.

(** [a || b] for a possibly undefined string [a]. *)
Definition js_or (o : option string) (d : string) : string :=
  match o with Some m => if m === "" then d else m | None => d end.

(** [Math.round(a / b)] for a positive divisor: JavaScript rounds half
    up, [Math.round(x) = floor(x + 1/2)], and [floor((2a + b) / 2b)] is
    that value computed in integers. *)
Definition js_round_div (a b : Z) : Z := Z.div (2 * a + b)%Z (2 * b)%Z.

(** ** Tactics *)

(** Case analysis on every JavaScript string comparison in the goal. *)
Ltac destruct_js_eq :=
  repeat match goal with
  | |- context [String.eqb ?a ?b] => destruct (String.eqb_spec a b); subst
  | H : context [String.eqb ?a ?b] |- _ => destruct (String.eqb_spec a b); subst
  end.

(** Simplify boolean connectives coming from JavaScript conditions. *)
Ltac simpl_bool :=
  repeat match goal with
  | H : _ && _ = true |- _ => apply andb_true_iff in H as [? ?]
  | H : _ || _ = false |- _ => apply orb_false_iff in H as [? ?]
  | H : negb _ = true |- _ => apply negb_true_iff in H
  | H : negb _ = false |- _ => apply negb_false_iff in H
  end.

Create HintDb echo discriminated.
Create Rewrite HintDb echo_rw.

(** ** Generic lemmas on lists *)

Section ListLemmas.
Context {A : Type}.
Implicit Types (l : list A) (p q : A → bool) (f : A → A).

(** Filtering commutes with a map that does not change the filtered
    predicate. *)
Lemma filter_map_invariant p f l :
  (∀ x, p (f x) = p x) →
  List.filter p (map f l) = map f (List.filter p l).
Proof.
  intros Hp. induction l as [|x l IH]; [done|]; simpl.
  rewrite Hp. destruct (p x); simpl; by rewrite IH.
Qed.

Lemma filter_filter_andb p q l :
  List.filter p (List.filter q l) = List.filter (λ x, q x && p x) l.
Proof.
  induction l as [|x l IH]; [done|]; simpl.
  destruct (q x); simpl; [destruct (p x); simpl|]; by rewrite IH.
Qed.

(** A map that fixes every element of the list is the identity on it. *)
Lemma map_id_in f l : (∀ x, In x l → f x = x) → map f l = l.
Proof.
  intros H. induction l as [|x l IH]; [done|]; simpl.
  rewrite H by (left; done). f_equal. apply IH. intros y Hy. apply H. by right.
Qed.

Lemma In_filter_negb p l x :
  In x (List.filter p l) → ¬ In x (List.filter (λ y, negb (p y)) l).
Proof.
  rewrite !filter_In. intros [_ Hp] [_ Hn]. rewrite Hp in Hn. done.
Qed.

(** A filter that keeps everything is the identity. *)
Lemma filter_all_true p l :
  (∀ x, In x l → p x = true) → List.filter p l = l.
Proof.
  intros H. induction l as [|x l IH]; [done|]; simpl.
  rewrite H by (left; done). f_equal. apply IH. intros y Hy. apply H. by right.
Qed.

Lemma filter_none_false p l :
  (∀ x, In x l → p x = false) → List.filter p l = [].
Proof.
  intros H. induction l as [|x l IH]; [done|]; simpl.
  rewrite H by (left; done). apply IH. intros y Hy. apply H. by right.
Qed.
End ListLemmas.

#[export] Hint Resolve filter_map_invariant filter_all_true filter_none_false : echo.
#[export] Hint Rewrite @filter_filter_andb : echo_rw.

(** ** Lemmas on the JavaScript string built-ins *)

Lemma str_app_nil_r (s : string) : String.append s "" = s.
Proof.
  induction s as [|c s IH]; [reflexivity|].
  change (String c (String.append s "") = String c s). by rewrite IH.
Qed.

Lemma str_app_assoc (a b c : string) :
  String.append (String.append a b) c = String.append a (String.append b c).
Proof.
  induction a as [|x a IH]; [reflexivity|].
  change (String x (String.append (String.append a b) c) =
          String x (String.append a (String.append b c))). by rewrite IH.
Qed.

Lemma drop_spaces_suffix l : ∃ pre, l = pre ++ drop_spaces l.
Proof.
  induction l as [|c l IH]; simpl; [by exists []|].
  destruct (js_is_space c); [|by exists []].
  destruct IH as [pre Hpre]. exists (c :: pre). simpl. by f_equal.
Qed.

Lemma drop_spaces_incl l c : In c (drop_spaces l) → In c l.
Proof.
  destruct (drop_spaces_suffix l) as [pre Hpre].
  intros H. rewrite Hpre. apply in_or_app. by right.
Qed.

Lemma drop_spaces_head l :
  match drop_spaces l with [] => True | c :: _ => js_is_space c = false end.
Proof.
  induction l as [|c l IH]; simpl; [done|].
  destruct (js_is_space c) eqn:E; [done|]. exact E.
Qed.

(** Every character of [s.trim()] is a character of [s]. *)
Lemma js_trim_incl s c :
  In c (list_ascii_of_string (js_trim s)) → In c (list_ascii_of_string s).
Proof.
  unfold js_trim. rewrite list_ascii_of_string_of_list_ascii.
  intros H. apply in_rev, drop_spaces_incl, in_rev, drop_spaces_incl in H. exact H.
Qed.

(** A character class found in [s.trim()] is found in [s]. *)
Lemma js_test_class_trim cls s :
  js_test_class cls (js_trim s) = true → js_test_class cls s = true.
Proof.
  unfold js_test_class. rewrite !existsb_exists.
  intros [c [Hin Hc]]. exists c. split; [by apply js_trim_incl|done].
Qed.

#[export] Hint Resolve js_trim_incl js_test_class_trim : echo.

(** A rounded percentage of [loaded] out of [total] stays in [0, 100]. *)
Lemma js_round_div_percent (loaded total : Z) :
  (0 ≤ loaded ≤ total → 0 < total → 0 ≤ js_round_div (loaded * 100) total ≤ 100)%Z.
Proof.
  intros Hl Ht. unfold js_round_div. split.
  - apply Z.div_pos; lia.
  - assert ((2 * (loaded * 100) + total) / (2 * total) < 101)%Z; [|lia].
    apply Z.div_lt_upper_bound; lia.
Qed.

(** ** Results of fallible operations *)

(** The outcome of an operation that can fail with an error of type [E]:
    the HTTP routes answer with a body or with an error status. *)
Inductive result (E A : Type) : Type :=
| Ok (a : A)
| Err (e : E).
Arguments Ok {E A} a.
Arguments Err {E A} e.

#[export] Instance result_ret E : MRet (result E) := λ A a, Ok a.
#[export] Instance result_bind E : MBind (result E) :=
  λ A B f r, match r with Ok a => f a | Err e => Err e end.

(** [if (!cond) return error(e)] *)
Definition check {E} (cond : bool) (e : E) : result E () :=
  if cond then Ok () else Err e.

Lemma bind_Ok {E A B} (r : result E A) (f : A → result E B) b :
  (r ≫= f) = Ok b ↔ ∃ a, r = Ok a ∧ f a = Ok b.
Proof. destruct r; simpl; naive_solver. Qed.

Lemma check_Ok {E} (c : bool) (e : E) u : check c e = Ok u ↔ c = true.
Proof. destruct c, u; simpl; naive_solver. Qed.

#[export] Hint Rewrite @bind_Ok @check_Ok : echo_rw.

(** Close a decidable proposition about concrete data by evaluation. *)
Ltac decide_by_eval := apply (bool_decide_unpack _); vm_compute; exact I.
