(* ===== verification/Rounding.v ===== *)
(** * Rounding: [Math.round] of a quotient, against its definition

    FileUploadModal.tsx reports progress as
    [Math.round((loaded * 100) / total)].  Prelude.v computes it in
    integers as [js_round_div]; this file states the reference: ECMAScript
    rounds [x] to the integer closest to it, ties towards +∞, that is
    [floor(x + 1/2)], written here with the rationals of QArith, and
    shows that the integer computation is that reference for every
    positive divisor. *)

From Stdlib Require Import QArith Qround.
From S2P Require Import Prelude.

Module Rounding.

(** [Math.round] on a rational. *)
Definition math_round (x : Q) : Z := Qfloor (x + (1 # 2)).

(** The reference is the integer closest to [x], ties going up. *)
Lemma math_round_closest (x : Q) :
  (inject_Z (math_round x) - (1 # 2) <= x)%Q ∧ (x < inject_Z (math_round x) + (1 # 2))%Q.
Proof.
  unfold math_round. pose proof (Qfloor_le (x + (1 # 2))) as Hle.
  pose proof (Qlt_floor (x + (1 # 2))) as Hlt.
  rewrite inject_Z_plus in Hlt. split.
  - apply (Qplus_le_l _ _ (1 # 2)). ring_simplify. exact Hle.
  - apply (Qplus_lt_l _ _ (1 # 2)). ring_simplify. ring_simplify in Hlt. exact Hlt.
Qed.

(** [Math.round] of a quotient scaled by 10, as [toFixed(1)] computes
    it, is the integer computation on the scaled numerator. *)
Lemma math_round_scaled (a : Z) (b : positive) :
  math_round (inject_Z a / inject_Z (Zpos b) * 10) = js_round_div (a * 10) (Zpos b).
Proof.
  unfold js_round_div, math_round.
  cbv [Qfloor Qplus Qdiv Qmult Qinv inject_Z Qnum Qden].
  rewrite !Pos.mul_1_l, !Pos.mul_1_r, !Z.mul_1_r. f_equal; lia.
Qed.

(** For every integer [a] and positive [b], the integer computation
    [js_round_div a b] is [Math.round(a / b)]. *)
Lemma js_round_div_math_round (a : Z) (b : positive) :
  js_round_div a (Zpos b) = math_round (inject_Z a / inject_Z (Zpos b)).
Proof.
  unfold js_round_div, math_round.
  cbv [Qfloor Qplus Qdiv Qmult Qinv inject_Z Qnum Qden].
  rewrite !Pos.mul_1_l, !Z.mul_1_r. f_equal; lia.
Qed.

End Rounding.
