(* ===== verification/Schema.v ===== *)
(** * Schema: the [files] table (src/lib/db/schema.ts)

    A row of the table is the record [File]; [NewFile] is the insert type
    ([typeof files.$inferInsert]) whose defaulted columns are optional, and
    [insert_row] applies the column defaults and the range check of the
    Postgres [integer] column [size].  [parent] and [children] are the
    self relation [filesRelations].  The JavaScript object spread
    [{ ...f, isStarred: b }] is [with_isStarred b f] (and likewise for the
    other mutable columns).

    Two rows that differ only in [updatedAt] are equivalent ([≡]): the
    server refreshes [updatedAt] on every mutation while the browser's
    optimistic copy does not, so the browser can at best agree with the
    server up to this equivalence.  [≡] is an [Equivalence], lifted to
    lists by stdpp's [Forall2 (≡)], and every column but [updatedAt]
    respects it. *)

From S2P Require Import Prelude.

Module Schema.

Local Open Scope Z_scope.

(** One row of [pgTable("files", {...})].  Timestamps are milliseconds
    since the epoch; [size] is a Postgres [integer]. *)
Record File := mkFile {
  id : string;
  parentId : option string;
  name : string;
  path : string;
  size : Z;
  type : string;
  fileUrl : string;
  thumbnailUrl : option string;
  userId : string;
  isFolder : bool;
  isStarred : bool;
  isTrash : bool;
  createdAt : Z;
  updatedAt : Z
}.

#[export] Instance File_eq_dec : EqDecision File.
Proof. solve_decision. Defined.

(** [typeof files.$inferInsert]: the columns with a default may be
    omitted. *)
Record NewFile := mkNewFile {
  nf_id : option string;
  nf_parentId : option string;
  nf_name : string;
  nf_path : string;
  nf_size : Z;
  nf_type : string;
  nf_fileUrl : string;
  nf_thumbnailUrl : option string;
  nf_userId : string;
  nf_isFolder : option bool;
  nf_isStarred : option bool;
  nf_isTrash : option bool;
  nf_createdAt : option Z;
  nf_updatedAt : option Z
}.

(** The range of a Postgres [integer] (int4) column. *)
Definition int4_min : Z := - 2 ^ 31.
Definition int4_max : Z := 2 ^ 31 - 1.

Definition int4_in_range (z : Z) : bool := (int4_min <=? z) && (z <=? int4_max).

(** [INSERT INTO files ...]: [defaultRandom()] draws [fresh],
    [defaultNow()] reads [now], the boolean columns default to [false];
    an out-of-range [size] is rejected by the database. *)
Definition insert_row (fresh : string) (now : Z) (nf : NewFile) : option File :=
  if int4_in_range (nf_size nf) then
    Some {| id := default fresh (nf_id nf);
            parentId := nf_parentId nf;
            name := nf_name nf;
            path := nf_path nf;
            size := nf_size nf;
            type := nf_type nf;
            fileUrl := nf_fileUrl nf;
            thumbnailUrl := nf_thumbnailUrl nf;
            userId := nf_userId nf;
            isFolder := default false (nf_isFolder nf);
            isStarred := default false (nf_isStarred nf);
            isTrash := default false (nf_isTrash nf);
            createdAt := default now (nf_createdAt nf);
            updatedAt := default now (nf_updatedAt nf) |}
  else None.

(** [filesRelations]: [parent] follows the foreign key [parentId] to the
    primary key [id]; [children] is its inverse. *)
Definition parent (rows : list File) (f : File) : option File :=
  match parentId f with
  | None => None
  | Some p => List.find (λ g, id g === p) rows
  end.

Definition children (rows : list File) (f : File) : list File :=
  List.filter (λ g, bool_decide (parentId g = Some (id f))) rows.

(** The object spread [{ ...f, isStarred: b }] and its siblings. *)
Definition with_isStarred (b : bool) (f : File) : File :=
  {| id := id f; parentId := parentId f; name := name f; path := path f;
     size := size f; type := type f; fileUrl := fileUrl f;
     thumbnailUrl := thumbnailUrl f; userId := userId f;
     isFolder := isFolder f; isStarred := b; isTrash := isTrash f;
     createdAt := createdAt f; updatedAt := updatedAt f |}.

Definition with_isTrash (b : bool) (f : File) : File :=
  {| id := id f; parentId := parentId f; name := name f; path := path f;
     size := size f; type := type f; fileUrl := fileUrl f;
     thumbnailUrl := thumbnailUrl f; userId := userId f;
     isFolder := isFolder f; isStarred := isStarred f; isTrash := b;
     createdAt := createdAt f; updatedAt := updatedAt f |}.

Definition with_updatedAt (t : Z) (f : File) : File :=
  {| id := id f; parentId := parentId f; name := name f; path := path f;
     size := size f; type := type f; fileUrl := fileUrl f;
     thumbnailUrl := thumbnailUrl f; userId := userId f;
     isFolder := isFolder f; isStarred := isStarred f; isTrash := isTrash f;
     createdAt := createdAt f; updatedAt := t |}.

(** ** Equality up to [updatedAt] *)

#[export] Instance File_equiv : Equiv File :=
  λ f g, with_updatedAt 0 f = with_updatedAt 0 g.

#[export] Instance File_equivalence : Equivalence (≡@{File}).
Proof.
  split; unfold equiv, File_equiv; [done| by intros ?? ->| by intros ??? -> ->].
Qed.

Lemma file_equiv_iff f g :
  f ≡ g ↔
    id f = id g ∧ parentId f = parentId g ∧ name f = name g ∧
    path f = path g ∧ size f = size g ∧ type f = type g ∧
    fileUrl f = fileUrl g ∧ thumbnailUrl f = thumbnailUrl g ∧
    userId f = userId g ∧ isFolder f = isFolder g ∧
    isStarred f = isStarred g ∧ isTrash f = isTrash g ∧
    createdAt f = createdAt g.
Proof.
  unfold equiv, File_equiv, with_updatedAt. destruct f, g; simpl.
  split; [intros H; injection H; naive_solver|].
  intros (-> & -> & -> & -> & -> & -> & -> & -> & -> & -> & -> & -> & ->). done.
Qed.

(** Equivalent rows agree on every column but [updatedAt]; one tactic
    derives the [Proper] instance of each projection. *)
Ltac solve_field_proper :=
  intros ?? Hfg; apply file_equiv_iff in Hfg; naive_solver.

#[export] Instance id_proper : Proper ((≡) ==> (=)) id.
Proof. solve_field_proper. Qed.
#[export] Instance parentId_proper : Proper ((≡) ==> (=)) parentId.
Proof. solve_field_proper. Qed.
#[export] Instance name_proper : Proper ((≡) ==> (=)) name.
Proof. solve_field_proper. Qed.
#[export] Instance userId_proper : Proper ((≡) ==> (=)) userId.
Proof. solve_field_proper. Qed.
#[export] Instance isFolder_proper : Proper ((≡) ==> (=)) isFolder.
Proof. solve_field_proper. Qed.
#[export] Instance isStarred_proper : Proper ((≡) ==> (=)) isStarred.
Proof. solve_field_proper. Qed.
#[export] Instance isTrash_proper : Proper ((≡) ==> (=)) isTrash.
Proof. solve_field_proper. Qed.

(** A row is equivalent to itself with a new [updatedAt]. *)
Lemma with_updatedAt_equiv t f : with_updatedAt t f ≡ f.
Proof. by destruct f. Qed.

#[export] Instance with_isStarred_proper b : Proper ((≡) ==> (≡)) (with_isStarred b).
Proof.
  intros f g H. apply file_equiv_iff in H. apply file_equiv_iff.
  destruct f, g; simpl in *; naive_solver.
Qed.

#[export] Instance with_isTrash_proper b : Proper ((≡) ==> (≡)) (with_isTrash b).
Proof.
  intros f g H. apply file_equiv_iff in H. apply file_equiv_iff.
  destruct f, g; simpl in *; naive_solver.
Qed.

(** [List.filter] and [map] respect [≡] on lists when their function
    does. *)
Lemma filter_proper (p : File → bool) :
  Proper ((≡) ==> (=)) p → Proper ((≡) ==> (≡)) (List.filter p).
Proof.
  intros Hp l k Hlk. induction Hlk as [|x y l k Hxy _ IH]; simpl; [done|].
  rewrite (Hp x y Hxy). destruct (p y); [by constructor|done].
Qed.

Lemma map_proper (f : File → File) :
  Proper ((≡) ==> (≡)) f → Proper ((≡) ==> (≡)) (map f).
Proof.
  intros Hf l k Hlk. induction Hlk; simpl; constructor; auto.
Qed.

(** A map that changes each row only up to [≡] changes the list only up
    to [≡]. *)
Lemma map_equiv_id (h : File → File) (l : list File) :
  (∀ g, In g l → h g ≡ g) → map h l ≡ l.
Proof.
  intros H. induction l as [|g l IH]; simpl; [done|].
  constructor; [apply H; by left|]. apply IH. intros x Hx. apply H. by right.
Qed.

(** Maps by pointwise equivalent functions give equivalent lists. *)
Lemma map_equiv_pointwise (h1 h2 : File → File) (l : list File) :
  (∀ g, h1 g ≡ h2 g) → map h1 l ≡ map h2 l.
Proof. intros H. induction l as [|g l IH]; simpl; constructor; auto. Qed.

#[export] Hint Resolve with_updatedAt_equiv map_equiv_id map_equiv_pointwise : echo.

(** ** Sample rows used by the witnesses of the development *)

(** A text file of user ["alice"] at the root. *)
Definition demo_file : File :=
  {| id := "f1"; parentId := None; name := "a.txt"; path := "/a.txt";
     size := 3; type := "text/plain"; fileUrl := "https://cdn/a.txt";
     thumbnailUrl := None; userId := "alice"; isFolder := false;
     isStarred := false; isTrash := false; createdAt := 0; updatedAt := 0 |}.

(** A folder ["Docs"] of ["alice"] at the root. *)
Definition demo_folder : File :=
  {| id := "d1"; parentId := None; name := "Docs"; path := "/Docs";
     size := 0; type := "folder"; fileUrl := ""; thumbnailUrl := None;
     userId := "alice"; isFolder := true; isStarred := false; isTrash := false;
     createdAt := 0; updatedAt := 0 |}.

End Schema.
