(* ===== verification/Views.v ===== *)
(** * Views: the three tabs of the file list (src/components/FileList.tsx)

    [filteredFiles activeTab files] is the [useMemo] of lines 80-86: the
    tab "starred" keeps the starred rows that are not in the trash, the
    tab "trash" keeps the trashed rows, and every other tab (the [case
    "all": default:] branch) keeps the rows not in the trash.  The three
    badge counters of lines 89-91 count the same filters.

    The theorems show that the "all" and "trash" tabs partition the
    fetched rows (as a permutation, hence also for the counters), that the
    starred tab is a sub-list of the "all" tab, and that every view and
    counter respects equality up to [updatedAt]. *)

From S2P Require Import Prelude Schema.
Import Schema.

Module Views.

(** The predicates of the three [files.filter] calls. *)
Definition starred_pred (file : File) : bool := isStarred file && negb (isTrash file).
Definition trash_pred (file : File) : bool := isTrash file.
Definition all_pred (file : File) : bool := negb (isTrash file).

(** [filteredFiles] (FileList.tsx, lines 80-86). *)
Definition filteredFiles (activeTab : string) (files : list File) : list File :=
  if activeTab === "starred" then List.filter starred_pred files
  else if activeTab === "trash" then List.filter trash_pred files
  else List.filter all_pred files.

(** The badge counters (FileList.tsx, lines 89-91). *)
Definition trashCount (files : list File) : nat := length (List.filter trash_pred files).
Definition starredCount (files : list File) : nat := length (List.filter starred_pred files).
Definition allFilesCount (files : list File) : nat := length (List.filter all_pred files).

(** ** Lemmas *)

Lemma filteredFiles_starred files :
  filteredFiles "starred" files = List.filter starred_pred files.
Proof. done. Qed.

Lemma filteredFiles_trash files :
  filteredFiles "trash" files = List.filter trash_pred files.
Proof. done. Qed.

Lemma filteredFiles_all files :
  filteredFiles "all" files = List.filter all_pred files.
Proof. done. Qed.

Lemma filteredFiles_default tab files :
  tab ≠ "starred" → tab ≠ "trash" → filteredFiles tab files = List.filter all_pred files.
Proof. intros H1 H2. unfold filteredFiles. by destruct_js_eq. Qed.

Lemma all_pred_negb f : all_pred f = negb (trash_pred f).
Proof. done. Qed.

Lemma starred_pred_all f : starred_pred f = true → all_pred f = true.
Proof. unfold starred_pred, all_pred. by destruct (isStarred f), (isTrash f). Qed.

(** A list splits into the rows a predicate keeps and the rows it drops. *)
Lemma filter_partition_perm {A} (p : A → bool) (l : list A) :
  List.filter p l ++ List.filter (λ x, negb (p x)) l ≡ₚ l.
Proof.
  induction l as [|x l IH]; simpl; [done|].
  destruct (p x); simpl.
  - by constructor.
  - rewrite <-Permutation_middle. by constructor.
Qed.

#[export] Hint Resolve starred_pred_all : echo.
#[export] Hint Rewrite filteredFiles_starred filteredFiles_trash filteredFiles_all : echo_rw.

#[export] Instance starred_pred_proper : Proper ((≡) ==> (=)) starred_pred.
Proof. intros f g H. unfold starred_pred. by rewrite H. Qed.
#[export] Instance trash_pred_proper : Proper ((≡) ==> (=)) trash_pred.
Proof. intros f g H. unfold trash_pred. by rewrite H. Qed.
#[export] Instance all_pred_proper : Proper ((≡) ==> (=)) all_pred.
Proof. intros f g H. unfold all_pred. by rewrite H. Qed.

(** ** Properties *)

(** C1 (Views): the "all" tab and the "trash" tab partition the fetched
    rows: together they are a permutation of [files], no row is in both,
    and the two counters add up to the number of rows. *)
Theorem views_partition (files : list File) :
  filteredFiles "all" files ++ filteredFiles "trash" files ≡ₚ files ∧
  (∀ f, In f (filteredFiles "all" files) → ¬ In f (filteredFiles "trash" files)) ∧
  allFilesCount files + trashCount files = length files.
Proof.
  rewrite filteredFiles_all, filteredFiles_trash. split; [|split].
  - rewrite (Permutation_app_comm _ (List.filter trash_pred files)).
    apply filter_partition_perm.
  - intros f Hin Htr. by apply (In_filter_negb trash_pred files f).
  - unfold allFilesCount, trashCount. rewrite Nat.add_comm.
    apply filter_length.
Qed.

(** C2 (Views): every row of the starred tab is in the "all" tab, and the
    starred counter never exceeds the "all" counter. *)
Theorem starred_sub_all (files : list File) :
  (∀ f, In f (filteredFiles "starred" files) → In f (filteredFiles "all" files)) ∧
  starredCount files ≤ allFilesCount files.
Proof.
  split.
  - intros f. rewrite filteredFiles_starred, filteredFiles_all, !filter_In.
    intros [Hin Hs]. eauto with echo.
  - unfold starredCount, allFilesCount.
    assert (E : List.filter starred_pred files =
                List.filter starred_pred (List.filter all_pred files)).
    { rewrite filter_filter_andb. apply filter_ext. intros f.
      unfold starred_pred, all_pred. by destruct (isStarred f), (isTrash f). }
    rewrite E. apply filter_length_le.
Qed.

(** Every view and counter gives equivalent results on equivalent lists. *)
#[export] Instance filteredFiles_proper tab : Proper ((≡) ==> (≡)) (filteredFiles tab).
Proof.
  intros l k H. unfold filteredFiles.
  destruct (_ === _); [|destruct (_ === _)]; apply filter_proper; auto; apply _.
Qed.

#[export] Instance trashCount_proper : Proper ((≡) ==> (=)) trashCount.
Proof. intros l k H. unfold trashCount. apply length_proper. by apply filter_proper; [apply _|]. Qed.
#[export] Instance starredCount_proper : Proper ((≡) ==> (=)) starredCount.
Proof. intros l k H. unfold starredCount. apply length_proper. by apply filter_proper; [apply _|]. Qed.
#[export] Instance allFilesCount_proper : Proper ((≡) ==> (=)) allFilesCount.
Proof. intros l k H. unfold allFilesCount. apply length_proper. by apply filter_proper; [apply _|]. Qed.

End Views.
