(* ===== verification/Api.v ===== *)
(** * Api: what the server promises the browser

    The browser (src/components/FileList.tsx) talks to the server only
    through the routes [GET /api/files], [PATCH /api/files/:id/star],
    [PATCH /api/files/:id/trash], [DELETE /api/files/:id/delete] and
    [DELETE /api/files/empty-trash].  This file states that contract as a
    type class over an abstract server state [Srv]:

    - [FilesApi] gives the operations, each scoped by the authenticated
      user and each fallible with an [ApiError];
    - [FilesApiLaws] states, for a server state satisfying [api_wf], the
      effect of each successful mutation on every listing the browser can
      fetch: starring and trashing flip one flag of the row [fid] (up to
      [updatedAt]), deleting drops the row [fid], emptying the trash drops
      the trashed rows.

    The client's theorems (Client.v) are proved against these laws only;
    Store.v implements the class and discharges them. *)

From S2P Require Import Prelude Schema.
Import Schema.

Module Api.

(** The error taxonomy of section 7 of the specification, with the
    internal-consistency error of section 4.2, the primary-key violation
    and the integer range error of the table, and the failure of a request that never got an answer
    (axios rejects the promise). *)
Inductive ApiError :=
| InvalidName
| InvalidParent
| CycleDetected
| NotFound
| NotTrashed
| OwnershipMismatch
| StorageUnavailable
| InternalInconsistency
| DuplicateKey
| OutOfRange
| NetworkError.

#[export] Instance ApiError_eq_dec : EqDecision ApiError.
Proof. solve_decision. Defined.

(** The effect of a star on one row of a listing: the row [fid] has its
    flag flipped, every other row is unchanged. *)
Definition flip_starred (fid : string) (f : File) : File :=
  if id f === fid then with_isStarred (negb (isStarred f)) f else f.

Definition flip_trash (fid : string) (f : File) : File :=
  if id f === fid then with_isTrash (negb (isTrash f)) f else f.

Class FilesApi (Srv : Type) := {
  api_wf : Srv → Prop;
  list_rows : string → option string → Srv → list File;
  star : string → string → Z → Srv → result ApiError (Srv * File);
  trash : string → string → Z → Srv → result ApiError (Srv * File);
  delete_row : string → string → Srv → result ApiError Srv;
  empty_trash : string → Srv → Srv * nat
}.

Class FilesApiLaws (Srv : Type) `{FilesApi Srv} := {
  star_law u fid now s s' f p :
    api_wf s → star u fid now s = Ok (s', f) →
    list_rows u p s' ≡ map (flip_starred fid) (list_rows u p s) ∧ api_wf s';
  trash_law u fid now s s' f p :
    api_wf s → trash u fid now s = Ok (s', f) →
    list_rows u p s' ≡ map (flip_trash fid) (list_rows u p s) ∧ api_wf s' ∧
    (∀ g, In g (list_rows u p s) → id g = fid → isTrash f = negb (isTrash g));
  delete_law u fid s s' p :
    api_wf s → delete_row u fid s = Ok s' →
    list_rows u p s' = List.filter (λ g, negb (id g === fid)) (list_rows u p s) ∧ api_wf s';
  empty_trash_law u s p :
    api_wf s →
    list_rows u p (empty_trash u s).1 = List.filter (λ g, negb (isTrash g)) (list_rows u p s) ∧
    api_wf (empty_trash u s).1
}.

(** ** Lemmas on the promised effects *)

#[export] Instance flip_starred_proper fid : Proper ((≡) ==> (≡)) (flip_starred fid).
Proof.
  intros f g H. unfold flip_starred. rewrite (id_proper f g H).
  destruct (id g === fid); [|done]. rewrite (isStarred_proper f g H). by f_equiv.
Qed.

#[export] Instance flip_trash_proper fid : Proper ((≡) ==> (≡)) (flip_trash fid).
Proof.
  intros f g H. unfold flip_trash. rewrite (id_proper f g H).
  destruct (id g === fid); [|done]. rewrite (isTrash_proper f g H). by f_equiv.
Qed.

End Api.
