(* ===== verification/Store.v ===== *)
(** * Store: the server side of the [files] table (the HTTP routes)

    The routes the browser calls ([GET /api/files], [PATCH
    /api/files/:id/star], [PATCH /api/files/:id/trash], [DELETE
    /api/files/:id/delete], [DELETE /api/files/empty-trash], [POST
    /api/folders/create], [POST /api/files/upload]) are not in src/; they
    are modelled from the specification (sections 4.1 to 4.5 and 6).

    The table is a list of rows in storage order: a listing is a filter of
    it, an [UPDATE ... WHERE id = ...] maps over it, a [DELETE] filters it
    and an [INSERT] appends, so listings keep a stable order.  Every route
    is scoped by the authenticated user [u] and returns a [result]; the
    clock [now] is an argument.

    The well-formedness invariant [store_wf] is: ids are unique (primary
    key), every parent link points to a folder of the same owner, folders
    have size 0, and the parent walk of every row reaches the root. *)

From S2P Require Import Prelude Schema Api.
Import Schema Api.

Module Store.

Local Open Scope Z_scope.

(** ** Row access *)

Definition ids (rows : list File) : list string := map id rows.

Definition find_row (rows : list File) (fid : string) : option File :=
  List.find (λ g, id g === fid) rows.

(** [get(id, ownerId)]: a row of another owner is reported as
    [NotFound] (section 4.3). *)
Definition owned_row (u : string) (rows : list File) (fid : string) : result ApiError File :=
  match find_row rows fid with
  | Some f => if userId f === u then Ok f else Err NotFound
  | None => Err NotFound
  end.

(** [UPDATE files SET ... WHERE id = fid]. *)
Definition update_row (fid : string) (f' : File) (rows : list File) : list File :=
  map (λ g, if id g === fid then f' else g) rows.

(** ** The routes *)

(** [GET /api/files?userId=u&parentId=p]: the rows of [u] directly under
    [p] (under the root when [p] is [None]). *)
Definition api_list (u : string) (p : option string) (rows : list File) : list File :=
  List.filter (λ f, (userId f === u) && bool_decide (parentId f = p)) rows.

(** [PATCH /api/files/:id/star]: flip [isStarred], refresh [updatedAt],
    answer with the updated row. *)
Definition api_toggle_star (u fid : string) (now : Z) (rows : list File)
    : result ApiError (list File * File) :=
  f ← owned_row u rows fid;
  let f' := with_updatedAt now (with_isStarred (negb (isStarred f)) f) in
  mret (update_row fid f' rows, f').

(** [PATCH /api/files/:id/trash]: flip [isTrash], answer with the updated
    row so that the caller can tell "moved to trash" from "restored". *)
Definition api_toggle_trash (u fid : string) (now : Z) (rows : list File)
    : result ApiError (list File * File) :=
  f ← owned_row u rows fid;
  let f' := with_updatedAt now (with_isTrash (negb (isTrash f)) f) in
  mret (update_row fid f' rows, f').

(** [DELETE /api/files/:id/delete]: only a trashed row may be removed. *)
Definition api_delete (u fid : string) (rows : list File) : result ApiError (list File) :=
  f ← owned_row u rows fid;
  _ ← check (isTrash f) NotTrashed;
  mret (List.filter (λ g, negb (id g === fid)) rows).

(** [DELETE /api/files/empty-trash]: remove every trashed row of [u] and
    answer with their number. *)
Definition emptied (u : string) (g : File) : bool := (userId g === u) && isTrash g.

Definition api_empty_trash (u : string) (rows : list File) : list File * nat :=
  (List.filter (λ g, negb (emptied u g)) rows, length (List.filter (emptied u) rows)).

(** ** Lemmas *)

Lemma find_row_Some rows fid f :
  find_row rows fid = Some f → In f rows ∧ id f = fid.
Proof.
  unfold find_row. intros H. split; [by eapply find_some|].
  apply find_some in H as [_ H]. by destruct (String.eqb_spec (id f) fid).
Qed.

Lemma find_row_None rows fid :
  find_row rows fid = None → ∀ g, In g rows → id g ≠ fid.
Proof.
  unfold find_row. intros H g Hg Heq. apply (find_none _ _ H) in Hg.
  rewrite Heq, String.eqb_refl in Hg. done.
Qed.

(** With unique ids, the row found under [fid] is the only row with that
    id. *)
Lemma find_row_unique rows fid f g :
  NoDup (ids rows) → find_row rows fid = Some f → In g rows → id g = fid → g = f.
Proof.
  unfold ids. intros Hnd Hf Hg Hid. apply find_row_Some in Hf as [Hf Hidf].
  rewrite <-Hidf in Hid. clear Hidf.
  induction rows as [|x rows IH]; [done|].
  simpl in Hnd. apply NoDup_cons in Hnd as [Hx Hnd'].
  rewrite list_elem_of_In in Hx. destruct Hf as [<-|Hf], Hg as [<-|Hg].
  - done.
  - exfalso. apply Hx. rewrite <-Hid. by apply in_map.
  - exfalso. apply Hx. rewrite Hid. by apply in_map.
  - by apply IH.
Qed.

Lemma owned_row_Ok u rows fid f :
  owned_row u rows fid = Ok f ↔ find_row rows fid = Some f ∧ userId f = u.
Proof.
  unfold owned_row. destruct (find_row rows fid) as [g|]; [|naive_solver].
  destruct (String.eqb_spec (userId g) u); naive_solver.
Qed.

(** Updating the row [fid] with a function of that row is a pointwise
    map when ids are unique. *)
Lemma update_row_map rows fid f (h : File → File) :
  NoDup (ids rows) → find_row rows fid = Some f →
  update_row fid (h f) rows = map (λ g, if id g === fid then h g else g) rows.
Proof.
  intros Hnd Hf. unfold update_row. apply map_ext_in. intros g Hg.
  destruct (String.eqb_spec (id g) fid) as [Hid|]; [|done].
  by rewrite (find_row_unique rows fid f g).
Qed.

#[export] Hint Resolve find_row_Some find_row_unique : echo.

Lemma ids_update_row fid f' rows :
  id f' = fid → ids (update_row fid f' rows) = ids rows.
Proof.
  intros Hid. unfold ids, update_row. rewrite map_map. apply map_ext. intros g.
  destruct (String.eqb_spec (id g) fid); congruence.
Qed.

Lemma find_row_update_row fid f' rows f :
  id f' = fid → find_row rows fid = Some f → find_row (update_row fid f' rows) fid = Some f'.
Proof.
  intros Hid. unfold find_row, update_row. induction rows as [|g rows IH]; [done|]; simpl.
  destruct (String.eqb_spec (id g) fid); simpl.
  - intros _. by rewrite Hid, String.eqb_refl.
  - destruct (String.eqb_spec (id g) fid); [done|]. apply IH.
Qed.

(** The two toggles share one shape: flip a boolean column with [set],
    read with [get], and refresh [updatedAt]. *)
Section Toggle.
Context (get : File → bool) (set : bool → File → File).
Hypothesis set_id : ∀ b f, id (set b f) = id f.
Hypothesis set_userId : ∀ b f, userId (set b f) = userId f.
Hypothesis set_parentId : ∀ b f, parentId (set b f) = parentId f.
Hypothesis get_set : ∀ b f, get (set b f) = b.
Hypothesis set_set_get : ∀ f, set (negb (negb (get f))) (set (negb (get f)) f) ≡ f.
Context `{set_proper : ∀ b, Proper (equiv ==> equiv)%signature (set b)}.
Hypothesis get_equiv : ∀ f g, f ≡ g → get f = get g.

Definition toggle (u fid : string) (now : Z) (rows : list File)
    : result ApiError (list File * File) :=
  f ← owned_row u rows fid;
  let f' := with_updatedAt now (set (negb (get f)) f) in
  mret (update_row fid f' rows, f').

Lemma toggle_twice u fid t1 t2 rows rows1 f1 :
  NoDup (ids rows) →
  toggle u fid t1 rows = Ok (rows1, f1) →
  ∃ rows2 f2, toggle u fid t2 rows1 = Ok (rows2, f2) ∧ rows2 ≡ rows ∧
              get f2 = negb (get f1).
Proof.
  intros Hnd Ht. unfold toggle in Ht. simpl in Ht.
  destruct (owned_row u rows fid) as [f|] eqn:Ho; [|done]. simpl in Ht.
  injection Ht as <- <-. apply owned_row_Ok in Ho as [Hf Hu].
  pose proof (find_row_Some _ _ _ Hf) as [Hin Hid].
  set (f' := with_updatedAt t1 (set (negb (get f)) f)).
  assert (Hid' : id f' = fid) by (unfold f'; simpl; by rewrite set_id).
  eexists _, _. split.
  - unfold toggle. simpl. unfold owned_row.
    rewrite (find_row_update_row fid f' rows f Hid' Hf).
    assert (userId f' = u) as -> by (unfold f'; simpl; by rewrite set_userId).
    rewrite String.eqb_refl. simpl. reflexivity.
  - split.
    + rewrite update_row_map with (f := f') (h := λ g, with_updatedAt t2
          (set (negb (get g)) g)) by (rewrite ?ids_update_row; eauto using find_row_update_row).
      unfold update_row. rewrite map_map. apply map_equiv_id. intros g Hg.
      destruct (String.eqb_spec (id g) fid) as [Hg'|Hne]; simpl.
      * pose proof (find_row_unique rows fid f g Hnd Hf Hg Hg') as ->.
        rewrite set_id, Hg', String.eqb_refl.
        rewrite with_updatedAt_equiv.
        assert (Hget : get f' = negb (get f)).
        { unfold f'. rewrite (get_equiv _ _ (with_updatedAt_equiv _ _)). apply get_set. }
        rewrite Hget. unfold f'. rewrite with_updatedAt_equiv. apply set_set_get.
      * by rewrite (proj2 (String.eqb_neq _ _) Hne).
    + by rewrite (get_equiv _ _ (with_updatedAt_equiv _ _)), get_set.
Qed.
(** A successful toggle flips the flag of the row [fid] in every listing
    and keeps the ids unique. *)
Lemma toggle_listing u fid now rows rows' f p :
  NoDup (ids rows) → toggle u fid now rows = Ok (rows', f) →
  api_list u p rows' ≡ map (λ g, if id g === fid then set (negb (get g)) g else g)
                           (api_list u p rows) ∧
  NoDup (ids rows') ∧
  (∀ g, In g rows → id g = fid → get f = negb (get g)).
Proof.
  intros Hnd Ht. unfold toggle in Ht. simpl in Ht.
  destruct (owned_row u rows fid) as [f0|] eqn:Ho; [|done]. simpl in Ht.
  injection Ht as <- <-. apply owned_row_Ok in Ho as [Hf _].
  pose proof (find_row_Some _ _ _ Hf) as [_ Hid].
  assert (Hid' : id (with_updatedAt now (set (negb (get f0)) f0)) = fid)
    by (simpl; by rewrite set_id).
  split; [|split].
  - rewrite (update_row_map rows fid f0 (λ g, with_updatedAt now (set (negb (get g)) g)))
      by done.
    unfold api_list. rewrite filter_map_invariant.
    + apply map_equiv_pointwise. intros g. by destruct (id g === fid).
    + intros g. destruct (id g === fid); [|done]. simpl. by rewrite set_userId, set_parentId.
  - by rewrite ids_update_row.
  - intros g Hg Hg'. rewrite (find_row_unique rows fid f0 g Hnd Hf Hg Hg').
    rewrite (get_equiv _ _ (with_updatedAt_equiv _ _)). apply get_set.
Qed.
End Toggle.

(** The side conditions of [toggle_twice] for a concrete column. *)
Ltac solve_toggle_side :=
  first [ apply _
        | intros ?? Hfg; by rewrite Hfg
        | intros []; apply file_equiv_iff; simpl; rewrite negb_involutive; naive_solver ].

Lemma api_toggle_star_toggle u fid now rows :
  api_toggle_star u fid now rows = toggle isStarred with_isStarred u fid now rows.
Proof. done. Qed.

Lemma api_toggle_trash_toggle u fid now rows :
  api_toggle_trash u fid now rows = toggle isTrash with_isTrash u fid now rows.
Proof. done. Qed.

(** Removing rows keeps the ids unique. *)
Lemma ids_filter_nodup (q : File → bool) rows :
  NoDup (ids rows) → NoDup (ids (List.filter q rows)).
Proof.
  unfold ids. induction rows as [|g rows IH]; simpl; [done|].
  intros Hnd. apply NoDup_cons in Hnd as [Hg Hnd]. destruct (q g); simpl; [|auto].
  apply NoDup_cons. split; [|auto]. intros Hin. apply Hg.
  apply list_elem_of_In in Hin. apply list_elem_of_In.
  apply in_map_iff in Hin as (x & Hx & Hin). apply filter_In in Hin as [Hin _].
  apply in_map_iff. eauto.
Qed.

Lemma filter_comm (p q : File → bool) (l : list File) :
  List.filter p (List.filter q l) = List.filter q (List.filter p l).
Proof.
  rewrite !filter_filter_andb. apply filter_ext. intros g. apply andb_comm.
Qed.

Lemma api_delete_Ok u fid rows rows' :
  api_delete u fid rows = Ok rows' →
  ∃ f, owned_row u rows fid = Ok f ∧ isTrash f = true ∧
       rows' = List.filter (λ g, negb (id g === fid)) rows.
Proof.
  unfold api_delete. simpl. destruct (owned_row u rows fid) as [f|]; [|done]. simpl.
  destruct (isTrash f) eqn:Ht; simpl; [|done]. intros [= <-]. eauto.
Qed.

(** ** The store implements the browser's contract *)

#[export] Instance store_api : FilesApi (list File) := {
  api_wf rows := NoDup (ids rows);
  list_rows := api_list;
  star := api_toggle_star;
  trash := api_toggle_trash;
  delete_row := api_delete;
  empty_trash := api_empty_trash
}.

#[export] Instance store_laws : FilesApiLaws (list File).
Proof.
  split; simpl.
  - intros u fid now s s' f p Hnd Ht. rewrite api_toggle_star_toggle in Ht.
    destruct (toggle_listing isStarred with_isStarred ltac:(done) ltac:(done)
                ltac:(done) ltac:(done) ltac:(by intros ?? ->) u fid now s s' f p Hnd Ht)
      as (Hl & Hnd' & _).
    done.
  - intros u fid now s s' f p Hnd Ht. rewrite api_toggle_trash_toggle in Ht.
    destruct (toggle_listing isTrash with_isTrash ltac:(done) ltac:(done)
                ltac:(done) ltac:(done) ltac:(by intros ?? ->) u fid now s s' f p Hnd Ht)
      as (Hl & Hnd' & Hf).
    split; [done|split; [done|]]. intros g Hg Hid.
    apply Hf; [|done]. unfold api_list in Hg. by apply filter_In in Hg as [? _].
  - intros u fid s s' p Hnd Hd. apply api_delete_Ok in Hd as (f & _ & _ & ->).
    split; [apply filter_comm|by apply ids_filter_nodup].
  - intros u s p Hnd. split; [|by apply ids_filter_nodup].
    unfold api_empty_trash, api_list, emptied. simpl. rewrite !filter_filter_andb.
    apply filter_ext. intros g.
    destruct (userId g === u), (isTrash g), (bool_decide (parentId g = p)); done.
Qed.

(** ** Properties *)

(** C3 (Store): starring is involutive: when a first [PATCH .../star]
    succeeds, a second one on the new table succeeds too, returns the
    original [isStarred] value, and gives back the original table up to
    [updatedAt]. *)
Theorem api_toggle_star_involutive u fid t1 t2 rows rows1 f1 :
  NoDup (ids rows) →
  api_toggle_star u fid t1 rows = Ok (rows1, f1) →
  ∃ rows2 f2, api_toggle_star u fid t2 rows1 = Ok (rows2, f2) ∧ rows2 ≡ rows ∧
              isStarred f2 = negb (isStarred f1).
Proof.
  rewrite !api_toggle_star_toggle. apply toggle_twice; try done; solve_toggle_side.
Qed.

(** C4 (Store): trashing is involutive in the same sense. *)
Theorem api_toggle_trash_involutive u fid t1 t2 rows rows1 f1 :
  NoDup (ids rows) →
  api_toggle_trash u fid t1 rows = Ok (rows1, f1) →
  ∃ rows2 f2, api_toggle_trash u fid t2 rows1 = Ok (rows2, f2) ∧ rows2 ≡ rows ∧
              isTrash f2 = negb (isTrash f1).
Proof.
  rewrite !api_toggle_trash_toggle. apply toggle_twice; try done; solve_toggle_side.
Qed.

(** The first star of [demo_file] at time 1. *)
Definition demo_starred : File := with_updatedAt 1 (with_isStarred true demo_file).

Lemma api_toggle_star_involutive_witness :
  ∃ rows2 f2, api_toggle_star "alice" "f1" 2 [demo_starred] = Ok (rows2, f2) ∧
              rows2 ≡ [demo_file] ∧ isStarred f2 = negb (isStarred demo_starred).
Proof.
  apply (api_toggle_star_involutive "alice" "f1" 1 2 [demo_file] [demo_starred] demo_starred).
  - decide_by_eval.
  - reflexivity.
Defined.

Definition demo_trashed : File := with_updatedAt 1 (with_isTrash true demo_file).

Lemma api_toggle_trash_involutive_witness :
  ∃ rows2 f2, api_toggle_trash "alice" "f1" 2 [demo_trashed] = Ok (rows2, f2) ∧
              rows2 ≡ [demo_file] ∧ isTrash f2 = negb (isTrash demo_trashed).
Proof.
  apply (api_toggle_trash_involutive "alice" "f1" 1 2 [demo_file] [demo_trashed] demo_trashed).
  - decide_by_eval.
  - reflexivity.
Defined.

End Store.
