(* ===== verification/Hierarchy.v ===== *)
(** * Hierarchy: the validator and the create route

    Modelled from the specification (section 4.2): before a row is
    inserted, its name must be non-empty and free of the reserved
    characters backslash, slash, colon, star, question mark, double
    quote, less-than, greater-than and bar ([InvalidName]), its parent, when
    present, must be a folder of the same owner ([InvalidParent]), and its
    [path] is derived by walking the parent chain to the root and joining
    the names with "/".  The walk is fuelled with the number of rows: a
    walk that runs out of fuel reports [InternalInconsistency] instead of
    looping.  [api_create_entry] is [POST /api/folders/create] (no file
    metadata) and [POST /api/files/upload] (with the metadata the object
    storage returned); it builds the [NewFile] and inserts it with the
    column defaults of [Schema.insert_row].

    [store_wf] is the well-formedness of the table (section 3): unique
    ids, parents that are folders of the same owner, folders of size 0,
    and a parent walk that reaches the root. *)

From Stdlib Require Import Ascii.
From S2P Require Import Prelude Schema Api Store.
Import Schema Api Store.

Module Hierarchy.

Local Open Scope Z_scope.

(** ** Validation *)

Definition reserved_chars : list Ascii.ascii :=
  ["\"; "/"; ":"; "*"; "?"; dquote; "<"; ">"; "|"]%char.

Definition valid_name (n : string) : bool :=
  negb (n === "") && negb (js_test_class reserved_chars n).

Definition check_parent (u : string) (p : option string) (rows : list File)
    : result ApiError () :=
  match p with
  | None => Ok ()
  | Some pid =>
      match find_row rows pid with
      | Some g => check ((userId g === u) && isFolder g) InvalidParent
      | None => Err InvalidParent
      end
  end.

(** ** Path derivation *)

(** The rows met by walking up from the parent [p] (nearest first);
    [None] when the walk meets a missing row or runs out of fuel. *)
Fixpoint chain (fuel : nat) (rows : list File) (p : option string) : option (list File) :=
  match p with
  | None => Some []
  | Some pid =>
      match fuel with
      | O => None
      | S k =>
          match find_row rows pid with
          | None => None
          | Some g => c ← chain k rows (parentId g); Some (g :: c)
          end
      end
  end.

(** The names of the ancestors, root first. *)
Definition ancestor_names (fuel : nat) (rows : list File) (p : option string)
    : option (list string) :=
  (λ c, rev (map name c)) <$> chain fuel rows p.

Definition join_path (names : list string) : string :=
  foldr (λ n acc, "/" ++ n ++ acc)%string "" names.

Definition derive_path (rows : list File) (p : option string) (n : string)
    : result ApiError string :=
  match ancestor_names (length rows) rows p with
  | Some names => Ok (join_path (names ++ [n]))
  | None => Err InternalInconsistency
  end.

(** ** The create route *)

(** What the object storage returned for an upload. *)
Record FileMeta := mkFileMeta {
  meta_size : Z;
  meta_type : string;
  meta_url : string;
  meta_thumbnail : option string
}.

Definition new_entry (u : string) (p : option string) (n pth : string)
    (meta : option FileMeta) : NewFile :=
  match meta with
  | None =>
      {| nf_id := None; nf_parentId := p; nf_name := n; nf_path := pth; nf_size := 0;
         nf_type := "folder"; nf_fileUrl := ""; nf_thumbnailUrl := None; nf_userId := u;
         nf_isFolder := Some true; nf_isStarred := None; nf_isTrash := None;
         nf_createdAt := None; nf_updatedAt := None |}
  | Some m =>
      {| nf_id := None; nf_parentId := p; nf_name := n; nf_path := pth;
         nf_size := meta_size m; nf_type := meta_type m; nf_fileUrl := meta_url m;
         nf_thumbnailUrl := meta_thumbnail m; nf_userId := u; nf_isFolder := Some false;
         nf_isStarred := None; nf_isTrash := None; nf_createdAt := None;
         nf_updatedAt := None |}
  end.

(** [createEntry(ownerId, parentId?, name, fileMetadata?)] with the fresh
    id [fresh] drawn by [defaultRandom()]. *)
Definition api_create_entry (u : string) (p : option string) (n : string)
    (meta : option FileMeta) (fresh : string) (now : Z) (rows : list File)
    : result ApiError (list File * File) :=
  _ ← check (valid_name n) InvalidName;
  _ ← check_parent u p rows;
  pth ← derive_path rows p n;
  _ ← check (negb (bool_decide (fresh ∈ ids rows))) DuplicateKey;
  f ← match insert_row fresh now (new_entry u p n pth meta) with
      | Some f => Ok f
      | None => Err OutOfRange
      end;
  mret (rows ++ [f], f).

(** ** The parent walk terminates *)

Lemma chain_mono n m rows p c :
  chain n rows p = Some c → (n ≤ m)%nat → chain m rows p = Some c.
Proof.
  revert m p c. induction n as [|n IH]; intros m p c Hc Hle.
  - destruct p; simpl in Hc; [done|]. injection Hc as <-. by destruct m.
  - destruct m as [|m]; [lia|]. destruct p as [pid|]; simpl in *; [|done].
    revert Hc. destruct (find_row rows pid) as [g|]; [|done].
    destruct (chain n rows (parentId g)) as [c'|] eqn:Hc'; simpl; [|done].
    intros Hc. rewrite (IH m _ c' Hc') by lia. done.
Qed.

Lemma chain_det n m rows p c1 c2 :
  chain n rows p = Some c1 → chain m rows p = Some c2 → c1 = c2.
Proof.
  intros H1 H2.
  apply (chain_mono _ (n `max` m)) in H1; [|lia].
  apply (chain_mono _ (n `max` m)) in H2; [|lia]. congruence.
Qed.

Lemma chain_cons n rows p g c :
  chain n rows p = Some (g :: c) →
  ∃ k, n = S k ∧ p = Some (id g) ∧ find_row rows (id g) = Some g ∧
       chain k rows (parentId g) = Some c.
Proof.
  destruct p as [pid|], n as [|k]; simpl; try done.
  destruct (find_row rows pid) as [g'|] eqn:Hf; [|done].
  destruct (chain k rows (parentId g')) as [c'|] eqn:Hc; simpl; [|done].
  intros [= <- <-]. apply find_row_Some in Hf as Hid. destruct Hid as [_ <-]. eauto.
Qed.

(** Every suffix of a walk is the walk from the parent of the row before
    it. *)
Lemma chain_suffix n rows p pre x post :
  chain n rows p = Some (pre ++ x :: post) → ∃ m, chain m rows (parentId x) = Some post.
Proof.
  revert n p. induction pre as [|y pre IH]; intros n p Hc; simpl in Hc;
    apply chain_cons in Hc as (k & _ & _ & _ & Hk).
  - by exists k.
  - by apply (IH k (parentId y)).
Qed.

Lemma chain_in_rows n rows p c g : chain n rows p = Some c → In g c → In g rows.
Proof.
  revert p c. induction n as [|n IH]; intros [pid|] c Hc Hg; simpl in *;
    try (injection Hc as <-; done); try done.
  revert Hc. destruct (find_row rows pid) as [g'|] eqn:Hf; [|done].
  destruct (chain n rows (parentId g')) as [c'|] eqn:Hc'; simpl; [|done].
  intros [= <-]. destruct Hg as [<-|Hg]; [by apply find_row_Some in Hf as []|eauto].
Qed.

(** A walk that reaches the root never meets the same row twice. *)
Lemma chain_nodup n rows p c : chain n rows p = Some c → NoDup c.
Proof.
  revert p c. induction n as [|n IH]; intros [pid|] c Hc; simpl in Hc;
    try (injection Hc as <-; constructor); try done.
  revert Hc. destruct (find_row rows pid) as [g|] eqn:Hf; [|done].
  destruct (chain n rows (parentId g)) as [c'|] eqn:Hc'; simpl; [|done].
  intros [= <-]. apply NoDup_cons. split; [|eauto].
  intros Hin%list_elem_of_In. apply in_split in Hin as (pre & post & ->).
  destruct (chain_suffix _ _ _ _ _ _ Hc') as [m Hm].
  pose proof (chain_det _ _ _ _ _ _ Hc' Hm) as Heq.
  apply (f_equal length) in Heq. rewrite length_app in Heq. simpl in Heq. lia.
Qed.

(** A walk uses exactly one unit of fuel per row it meets. *)
Lemma chain_exact_fuel n rows p c : chain n rows p = Some c → chain (length c) rows p = Some c.
Proof.
  revert p c. induction n as [|n IH]; intros [pid|] c Hc; simpl in Hc;
    try (injection Hc as <-; done); try done.
  revert Hc. destruct (find_row rows pid) as [g|] eqn:Hf; [|done].
  destruct (chain n rows (parentId g)) as [c'|] eqn:Hc'; simpl; [|done].
  intros [= <-]. simpl. rewrite Hf, (IH _ _ Hc'). done.
Qed.

(** A successful walk is no longer than the table. *)
Lemma chain_fuel_enough n rows p c :
  chain n rows p = Some c → chain (length rows) rows p = Some c.
Proof.
  intros Hc. assert (Hle : (length c ≤ length rows)%nat).
  { apply submseteq_length, NoDup_submseteq; [by eapply chain_nodup|].
    intros x Hx%list_elem_of_In. apply list_elem_of_In. by eapply chain_in_rows. }
  apply (chain_mono (length c)); [by eapply chain_exact_fuel|done].
Qed.

(** Termination of the parent walk: the path derivation, fuelled with the
    number of rows, reports [InternalInconsistency] exactly when the
    parent walk never reaches the root whatever the fuel (a cycle or a
    missing parent): one unit of fuel per row is always enough. *)
Theorem derive_path_inconsistent_iff rows p n :
  derive_path rows p n = Err InternalInconsistency ↔ ∀ m, chain m rows p = None.
Proof.
  unfold derive_path, ancestor_names. split.
  - destruct (chain (length rows) rows p) as [c|] eqn:Hc; simpl; [done|].
    intros _ m. destruct (chain m rows p) as [c|] eqn:Hm; [|done].
    apply chain_fuel_enough in Hm. congruence.
  - intros H. by rewrite H.
Qed.

(** ** Well-formed tables *)

Definition parent_ok (rows : list File) (f : File) : Prop :=
  match parentId f with
  | None => True
  | Some pid => ∃ g, find_row rows pid = Some g ∧ userId g = userId f ∧ isFolder g = true
  end.

Record store_wf (rows : list File) : Prop := {
  wf_ids : NoDup (ids rows);
  wf_parent : ∀ f, In f rows → parent_ok rows f;
  wf_folder_size : ∀ f, In f rows → isFolder f = true → size f = 0;
  wf_rooted : ∀ f, In f rows → ∃ n c, chain n rows (Some (id f)) = Some c
}.

(** The path of the folder [p] as derived from the table ([""] for the
    root). *)
Definition parent_path (rows : list File) (p : option string) : option string :=
  (λ c, join_path (rev (map name c))) <$> chain (length rows) rows p.

Lemma join_path_snoc names n : join_path (names ++ [n]) = (join_path names ++ "/" ++ n)%string.
Proof.
  unfold join_path. induction names as [|m names IH]; simpl.
  - change (String "/" (String.append n "") = String "/" n). by rewrite str_app_nil_r.
  - change (String "/" (String.append m (foldr (λ n acc, ("/" ++ n ++ acc)%string) "" (names ++ [n])))
      = String "/" (String.append (String.append m (foldr (λ n acc, ("/" ++ n ++ acc)%string) "" names)) ("/" ++ n)%string)).
    rewrite IH, str_app_assoc. done.
Qed.

Lemma find_row_app_Some rows l x g :
  find_row rows x = Some g → find_row (rows ++ l) x = Some g.
Proof.
  unfold find_row. induction rows as [|h rows IH]; simpl; [done|].
  destruct (id h === x); [done|]. exact IH.
Qed.

Lemma find_row_app_None rows l x :
  find_row rows x = None → find_row (rows ++ l) x = find_row l x.
Proof.
  unfold find_row. induction rows as [|h rows IH]; simpl; [done|].
  destruct (id h === x); [done|]. exact IH.
Qed.

Lemma chain_app n rows l p c : chain n rows p = Some c → chain n (rows ++ l) p = Some c.
Proof.
  revert p c. induction n as [|n IH]; intros [pid|] c; simpl; try done.
  destruct (find_row rows pid) as [g|] eqn:Hf; [|done].
  rewrite (find_row_app_Some _ _ _ _ Hf).
  destruct (chain n rows (parentId g)) as [c'|] eqn:Hc; simpl; [|done].
  by rewrite (IH _ _ Hc).
Qed.

Lemma find_row_not_in rows x : x ∉ ids rows → find_row rows x = None.
Proof.
  unfold find_row, ids. induction rows as [|h rows IH]; simpl; [done|].
  intros [Hne Hx]%not_elem_of_cons. destruct (String.eqb_spec (id h) x); [congruence|].
  by apply IH.
Qed.

Lemma check_parent_Ok u p rows :
  check_parent u p rows = Ok () →
  ∀ pid, p = Some pid → ∃ g, find_row rows pid = Some g ∧ userId g = u ∧ isFolder g = true.
Proof.
  intros Hc pid ->. simpl in Hc. destruct (find_row rows pid) as [g|]; [|done].
  apply check_Ok in Hc. apply andb_true_iff in Hc as [Hu Hf].
  destruct (String.eqb_spec (userId g) u); [eauto|done].
Qed.

(** The row [insert_row] builds for a new entry. *)
Lemma insert_new_entry fresh now u p n pth meta f :
  insert_row fresh now (new_entry u p n pth meta) = Some f →
  id f = fresh ∧ parentId f = p ∧ name f = n ∧ path f = pth ∧ userId f = u ∧
  isFolder f = match meta with Some _ => false | None => true end ∧
  isStarred f = false ∧ isTrash f = false ∧ (isFolder f = true → size f = 0).
Proof.
  unfold insert_row. intros Hf. destruct meta; simpl in Hf; try case_match;
    try done; injection Hf as <-; simpl; naive_solver.
Qed.

Lemma api_create_entry_Ok u p n meta fresh now rows rows' f :
  api_create_entry u p n meta fresh now rows = Ok (rows', f) →
  valid_name n = true ∧ check_parent u p rows = Ok () ∧
  (∃ c, chain (length rows) rows p = Some c ∧
        insert_row fresh now
          (new_entry u p n (join_path (rev (map name c)) ++ "/" ++ n)%string meta) = Some f) ∧
  (fresh ∉ ids rows) ∧ rows' = rows ++ [f].
Proof.
  unfold api_create_entry. simpl.
  destruct (valid_name n) eqn:Hv; simpl; [|done].
  destruct (check_parent u p rows) as [[]|] eqn:Hp; simpl; [|done].
  unfold derive_path, ancestor_names.
  destruct (chain (length rows) rows p) as [c|] eqn:Hc; simpl; [|done].
  destruct (bool_decide (fresh ∈ ids rows)) eqn:Hb; simpl; [done|].
  apply bool_decide_eq_false in Hb.
  rewrite join_path_snoc.
  destruct (insert_row _ _ _) as [f'|] eqn:Hi; simpl; [|done].
  intros [= <- <-]. eauto 10.
Qed.

(** A created entry is in the listing of its folder. *)
Lemma api_create_entry_listed u p n meta fresh now rows rows' f :
  api_create_entry u p n meta fresh now rows = Ok (rows', f) → In f (api_list u p rows').
Proof.
  intros (_ & _ & (c & _ & Hi) & _ & ->)%api_create_entry_Ok.
  destruct (insert_new_entry _ _ _ _ _ _ _ _ Hi) as (_ & Hp & _ & _ & Hu & _).
  unfold api_list. apply filter_In. split; [apply in_or_app; right; by left|].
  cbv beta. rewrite Hu, Hp, String.eqb_refl. simpl. by case_bool_decide.
Qed.

(** ** Properties of the create route *)

(** C10 (Hierarchy, functional): a successful create appends one row
    that the listing of its folder then contains, with the given name and
    fresh id, neither starred nor trashed, and whose [path] is the
    derived path of its parent folder followed by "/" and the name. *)
Theorem api_create_entry_spec u p n meta fresh now rows rows' f :
  api_create_entry u p n meta fresh now rows = Ok (rows', f) →
  rows' = rows ++ [f] ∧ In f (api_list u p rows') ∧ id f = fresh ∧ name f = n ∧
  isStarred f = false ∧ isTrash f = false ∧
  ∃ pp, parent_path rows p = Some pp ∧ path f = (pp ++ "/" ++ n)%string.
Proof.
  intros H. pose proof (api_create_entry_listed _ _ _ _ _ _ _ _ _ H) as Hin.
  apply api_create_entry_Ok in H as (_ & _ & (c & Hc & Hi) & _ & ->).
  destruct (insert_new_entry _ _ _ _ _ _ _ _ Hi)
    as (Hid & Hp & Hn & Hpath & Hu & _ & Hs & Ht & _).
  do 6 (split; [done|]). exists (join_path (rev (map name c))).
  unfold parent_path. by rewrite Hc.
Qed.

(** C11 (Hierarchy, invariant): creating a folder or a file keeps the
    table well formed: ids stay unique, the new row's parent is a folder
    of the same owner, a new folder has size 0, and every parent walk,
    the new row's included, still reaches the root. *)
Theorem api_create_entry_wf u p n meta fresh now rows rows' f :
  store_wf rows → api_create_entry u p n meta fresh now rows = Ok (rows', f) →
  store_wf rows'.
Proof.
  intros Hwf (_ & Hcp & (c & Hc & Hi) & Hfresh & ->)%api_create_entry_Ok.
  destruct (insert_new_entry _ _ _ _ _ _ _ _ Hi)
    as (Hid & Hp & _ & _ & Hu & _ & _ & _ & Hsize).
  destruct Hwf as [Hids Hpar Hfs Hroot].
  split.
  - unfold ids in *. rewrite map_app. simpl. apply NoDup_app. split; [done|].
    split; [|apply NoDup_singleton]. intros x Hx ->%list_elem_of_singleton.
    rewrite Hid in Hx. done.
  - intros h [Hh|[<-|[]]]%in_app_or; unfold parent_ok.
    + specialize (Hpar h Hh). unfold parent_ok in Hpar.
      destruct (parentId h); [|done]. destruct Hpar as (g & Hg & ?).
      exists g. by rewrite (find_row_app_Some _ _ _ _ Hg).
    + rewrite Hp. destruct p as [pid|]; [|done].
      destruct (check_parent_Ok _ _ _ Hcp pid eq_refl) as (g & Hg & Hgu & Hgf).
      exists g. rewrite (find_row_app_Some _ _ _ _ Hg). by rewrite Hu.
  - intros h [Hh|[<-|[]]]%in_app_or; [by apply Hfs|done].
  - intros h [Hh|[<-|[]]]%in_app_or.
    + destruct (Hroot h Hh) as (m & c' & Hm). exists m, c'. by apply chain_app.
    + exists (S (length rows)), (f :: c). simpl.
      rewrite find_row_app_None by (rewrite Hid; by apply find_row_not_in).
      unfold find_row. simpl. rewrite String.eqb_refl. simpl.
      rewrite Hp, (chain_app _ _ _ _ _ Hc). done.
Qed.

(** ** Witnesses *)

Lemma create_docs : api_create_entry "alice" None "Docs" None "d1" 0 [] = Ok ([demo_folder], demo_folder).
Proof. vm_compute. reflexivity. Qed.

Lemma api_create_entry_spec_witness :
  api_create_entry "alice" None "Docs" None "d1" 0 [] = Ok ([demo_folder], demo_folder) ∧
  In demo_folder (api_list "alice" None [demo_folder]) ∧
  ∃ pp, parent_path [] None = Some pp ∧ path demo_folder = (pp ++ "/" ++ "Docs")%string.
Proof.
  split; [exact create_docs|].
  destruct (api_create_entry_spec "alice" None "Docs" None "d1" 0 [] [demo_folder] demo_folder
              create_docs) as (_ & Hin & _ & _ & _ & _ & Hpath).
  split; [exact Hin|exact Hpath].
Defined.

Lemma store_wf_nil : store_wf [].
Proof. split; simpl; try done. apply NoDup_nil_2. Qed.

Lemma api_create_entry_wf_witness : store_wf [] ∧ store_wf [demo_folder].
Proof.
  split; [exact store_wf_nil|].
  exact (api_create_entry_wf "alice" None "Docs" None "d1" 0 [] [demo_folder] demo_folder
           store_wf_nil create_docs).
Defined.

End Hierarchy.
