(* ===== verification/Lifecycle.v ===== *)
(** * Lifecycle: the table invariant under the mutating routes

    [Hierarchy.store_wf] is the well-formedness of the table (section 3
    of the specification).  Hierarchy.v shows that the create route keeps
    it; this file treats the other mutations of Store.v:

    - star and trash rewrite one row without touching its id, parent,
      owner, kind or size, and keep the invariant ([store_wf_map]);
    - permanent deletion and emptying the trash remove rows; the table
      stays well formed exactly when no surviving row had its parent
      removed ([store_wf_filter] for the sufficient condition).

    The specification leaves open (section 9) whether deleting a folder
    removes its descendants; the routes as specified remove one row, and
    trashing a folder flips one row only, so a folder trashed and then
    removed leaves its children pointing to a missing parent. *)

From S2P Require Import Prelude Schema Api Store Hierarchy.
Import Schema Api Store Hierarchy.

Module Lifecycle.

Local Open Scope Z_scope.

(** A rewrite of rows that keeps what the invariant reads. *)
Definition same_shape (h : File → File) : Prop :=
  ∀ g, id (h g) = id g ∧ parentId (h g) = parentId g ∧ userId (h g) = userId g ∧
       isFolder (h g) = isFolder g ∧ size (h g) = size g.

(** The rows kept by a filter are closed under [parent]: no kept row
    loses its parent. *)
Definition parent_closed (q : File → bool) (rows : list File) : Prop :=
  ∀ g pid h, In g rows → q g = true → parentId g = Some pid → find_row rows pid = Some h →
             q h = true.

(** No row names [fid] as its parent. *)
Definition no_children (rows : list File) (fid : string) : Prop :=
  ∀ g, In g rows → parentId g ≠ Some fid.

(** With unique ids, a row of the table is found under its id. *)
Lemma find_row_In rows g : NoDup (ids rows) → In g rows → find_row rows (id g) = Some g.
Proof.
  intros Hnd Hg. destruct (find_row rows (id g)) as [h|] eqn:Hf.
  - f_equal. symmetry. by eapply find_row_unique.
  - by destruct (find_row_None _ _ Hf g Hg).
Qed.

(** ** Rewriting rows *)

Section Map.
Context (h : File → File) (Hh : same_shape h).

Lemma find_row_map rows x : find_row (map h rows) x = h <$> find_row rows x.
Proof.
  unfold find_row. induction rows as [|g rows IH]; [done|]; simpl.
  destruct (Hh g) as (-> & _). by destruct (id g === x).
Qed.

Lemma chain_map n rows p : chain n (map h rows) p = map h <$> chain n rows p.
Proof.
  revert p. induction n as [|n IH]; intros [pid|]; simpl; try done.
  rewrite find_row_map. destruct (find_row rows pid) as [g|]; simpl; [|done].
  destruct (Hh g) as (_ & -> & _). rewrite IH. by destruct (chain n rows (parentId g)).
Qed.

Lemma store_wf_map rows : store_wf rows → store_wf (map h rows).
Proof.
  intros [Hids Hpar Hfs Hroot].
  assert (Hin : ∀ f, In f (map h rows) → ∃ g, f = h g ∧ In g rows).
  { intros f (g & <- & Hg)%in_map_iff. eauto. }
  split.
  - unfold ids in *. rewrite map_map.
    erewrite map_ext; [exact Hids|]. intros g. apply Hh.
  - intros f (g & -> & Hg)%Hin. specialize (Hpar g Hg). unfold parent_ok in *.
    destruct (Hh g) as (_ & -> & -> & _). destruct (parentId g); [|done].
    destruct Hpar as (k & Hk & Hu & Hfo). exists (h k).
    rewrite find_row_map, Hk. destruct (Hh k) as (_ & _ & Hu' & Hf' & _).
    rewrite Hu', Hf'. done.
  - intros f (g & -> & Hg)%Hin. destruct (Hh g) as (_ & _ & _ & -> & ->). by apply Hfs.
  - intros f (g & -> & Hg)%Hin. destruct (Hroot g Hg) as (n & c & Hc).
    exists n, (map h c). destruct (Hh g) as (-> & _). by rewrite chain_map, Hc.
Qed.
End Map.

(** ** Removing rows *)

Lemma find_row_filter (q : File → bool) rows x g :
  find_row rows x = Some g → q g = true → find_row (List.filter q rows) x = Some g.
Proof.
  unfold find_row. induction rows as [|k rows IH]; [done|]; simpl.
  destruct (String.eqb_spec (id k) x).
  - intros [= ->] Hq. by rewrite Hq; simpl; rewrite e, String.eqb_refl.
  - intros Hf Hq. destruct (q k); simpl; [|auto].
    destruct (String.eqb_spec (id k) x); [done|]. auto.
Qed.

Lemma find_row_filter_None (q : File → bool) rows x :
  (∀ g, In g rows → id g = x → q g = false) → find_row (List.filter q rows) x = None.
Proof.
  intros H. destruct (find_row (List.filter q rows) x) as [g|] eqn:Hf; [|done].
  apply find_row_Some in Hf as [(Hg & Hq)%filter_In Hid].
  by rewrite (H g Hg Hid) in Hq.
Qed.

(** A successful walk stays successful when the rows it meets are kept. *)
Lemma chain_filter (q : File → bool) rows n p c :
  parent_closed q rows → chain n rows p = Some c →
  (∀ pid, p = Some pid → ∃ g, find_row rows pid = Some g ∧ q g = true) →
  chain n (List.filter q rows) p = Some c.
Proof.
  intros Hcl. revert p c. induction n as [|n IH]; intros [pid|] c; simpl; try done.
  intros Hc Hstart. destruct (Hstart pid eq_refl) as (g & Hg & Hq).
  rewrite Hg in Hc. rewrite (find_row_filter q rows pid g Hg Hq).
  destruct (chain n rows (parentId g)) as [c'|] eqn:Hc'; simpl in *; [|done].
  rewrite (IH _ _ Hc'); [done|]. intros pid' Hp'.
  destruct n as [|n]; [by rewrite Hp' in Hc'|].
  rewrite Hp' in Hc'. simpl in Hc'. destruct (find_row rows pid') as [k|] eqn:Hk; [|done].
  exists k. split; [done|]. eapply Hcl; [|exact Hq|exact Hp'|exact Hk].
  by apply find_row_Some in Hg as [? _].
Qed.

Lemma store_wf_filter (q : File → bool) rows :
  store_wf rows → parent_closed q rows → store_wf (List.filter q rows).
Proof.
  intros [Hids Hpar Hfs Hroot] Hcl. split.
  - by apply ids_filter_nodup.
  - intros f (Hf & Hq)%filter_In. specialize (Hpar f Hf). unfold parent_ok in *.
    destruct (parentId f) as [pid|] eqn:Hp; [|done].
    destruct Hpar as (g & Hg & Hu & Hfo). exists g.
    split; [|done]. apply find_row_filter; [done|]. by eapply Hcl.
  - intros f (Hf & _)%filter_In. by apply Hfs.
  - intros f (Hf & Hq)%filter_In. destruct (Hroot f Hf) as (n & c & Hc).
    exists n, c. apply chain_filter; [done|done|]. intros pid [= <-].
    exists f. split; [by apply find_row_In|done].
Qed.

(** A row that is its own parent is never rooted. *)
Lemma chain_self_loop rows g n :
  NoDup (ids rows) → In g rows → parentId g = Some (id g) → chain n rows (Some (id g)) = None.
Proof.
  intros Hnd Hg Hp. induction n as [|n IH]; [done|]. simpl.
  rewrite (find_row_In rows g Hnd Hg). by rewrite Hp, IH.
Qed.

(** ** The routes *)

Lemma same_shape_at (h : File → File) fid :
  same_shape h → same_shape (λ g, if id g === fid then h g else g).
Proof. intros Hh g. by destruct (id g === fid); [apply Hh|]. Qed.

Lemma same_shape_star now : same_shape (λ g, with_updatedAt now (with_isStarred (negb (isStarred g)) g)).
Proof. intros g. by destruct g. Qed.

Lemma same_shape_trash now : same_shape (λ g, with_updatedAt now (with_isTrash (negb (isTrash g)) g)).
Proof. intros g. by destruct g. Qed.

(** A route that rewrites the row [fid] by a shape-preserving [h] keeps
    the invariant. *)
Lemma update_row_wf (h : File → File) fid rows f :
  same_shape h → store_wf rows → find_row rows fid = Some f →
  store_wf (update_row fid (h f) rows).
Proof.
  intros Hh Hwf Hf. rewrite (update_row_map rows fid f h (wf_ids _ Hwf) Hf).
  by apply store_wf_map; [apply same_shape_at|].
Qed.

Lemma owned_row_found u rows fid f : owned_row u rows fid = Ok f → find_row rows fid = Some f.
Proof. by intros [? _]%owned_row_Ok. Qed.

Lemma api_delete_filter u fid rows rows' :
  api_delete u fid rows = Ok rows' → rows' = List.filter (λ g, negb (id g === fid)) rows.
Proof. by intros (f & _ & _ & ->)%api_delete_Ok. Qed.

(** ** Properties *)

(** C21 (Lifecycle, invariant): starring and trashing keep the table
    well formed: they rewrite one row without changing its id, parent,
    owner, kind or size. *)
Theorem toggles_preserve_wf u fid now rows rows' f :
  store_wf rows →
  (api_toggle_star u fid now rows = Ok (rows', f) ∨ api_toggle_trash u fid now rows = Ok (rows', f)) →
  store_wf rows'.
Proof.
  intros Hwf [Hst|Htr].
  - unfold api_toggle_star in Hst. simpl in Hst.
    destruct (owned_row u rows fid) as [g|] eqn:Hg; simpl in Hst; [|done].
    injection Hst as <- _. apply (update_row_wf _ fid rows g (same_shape_star now) Hwf).
    by apply (owned_row_found u).
  - unfold api_toggle_trash in Htr. simpl in Htr.
    destruct (owned_row u rows fid) as [g|] eqn:Hg; simpl in Htr; [|done].
    injection Htr as <- _. apply (update_row_wf _ fid rows g (same_shape_trash now) Hwf).
    by apply (owned_row_found u).
Qed.

(** C22 (Lifecycle, invariant): a permanent deletion keeps the table
    well formed exactly when no row has the deleted row as its parent; a
    trashed folder with children, which FileActions offers to delete,
    leaves them with a missing parent. *)
Theorem delete_wf_iff_no_children u fid rows rows' :
  store_wf rows → api_delete u fid rows = Ok rows' → (store_wf rows' ↔ no_children rows fid).
Proof.
  intros Hwf ->%api_delete_filter. split.
  - intros Hwf' g Hg Hp.
    destruct (String.eqb_spec (id g) fid) as [Hid|Hid].
    + subst fid. destruct (wf_rooted _ Hwf g Hg) as (n & c & Hc).
      by rewrite (chain_self_loop rows g n (wf_ids _ Hwf) Hg Hp) in Hc.
    + assert (Hk : In g (List.filter (λ g, negb (id g === fid)) rows)).
      { apply filter_In. split; [done|]. by destruct (String.eqb_spec (id g) fid). }
      pose proof (wf_parent _ Hwf' g Hk) as Hpar. unfold parent_ok in Hpar. rewrite Hp in Hpar.
      destruct Hpar as (k & Hfk & _).
      rewrite find_row_filter_None in Hfk; [done|].
      intros h _ ->. by rewrite String.eqb_refl.
  - intros Hnc. apply store_wf_filter; [done|].
    intros g pid h Hg _ Hp Hh. apply find_row_Some in Hh as [_ Hid].
    destruct (String.eqb_spec (id h) fid) as [Heq|]; [|done].
    rewrite <-Hid, Heq in Hp. by destruct (Hnc g Hg Hp).
Qed.

(** C23 (Lifecycle, invariant): emptying the trash keeps the table well
    formed exactly when no row it keeps has its parent among the rows it
    removes (the user's trashed rows). *)
Theorem empty_trash_wf_iff u rows :
  store_wf rows →
  (store_wf (api_empty_trash u rows).1 ↔ parent_closed (λ g, negb (emptied u g)) rows).
Proof.
  intros Hwf. simpl. split.
  - intros Hwf' g pid h Hg Hq Hp Hh.
    destruct (emptied u h) eqn:He; [|done]. exfalso.
    assert (Hk : In g (List.filter (λ g, negb (emptied u g)) rows)) by (apply filter_In; done).
    pose proof (wf_parent _ Hwf' g Hk) as Hpar. unfold parent_ok in Hpar. rewrite Hp in Hpar.
    destruct Hpar as (k & Hfk & _). rewrite find_row_filter_None in Hfk; [done|].
    intros k' Hk' Hid. apply find_row_Some in Hh as [Hh <-].
    rewrite (find_row_unique rows (id h) h k' (wf_ids _ Hwf) (find_row_In rows h (wf_ids _ Hwf) Hh)
               Hk' Hid).
    by rewrite He.
  - intros Hcl. by apply store_wf_filter.
Qed.

(** The metadata of an uploaded text file. *)
Definition a_meta : FileMeta := mkFileMeta 3 "text/plain" "https://cdn/a.txt" None.

(** Emptying the trash orphans a row it keeps whose parent id is held
    only by rows it removes. *)
Lemma empty_trash_orphan u rows c pid :
  In c rows → emptied u c = false → parentId c = Some pid →
  (∀ g, In g rows → id g = pid → emptied u g = true) →
  In c (api_empty_trash u rows).1 ∧ ¬ store_wf (api_empty_trash u rows).1.
Proof.
  intros Hc Hce Hp Hall. simpl.
  assert (Hk : In c (List.filter (λ g, negb (emptied u g)) rows)) by (apply filter_In; by rewrite Hce).
  split; [done|]. intros Hwf'.
  pose proof (wf_parent _ Hwf' c Hk) as Hpar. unfold parent_ok in Hpar. rewrite Hp in Hpar.
  destruct Hpar as (k & Hfk & _). rewrite find_row_filter_None in Hfk; [done|].
  intros g Hg Hid. by rewrite (Hall g Hg Hid).
Qed.

(** C24 (Lifecycle, specification gap): trashing a folder does not
    trash its contents, and emptying the trash removes only the trashed
    rows: on every well-formed table, moving to the trash any row that
    has a child not in the trash, then emptying the trash, keeps that
    child in a table that is no longer well formed, its parent being
    gone. *)
Theorem trash_folder_then_empty_orphans u fid now rows rows' t c :
  store_wf rows → api_toggle_trash u fid now rows = Ok (rows', t) → isTrash t = true →
  In c rows → parentId c = Some fid → isTrash c = false →
  In c (api_empty_trash u rows').1 ∧ ¬ store_wf (api_empty_trash u rows').1.
Proof.
  intros Hwf Htr Ht Hc Hp Hct. unfold api_toggle_trash in Htr. simpl in Htr.
  destruct (owned_row u rows fid) as [d|] eqn:Hd; simpl in Htr; [|done].
  injection Htr as <- <-. apply owned_row_Ok in Hd as [Hfd Hud].
  assert (Hne : id c ≠ fid).
  { intros Hid. destruct (wf_rooted _ Hwf c Hc) as (n & ch & Hch).
    by rewrite (chain_self_loop rows c n (wf_ids _ Hwf) Hc ltac:(by rewrite Hp, Hid)) in Hch. }
  unfold update_row. apply empty_trash_orphan with fid; [| |done|].
  - apply in_map_iff. exists c. split; [|done]. by destruct (String.eqb_spec (id c) fid).
  - unfold emptied. by rewrite Hct, andb_false_r.
  - intros g (k & <- & Hk)%in_map_iff Hid.
    destruct (String.eqb_spec (id k) fid) as [Hkid|]; [|done].
    unfold emptied. rewrite Ht. simpl. by rewrite Hud, String.eqb_refl.
Qed.

(** The parent check fails only with [InvalidParent]. *)
Lemma check_parent_Err u p rows e : check_parent u p rows = Err e → e = InvalidParent.
Proof.
  destruct p as [pid|]; simpl; [|done].
  destruct (find_row rows pid); [|congruence]. unfold check. destruct (_ && _); congruence.
Qed.

(** On a well-formed table, the path of a child of a valid parent is
    always derived. *)
Lemma derive_path_wf u p n rows :
  store_wf rows → check_parent u p rows = Ok () → ∃ pth, derive_path rows p n = Ok pth.
Proof.
  intros Hwf Hcp. destruct (derive_path rows p n) as [pth|e] eqn:Hd; [eauto|exfalso].
  assert (e = InternalInconsistency) as ->.
  { unfold derive_path in Hd. destruct (ancestor_names _ _ _); congruence. }
  pose proof (proj1 (derive_path_inconsistent_iff rows p n) Hd) as Hnone.
  destruct p as [pid|]; [|by specialize (Hnone 0%nat)].
  destruct (check_parent_Ok _ _ _ Hcp pid eq_refl) as (g & Hg & _).
  apply find_row_Some in Hg as [Hin <-].
  destruct (wf_rooted _ Hwf g Hin) as (m & c & Hc). by rewrite Hnone in Hc.
Qed.

(** ** Witnesses *)

(** A table of one row at the root is well formed. *)
Lemma store_wf_root_row f :
  parentId f = None → (isFolder f = true → size f = 0) → store_wf [f].
Proof.
  intros Hp Hs. split.
  - apply NoDup_singleton.
  - intros g [<-|[]]. unfold parent_ok. by rewrite Hp.
  - intros g [<-|[]]. exact Hs.
  - intros g [<-|[]]. exists 1%nat, [f]. simpl. unfold find_row. simpl.
    rewrite String.eqb_refl. simpl. by rewrite Hp.
Qed.

Lemma toggles_preserve_wf_witness :
  store_wf [demo_folder] ∧ api_toggle_star "alice" "d1" 1 [demo_folder] =
    Ok ([with_updatedAt 1 (with_isStarred true demo_folder)],
        with_updatedAt 1 (with_isStarred true demo_folder)) ∧
  store_wf [with_updatedAt 1 (with_isStarred true demo_folder)].
Proof.
  assert (H1 : store_wf [demo_folder]) by (by apply store_wf_root_row).
  assert (Hst : api_toggle_star "alice" "d1" 1 [demo_folder] =
    Ok ([with_updatedAt 1 (with_isStarred true demo_folder)],
        with_updatedAt 1 (with_isStarred true demo_folder))) by reflexivity.
  split; [exact H1|]. split; [exact Hst|].
  exact (toggles_preserve_wf "alice" "d1" 1 [demo_folder] _ _ H1 (or_introl Hst)).
Defined.

(** A text file inside the folder "Docs" of ["alice"]. *)
Definition docs_child : File :=
  {| id := "f3"; parentId := Some "d1"; name := "a.txt"; path := "/Docs/a.txt";
     size := 3; type := "text/plain"; fileUrl := "https://cdn/a.txt";
     thumbnailUrl := None; userId := "alice"; isFolder := false;
     isStarred := false; isTrash := false; createdAt := 1; updatedAt := 1 |}.

Lemma store_wf_docs : store_wf [demo_folder; docs_child].
Proof.
  split.
  - decide_by_eval.
  - intros g [<-|[<-|[]]]; [done|]. unfold parent_ok. simpl. by eexists.
  - by intros g [<-|[<-|[]]].
  - intros g [<-|[<-|[]]]; exists 2%nat; by eexists.
Qed.

Lemma trash_folder_then_empty_orphans_witness :
  let t := with_updatedAt 2 (with_isTrash true demo_folder) in
  store_wf [demo_folder; docs_child] ∧
  api_toggle_trash "alice" "d1" 2 [demo_folder; docs_child] = Ok ([t; docs_child], t) ∧
  In docs_child (api_empty_trash "alice" [t; docs_child]).1 ∧
  ¬ store_wf (api_empty_trash "alice" [t; docs_child]).1.
Proof.
  assert (Htr : api_toggle_trash "alice" "d1" 2 [demo_folder; docs_child] =
    Ok ([with_updatedAt 2 (with_isTrash true demo_folder); docs_child],
        with_updatedAt 2 (with_isTrash true demo_folder))) by reflexivity.
  split; [exact store_wf_docs|]. split; [exact Htr|].
  exact (trash_folder_then_empty_orphans "alice" "d1" 2 _ _ _ docs_child store_wf_docs Htr eq_refl
           (or_intror (or_introl eq_refl)) eq_refl eq_refl).
Defined.

Lemma delete_wf_iff_no_children_witness :
  store_wf [demo_trashed] ∧ api_delete "alice" "f1" [demo_trashed] = Ok [] ∧
  (store_wf [] ↔ no_children [demo_trashed] "f1").
Proof.
  assert (H1 : store_wf [demo_trashed]) by (by apply store_wf_root_row).
  assert (Hd : api_delete "alice" "f1" [demo_trashed] = Ok []) by reflexivity.
  split; [exact H1|]. split; [exact Hd|].
  exact (delete_wf_iff_no_children "alice" "f1" [demo_trashed] [] H1 Hd).
Defined.

Lemma empty_trash_wf_iff_witness :
  store_wf [demo_folder] ∧
  (store_wf (api_empty_trash "alice" [demo_folder]).1 ↔
   parent_closed (λ g, negb (emptied "alice" g)) [demo_folder]).
Proof.
  assert (H1 : store_wf [demo_folder]) by (by apply store_wf_root_row).
  split; [exact H1|]. exact (empty_trash_wf_iff "alice" [demo_folder] H1).
Defined.

(** C35 (Lifecycle, termination): on a well-formed table the create
    route's walk up the parent chain, fuelled with one step per row,
    always reaches the root: creating a folder or a file never fails
    with [InternalInconsistency]. *)
Theorem api_create_entry_no_inconsistency u p n meta fresh now rows :
  store_wf rows → api_create_entry u p n meta fresh now rows ≠ Err InternalInconsistency.
Proof.
  intros Hwf. unfold api_create_entry. destruct (valid_name n); simpl; [|done].
  destruct (check_parent u p rows) as [[]|e] eqn:Hcp; simpl.
  - destruct (derive_path_wf u p n rows Hwf Hcp) as (pth & ->). simpl.
    destruct (bool_decide _); simpl; [done|]. by destruct (insert_row _ _ _).
  - by apply check_parent_Err in Hcp as ->.
Qed.

Lemma api_create_entry_no_inconsistency_witness :
  store_wf [demo_folder] ∧
  api_create_entry "alice" (Some "d1") "a.txt" (Some a_meta) "f1" 1 [demo_folder] ≠ Err InternalInconsistency.
Proof.
  assert (H1 : store_wf [demo_folder]) by (by apply store_wf_root_row).
  split; [exact H1|]. exact (api_create_entry_no_inconsistency _ _ _ _ _ _ _ H1).
Defined.

End Lifecycle.
