(* ===== verification/Tables.v ===== *)
(** * Tables: the column types of every table the routes can build

    The table [files] of src/lib/db/schema.ts declares [id] as its primary
    key, [size] as a 32-bit [integer], and [type], [fileUrl] and
    [thumbnailUrl] as the columns a folder fills with ["folder"], [""]
    and nothing (the create route, section 4.2 of the specification).
    [table_step] is one successful call of a mutating route: create
    (Hierarchy.v), star, trash, delete or empty trash (Store.v), by any
    user.  [table_typed] states the column types and the key; it holds of
    the empty table and every route keeps it, so by rule induction on
    stdpp's [rtc] it holds of every table the routes can build.  Unlike
    [Hierarchy.store_wf], it survives the deletions (Lifecycle.v shows
    that they can orphan rows). *)

From S2P Require Import Prelude Schema Api Store Hierarchy.
Import Schema Api Store Hierarchy.

Module Tables.

Local Open Scope Z_scope.

(** The declared type of one row: [size] fits [integer], and a folder
    has the size, type, URL and thumbnail the create route gives it. *)
Definition row_typed (f : File) : bool :=
  int4_in_range (size f) &&
  (negb (isFolder f) ||
   (bool_decide (size f = 0) && (type f === "folder") && (fileUrl f === "") &&
    bool_decide (thumbnailUrl f = None))).

Definition table_typed (rows : list File) : Prop :=
  NoDup (ids rows) ∧ Forall (λ f, row_typed f = true) rows.

(** One successful call of a route that changes the table. *)
Inductive table_step : list File → list File → Prop :=
| ts_create u p n meta fresh now rows rows' f :
    api_create_entry u p n meta fresh now rows = Ok (rows', f) → table_step rows rows'
| ts_star u fid now rows rows' f :
    api_toggle_star u fid now rows = Ok (rows', f) → table_step rows rows'
| ts_trash u fid now rows rows' f :
    api_toggle_trash u fid now rows = Ok (rows', f) → table_step rows rows'
| ts_delete u fid rows rows' :
    api_delete u fid rows = Ok rows' → table_step rows rows'
| ts_empty u rows :
    table_step rows (api_empty_trash u rows).1.

(** ** Lemmas *)

Lemma Forall_List_filter (P : File → Prop) (q : File → bool) rows :
  Forall P rows → Forall P (List.filter q rows).
Proof.
  rewrite !Forall_forall. intros HP g Hg%list_elem_of_In.
  apply filter_In in Hg as [Hg _]. apply HP, list_elem_of_In, Hg.
Qed.

Lemma Forall_update_row (P : File → Prop) fid f' rows :
  P f' → Forall P rows → Forall P (update_row fid f' rows).
Proof.
  intros Hf Hrows. unfold update_row. apply Forall_fmap, (Forall_impl _ _ _ Hrows).
  intros g Hg. simpl. by destruct (id g === fid).
Qed.

(** What [insert_row] accepts is typed: it refuses an out-of-range
    size, and [new_entry] fills a folder's columns. *)
Lemma insert_new_entry_typed fresh now u p n pth meta f :
  insert_row fresh now (new_entry u p n pth meta) = Some f → row_typed f = true.
Proof.
  unfold insert_row. destruct (int4_in_range _) eqn:Hr; [|done]. intros [= <-].
  unfold row_typed. cbn [size isFolder type fileUrl thumbnailUrl]. rewrite Hr. by destruct meta.
Qed.

Lemma table_typed_filter (q : File → bool) rows :
  table_typed rows → table_typed (List.filter q rows).
Proof. intros [Hnd Hall]. split; [by apply ids_filter_nodup|by apply Forall_List_filter]. Qed.

(** A route that rewrites the row [fid] found for [u] by a function
    keeping the row's type and id keeps the table typed. *)
Lemma table_typed_update (h : File → File) u fid rows f :
  (∀ g, row_typed (h g) = row_typed g ∧ id (h g) = id g) →
  table_typed rows → owned_row u rows fid = Ok f → table_typed (update_row fid (h f) rows).
Proof.
  intros Hh [Hnd Hall] [(Hin & Hid)%find_row_Some _]%owned_row_Ok.
  destruct (Hh f) as [Hty Hhid]. split.
  - rewrite ids_update_row; [done|congruence].
  - apply Forall_update_row; [|done]. rewrite Hty.
    rewrite Forall_forall in Hall. apply Hall, list_elem_of_In, Hin.
Qed.

(** Every route keeps the table typed. *)
Lemma table_step_typed rows rows' :
  table_step rows rows' → table_typed rows → table_typed rows'.
Proof.
  intros Hs Hty. destruct Hs as [u p n meta fresh now rows rows' f Hc
    | u fid now rows rows' f Hc | u fid now rows rows' f Hc | u fid rows rows' Hc | u rows].
  - apply api_create_entry_Ok in Hc as (_ & _ & (c & _ & Hi) & Hfresh & ->).
    pose proof (insert_new_entry _ _ _ _ _ _ _ _ Hi) as [Hid _].
    destruct Hty as [Hnd Hall]. split.
    + unfold ids. rewrite map_app. apply NoDup_app. split_and!; [done| |by apply NoDup_singleton].
      intros x Hx ->%list_elem_of_singleton. rewrite Hid in Hx. by apply Hfresh.
    + apply Forall_app. split; [done|]. apply Forall_singleton.
      exact (insert_new_entry_typed _ _ _ _ _ _ _ _ Hi).
  - unfold api_toggle_star in Hc. simpl in Hc.
    destruct (owned_row u rows fid) as [g|] eqn:Hg; simpl in Hc; [|done]. injection Hc as <- _.
    apply (table_typed_update (λ g, with_updatedAt now (with_isStarred (negb (isStarred g)) g))
             u fid rows g); [by intros []|done|done].
  - unfold api_toggle_trash in Hc. simpl in Hc.
    destruct (owned_row u rows fid) as [g|] eqn:Hg; simpl in Hc; [|done]. injection Hc as <- _.
    apply (table_typed_update (λ g, with_updatedAt now (with_isTrash (negb (isTrash g)) g))
             u fid rows g); [by intros []|done|done].
  - apply api_delete_Ok in Hc as (_ & _ & _ & ->). by apply table_typed_filter.
  - by apply table_typed_filter.
Qed.

(** ** Properties *)

(** C39 (Tables, type): every table the routes can build from the empty
    table has unique ids and typed rows: each size fits the 32-bit
    [integer] column, and each folder has size 0, type ["folder"], an
    empty URL and no thumbnail.  Proved by rule induction on the
    reachability relation. *)
Theorem reachable_tables_typed rows :
  rtc table_step [] rows → table_typed rows.
Proof.
  intros Hr. cut (table_typed []); [|split; [constructor|constructor]].
  induction Hr as [|x y z Hxy _ IH]; [done|]. intros Hx.
  apply IH. by apply (table_step_typed x y).
Qed.

(** ** Witnesses *)

Lemma reachable_tables_typed_witness : table_typed [demo_folder].
Proof.
  apply reachable_tables_typed. apply rtc_once.
  exact (ts_create "alice" None "Docs" None "d1" 0 [] [demo_folder] demo_folder create_docs).
Defined.

End Tables.
