(* ===== verification/Client.v ===== *)
(** * Client: the optimistic handlers of the file list
    (src/components/FileList.tsx)

    The React state of [FileList] is the record [ListState].  Each async
    handler is cut at its [await] into two functions:
    - [*_start] runs the synchronous prefix (the early [return] when the row
      is missing, the optimistic [setFiles], closing a modal) and returns
      the new state, the HTTP request, and a [Pending] token holding what
      the continuation captured ([originalFiles], [file]);
    - [*_finish] runs the code after the [await] for a given response: the
      rest of the [try] block or the [catch] block (which restores
      [originalFiles]), then [finally]; it also returns the toasts shown.

    [start], [finish] and [serve] dispatch over the user actions, and
    [round_trip] composes one action with one server call.  The main
    theorem ([round_trip_synced]) proves, against the interface
    [Api.FilesApiLaws] only, that the browser's list stays equal (up to
    [updatedAt]) to the server's listing of the current folder after every
    action, whether the server accepts or refuses it, and whether the
    request reaches the server or fails in transit.  When two actions
    overlap, the [catch] block of the first puts back the list from
    before both ([stale_revert_loses_update]). *)

From S2P Require Import Prelude Schema Views Api.
Import Schema Views Api.

Module Client.

(** [{ id: string; name: string }], one breadcrumb entry. *)
Record Crumb := mkCrumb { crumb_id : string; crumb_name : string }.

(** The arguments of [addToast]. *)
Record Toast := mkToast {
  toast_title : string;
  toast_description : option string;
  toast_color : string
}.

(** The [useState] hooks of [FileList] (lines 41-51). *)
Record ListState := mkListState {
  files : list File;
  loading : bool;
  activeTab : string;
  currentFolderId : option string;
  folderPath : list Crumb;
  deleteModalOpen : bool;
  emptyTrashModalOpen : bool;
  selectedFile : option File
}.

Definition initial_state : ListState :=
  {| files := []; loading := true; activeTab := "all"; currentFolderId := None;
     folderPath := []; deleteModalOpen := false; emptyTrashModalOpen := false;
     selectedFile := None |}.

(** The setters [setFiles], [setLoading], ... *)
Definition setFiles (v : list File) (s : ListState) : ListState :=
  {| files := v; loading := loading s; activeTab := activeTab s;
     currentFolderId := currentFolderId s; folderPath := folderPath s;
     deleteModalOpen := deleteModalOpen s; emptyTrashModalOpen := emptyTrashModalOpen s;
     selectedFile := selectedFile s |}.

Definition setLoading (v : bool) (s : ListState) : ListState :=
  {| files := files s; loading := v; activeTab := activeTab s;
     currentFolderId := currentFolderId s; folderPath := folderPath s;
     deleteModalOpen := deleteModalOpen s; emptyTrashModalOpen := emptyTrashModalOpen s;
     selectedFile := selectedFile s |}.

Definition setDeleteModalOpen (v : bool) (s : ListState) : ListState :=
  {| files := files s; loading := loading s; activeTab := activeTab s;
     currentFolderId := currentFolderId s; folderPath := folderPath s;
     deleteModalOpen := v; emptyTrashModalOpen := emptyTrashModalOpen s;
     selectedFile := selectedFile s |}.

Definition setEmptyTrashModalOpen (v : bool) (s : ListState) : ListState :=
  {| files := files s; loading := loading s; activeTab := activeTab s;
     currentFolderId := currentFolderId s; folderPath := folderPath s;
     deleteModalOpen := deleteModalOpen s; emptyTrashModalOpen := v;
     selectedFile := selectedFile s |}.

Definition setSelectedFile (v : option File) (s : ListState) : ListState :=
  {| files := files s; loading := loading s; activeTab := activeTab s;
     currentFolderId := currentFolderId s; folderPath := folderPath s;
     deleteModalOpen := deleteModalOpen s; emptyTrashModalOpen := emptyTrashModalOpen s;
     selectedFile := v |}.

(** ** Requests, responses and continuations *)

(** The body of [DELETE /api/files/:id/delete]. *)
Record DeleteBody := mkDeleteBody { success : bool; data_error : option string }.

Inductive Request :=
| GetFiles (userId : string) (parentId : option string)
| PatchStar (fileId : string)
| PatchTrash (fileId : string)
| DeleteFile (fileId : string)
| DeleteEmptyTrash.

(** The answer to each request as axios delivers it: a body, or an error
    (a non-2xx status or a failed request) that makes [await] throw. *)
Inductive Response :=
| FilesResp (r : result ApiError (list File))
| StarResp (r : result ApiError File)
| TrashResp (r : result ApiError File)
| DeleteResp (r : result ApiError DeleteBody)
| EmptyResp (r : result ApiError nat).

(** What the code after [await] has captured. *)
Inductive Pending :=
| PendFetch (showLoading : bool)
| PendStar (originalFiles : list File) (file : File)
| PendTrash (originalFiles : list File)
| PendDelete (originalFiles : list File)
| PendEmptyTrash (originalFiles : list File).

Definition failed (title descr : string) : Toast := mkToast title (Some descr) "danger".
Definition succeeded (title : string) : Toast := mkToast title None "success".

(** ** fetchFiles (lines 54-73) *)

(** [if (currentFolderId) url += ...]: a folder id is sent when it is
    truthy, i.e. present and not the empty string. *)
Definition folder_param (currentFolderId : option string) : option string :=
  match currentFolderId with
  | Some p => if p === "" then None else Some p
  | None => None
  end.

Definition fetchFiles_start (userId : string) (showLoading : bool) (s : ListState)
    : ListState * Pending * Request :=
  (if showLoading then setLoading true s else s, PendFetch showLoading,
   GetFiles userId (folder_param (currentFolderId s))).

Definition fetchFiles_finish (showLoading : bool) (r : result ApiError (list File))
    (s : ListState) : ListState * list Toast :=
  let '(s1, toasts) :=
    match r with
    | Ok data => (setFiles data s, [])
    | Err _ => (s, [failed "Error Loading Files" "Couldn't load files. Please try refreshing."])
    end in
  (if showLoading then setLoading false s1 else s1, toasts).

(** ** handleStarFile (lines 94-113) *)

Definition toggle_star_in (fileId : string) (prev : list File) : list File :=
  map (λ f, if id f === fileId then with_isStarred (negb (isStarred f)) f else f) prev.

Definition handleStarFile_start (fileId : string) (s : ListState)
    : option (ListState * Pending * Request) :=
  let originalFiles := files s in
  match List.find (λ f, id f === fileId) (files s) with
  | None => None
  | Some file =>
      Some (setFiles (toggle_star_in fileId (files s)) s,
            PendStar originalFiles file, PatchStar fileId)
  end.

Definition handleStarFile_finish (originalFiles : list File) (file : File)
    (r : result ApiError File) (s : ListState) : ListState * list Toast :=
  match r with
  | Ok _ =>
      (s, [succeeded (if isStarred file then "Removed from Starred" else "Added to Starred")])
  | Err _ =>
      (setFiles originalFiles s, [failed "Action Failed" "Couldn't update star status."])
  end.

(** ** handleTrashFile (lines 115-135) *)

Definition toggle_trash_in (fileId : string) (prev : list File) : list File :=
  map (λ f, if id f === fileId then with_isTrash (negb (isTrash f)) f else f) prev.

Definition handleTrashFile_start (fileId : string) (s : ListState)
    : option (ListState * Pending * Request) :=
  let originalFiles := files s in
  match List.find (λ f, id f === fileId) (files s) with
  | None => None
  | Some _ =>
      Some (setFiles (toggle_trash_in fileId (files s)) s,
            PendTrash originalFiles, PatchTrash fileId)
  end.

Definition handleTrashFile_finish (originalFiles : list File)
    (r : result ApiError File) (s : ListState) : ListState * list Toast :=
  match r with
  | Ok responseData =>
      (s, [succeeded (if isTrash responseData then "Moved to Trash" else "Restored from Trash")])
  | Err _ =>
      (setFiles originalFiles s, [failed "Action Failed" "Couldn't update file status."])
  end.

(** ** handleDeleteFile (lines 137-160) *)

Definition remove_in (fileId : string) (prev : list File) : list File :=
  List.filter (λ f, negb (id f === fileId)) prev.

Definition handleDeleteFile_start (fileId : string) (s : ListState)
    : option (ListState * Pending * Request) :=
  let fileToDelete := List.find (λ f, id f === fileId) (files s) in
  let originalFiles := files s in
  match fileToDelete with
  | None => None
  | Some _ =>
      Some (setDeleteModalOpen false (setFiles (remove_in fileId (files s)) s),
            PendDelete originalFiles, DeleteFile fileId)
  end.

(** [if (response.data.success) ... else throw]: a body without success
    takes the [catch] branch like a failed request. *)
Definition handleDeleteFile_finish (originalFiles : list File)
    (r : result ApiError DeleteBody) (s : ListState) : ListState * list Toast :=
  let '(s1, toasts) :=
    match r with
    | Ok data =>
        if success data then (s, [succeeded "File Permanently Deleted"])
        else (setFiles originalFiles s, [failed "Deletion Failed" "Could not delete the file."])
    | Err _ => (setFiles originalFiles s, [failed "Deletion Failed" "Could not delete the file."])
    end in
  (setSelectedFile None s1, toasts).

(** ** handleEmptyTrash (lines 162-176) *)

Definition drop_trash_in (prev : list File) : list File :=
  List.filter (λ f, negb (isTrash f)) prev.

Definition handleEmptyTrash_start (s : ListState) : ListState * Pending * Request :=
  let originalFiles := files s in
  (setEmptyTrashModalOpen false (setFiles (drop_trash_in (files s)) s),
   PendEmptyTrash originalFiles, DeleteEmptyTrash).

Definition handleEmptyTrash_finish (originalFiles : list File)
    (r : result ApiError nat) (s : ListState) : ListState * list Toast :=
  match r with
  | Ok _ => (s, [succeeded "Trash Emptied"])
  | Err _ => (setFiles originalFiles s, [failed "Action Failed" "Could not empty trash."])
  end.

(** ** Dispatch *)

(** The actions a user triggers from the rows and the header. *)
Inductive UserAction :=
| AStar (fileId : string)
| ATrash (fileId : string)
| ADelete (fileId : string)
| AEmptyTrash.

Definition start (a : UserAction) (s : ListState) : option (ListState * Pending * Request) :=
  match a with
  | AStar fid => handleStarFile_start fid s
  | ATrash fid => handleTrashFile_start fid s
  | ADelete fid => handleDeleteFile_start fid s
  | AEmptyTrash => Some (handleEmptyTrash_start s)
  end.

(** The continuation of each handler on the response to its own request;
    a response of another route never reaches it. *)
Definition finish (p : Pending) (r : Response) (s : ListState) : ListState * list Toast :=
  match p, r with
  | PendFetch sl, FilesResp r => fetchFiles_finish sl r s
  | PendStar orig file, StarResp r => handleStarFile_finish orig file r s
  | PendTrash orig, TrashResp r => handleTrashFile_finish orig r s
  | PendDelete orig, DeleteResp r => handleDeleteFile_finish orig r s
  | PendEmptyTrash orig, EmptyResp r => handleEmptyTrash_finish orig r s
  | _, _ => (s, [])
  end.

(** The response of a request that failed in transit. *)
Definition failure_of (req : Request) : Response :=
  match req with
  | GetFiles _ _ => FilesResp (Err NetworkError)
  | PatchStar _ => StarResp (Err NetworkError)
  | PatchTrash _ => TrashResp (Err NetworkError)
  | DeleteFile _ => DeleteResp (Err NetworkError)
  | DeleteEmptyTrash => EmptyResp (Err NetworkError)
  end.

(** Whether a request reached the server and its answer came back, or it
    failed before reaching the server. *)
Inductive Delivery := Delivered | Lost.

Section WithServer.
Context {Srv : Type} `{FilesApiLaws Srv}.

(** The routes as seen from the browser: each request is served by the
    matching operation of the interface, under the authenticated user
    [u] at time [now]. *)
Definition serve (u : string) (now : Z) (req : Request) (srv : Srv) : Srv * Response :=
  match req with
  | GetFiles uid p => (srv, FilesResp (Ok (list_rows uid p srv)))
  | PatchStar fid =>
      match star u fid now srv with
      | Ok (srv', f) => (srv', StarResp (Ok f))
      | Err e => (srv, StarResp (Err e))
      end
  | PatchTrash fid =>
      match trash u fid now srv with
      | Ok (srv', f) => (srv', TrashResp (Ok f))
      | Err e => (srv, TrashResp (Err e))
      end
  | DeleteFile fid =>
      match delete_row u fid srv with
      | Ok srv' => (srv', DeleteResp (Ok (mkDeleteBody true None)))
      | Err e => (srv, DeleteResp (Err e))
      end
  | DeleteEmptyTrash =>
      let '(srv', n) := empty_trash u srv in (srv', EmptyResp (Ok n))
  end.

(** One user action: the synchronous prefix, the server call (or its
    failure in transit), and the continuation. *)
Definition round_trip (u : string) (now : Z) (d : Delivery) (a : UserAction)
    (s : ListState) (srv : Srv) : ListState * Srv :=
  match start a s with
  | None => (s, srv)
  | Some (s1, pend, req) =>
      match d with
      | Delivered => let '(srv', resp) := serve u now req srv in ((finish pend resp s1).1, srv')
      | Lost => ((finish pend (failure_of req) s1).1, srv)
      end
  end.

(** The browser shows exactly the server's listing of its current folder,
    up to [updatedAt]. *)
Definition synced (u : string) (s : ListState) (srv : Srv) : Prop :=
  files s ≡ list_rows u (folder_param (currentFolderId s)) srv.

(** ** Lemmas *)

#[export] Instance map_flip_starred_proper fid : Proper ((≡) ==> (≡)) (map (flip_starred fid)).
Proof. apply map_proper, _. Qed.

#[export] Instance map_flip_trash_proper fid : Proper ((≡) ==> (≡)) (map (flip_trash fid)).
Proof. apply map_proper, _. Qed.

#[export] Instance remove_in_proper fid : Proper ((≡) ==> (≡)) (remove_in fid).
Proof. apply filter_proper. intros f g Hfg. by rewrite Hfg. Qed.

#[export] Instance drop_trash_in_proper : Proper ((≡) ==> (≡)) drop_trash_in.
Proof. apply filter_proper. intros f g Hfg. by rewrite Hfg. Qed.

Lemma toggle_star_in_flip fid l : toggle_star_in fid l = map (flip_starred fid) l.
Proof. done. Qed.

Lemma toggle_trash_in_flip fid l : toggle_trash_in fid l = map (flip_trash fid) l.
Proof. done. Qed.

(** When the browser applies to its list the function the server applied
    to its listing, the two stay synchronised. *)
Lemma synced_step u (upd : list File → list File) s s' srv srv' :
  Proper ((≡) ==> (≡)) upd →
  currentFolderId s' = currentFolderId s →
  files s' = upd (files s) →
  list_rows u (folder_param (currentFolderId s)) srv' ≡
    upd (list_rows u (folder_param (currentFolderId s)) srv) →
  synced u s srv → synced u s' srv'.
Proof.
  intros Hupd Hcf Hf Hl Hs. unfold synced in *. rewrite Hcf, Hf, Hl. by f_equiv.
Qed.

(** A continuation that restores [originalFiles] restores the sync. *)
Lemma synced_revert u s s' srv :
  currentFolderId s' = currentFolderId s → files s' = files s →
  synced u s srv → synced u s' srv.
Proof. unfold synced. intros -> ->. done. Qed.

Lemma star_round_trip u now d fid s srv :
  api_wf srv → synced u s srv →
  synced u (round_trip u now d (AStar fid) s srv).1 (round_trip u now d (AStar fid) s srv).2 ∧
  api_wf (round_trip u now d (AStar fid) s srv).2.
Proof.
  intros Hwf Hs. unfold round_trip. simpl. unfold handleStarFile_start.
  destruct (List.find _ (files s)) as [file|]; [|done]. destruct d; simpl; [|done].
  destruct (star u fid now srv) as [[srv' f]|e] eqn:Hst; simpl; [|done].
  destruct (star_law u fid now srv srv' f (folder_param (currentFolderId s)) Hwf Hst)
    as [Hl Hwf'].
  split; [|done]. by apply (synced_step u (map (flip_starred fid)) s _ srv); [apply _| | | |].
Qed.

Lemma trash_round_trip u now d fid s srv :
  api_wf srv → synced u s srv →
  synced u (round_trip u now d (ATrash fid) s srv).1 (round_trip u now d (ATrash fid) s srv).2 ∧
  api_wf (round_trip u now d (ATrash fid) s srv).2.
Proof.
  intros Hwf Hs. unfold round_trip. simpl. unfold handleTrashFile_start.
  destruct (List.find _ (files s)) as [file|]; [|done]. destruct d; simpl; [|done].
  destruct (trash u fid now srv) as [[srv' f]|e] eqn:Hst; simpl; [|done].
  destruct (trash_law u fid now srv srv' f (folder_param (currentFolderId s)) Hwf Hst)
    as (Hl & Hwf' & _).
  split; [|done]. by apply (synced_step u (map (flip_trash fid)) s _ srv); [apply _| | | |].
Qed.

Lemma delete_round_trip u now d fid s srv :
  api_wf srv → synced u s srv →
  synced u (round_trip u now d (ADelete fid) s srv).1 (round_trip u now d (ADelete fid) s srv).2 ∧
  api_wf (round_trip u now d (ADelete fid) s srv).2.
Proof.
  intros Hwf Hs. unfold round_trip. simpl. unfold handleDeleteFile_start.
  destruct (List.find _ (files s)) as [file|]; [|done]. destruct d; simpl; [|done].
  destruct (delete_row u fid srv) as [srv'|e] eqn:Hd; simpl; [|done].
  destruct (delete_law u fid srv srv' (folder_param (currentFolderId s)) Hwf Hd) as [Hl Hwf'].
  split; [|done]. by apply (synced_step u (remove_in fid) s _ srv); [apply _| | |rewrite Hl|].
Qed.

Lemma empty_trash_round_trip u now d s srv :
  api_wf srv → synced u s srv →
  synced u (round_trip u now d AEmptyTrash s srv).1 (round_trip u now d AEmptyTrash s srv).2 ∧
  api_wf (round_trip u now d AEmptyTrash s srv).2.
Proof.
  intros Hwf Hs. unfold round_trip. simpl. destruct d; simpl; [|done].
  destruct (empty_trash_law u srv (folder_param (currentFolderId s)) Hwf) as [Hl Hwf'].
  destruct (empty_trash u srv) as [srv' n]. simpl in *.
  split; [|done]. by apply (synced_step u drop_trash_in s _ srv); [apply _| | |rewrite Hl|].
Qed.

(** The [catch] block of a started action writes back the list captured
    when it started, whatever the list is when the failure arrives. *)
Lemma start_failure_restores a s s1 p r s' :
  start a s = Some (s1, p, r) → files (finish p (failure_of r) s').1 = files s.
Proof.
  destruct a; simpl;
    unfold handleStarFile_start, handleTrashFile_start, handleDeleteFile_start, handleEmptyTrash_start;
    repeat case_match; intros; simplify_eq/=; reflexivity.
Qed.

(** ** Properties *)

(** C5 (Client, refinement): against any server that keeps the promises
    of [Api.FilesApiLaws], every user action of the file list (star,
    trash, delete, empty trash) keeps the browser's list equal up to
    [updatedAt] to the server's listing of the current folder: when the
    server accepts the request the optimistic update is exactly its
    effect, and when the server refuses it or the request fails in
    transit the [catch] block restores the list. *)
Theorem round_trip_synced u now d a s srv :
  api_wf srv → synced u s srv →
  synced u (round_trip u now d a s srv).1 (round_trip u now d a s srv).2 ∧
  api_wf (round_trip u now d a s srv).2.
Proof.
  destruct a; auto using star_round_trip, trash_round_trip, delete_round_trip,
    empty_trash_round_trip.
Qed.

End WithServer.

(** C6 (Client, code bug): the [catch] block of each handler restores
    [originalFiles], the list captured before its own optimistic update,
    rather than undoing that update: when an action fails after a second
    action was started, whatever that second action is and whatever its
    answer, the browser shows again the list from before both actions,
    so the second action's update disappears from the list even when the
    server applied it. *)
Theorem stale_revert_loses_update a1 a2 s s1 p1 r1 s2 p2 r2 resp2 :
  start a1 s = Some (s1, p1, r1) → start a2 s1 = Some (s2, p2, r2) →
  files (finish p1 (failure_of r1) (finish p2 resp2 s2).1).1 = files s.
Proof. intros H1 _. exact (start_failure_restores a1 s s1 p1 r1 _ H1). Qed.

(** ** Witnesses *)

(** Starring then trashing "f1": the failure of the star request shows
    "f1" neither starred nor trashed, although the trash was accepted. *)
Lemma stale_revert_loses_update_witness :
  let s := setFiles [demo_file] initial_state in
  start (AStar "f1") s = Some (setFiles [with_isStarred true demo_file] s,
                               PendStar [demo_file] demo_file, PatchStar "f1") ∧
  files (finish (PendStar [demo_file] demo_file) (failure_of (PatchStar "f1"))
           (finish (PendTrash [with_isStarred true demo_file])
              (TrashResp (Ok (with_isTrash true (with_isStarred true demo_file))))
              (setFiles [with_isTrash true (with_isStarred true demo_file)]
                 (setFiles [with_isStarred true demo_file] s))).1).1 = [demo_file].
Proof.
  assert (H1 : start (AStar "f1") (setFiles [demo_file] initial_state) =
    Some (setFiles [with_isStarred true demo_file] (setFiles [demo_file] initial_state),
          PendStar [demo_file] demo_file, PatchStar "f1")) by reflexivity.
  split; [exact H1|].
  exact (stale_revert_loses_update (AStar "f1") (ATrash "f1") _ _ _ _ _ _ _
           (TrashResp (Ok (with_isTrash true (with_isStarred true demo_file)))) H1 eq_refl).
Defined.

End Client.
