(* ===== verification/Navigation.v ===== *)
(** * Navigation: the breadcrumb of the file list

    - [navigateToFolder], [navigateUp], [navigateToPathFolder] and
      [handleItemClick] of src/components/FileList.tsx (lines 211-255)
      update [folderPath] and [currentFolderId] of [Client.ListState] and
      call back [onFolderChange], modelled as the returned [FolderChange];
    - [breadcrumb_buttons] is what src/components/FolderNavigation.tsx
      renders: the root button (index -1) and one button per breadcrumb,
      each with its label and whether it is highlighted;
    - [handleFolderChange] is the callback of
      src/components/DashboardContent.tsx (lines 47-51) that receives the
      change and updates the dashboard's own copy of the folder.

    JavaScript's [newPath[newPath.length - 1].id] on an empty array throws
    a [TypeError]; [navigateToPathFolder] returns [Err TypeError] there.
    The theorems show that after every navigation [currentFolderId] is
    the id of the last breadcrumb and the dashboard agrees with it, that
    going into a folder and back up is the identity, and that no button
    FolderNavigation renders leads to the [TypeError]. *)

From S2P Require Import Prelude Schema Client.
Import Schema Client.

Module Navigation.

Local Open Scope Z_scope.

(** The arguments of [onFolderChange(folderId, folderName)]. *)
Record FolderChange := mkFolderChange {
  fc_id : option string;
  fc_name : option string
}.

Inductive JsError := TypeError.

Definition setFolderPath (v : list Crumb) (s : ListState) : ListState :=
  {| files := files s; loading := loading s; activeTab := activeTab s;
     currentFolderId := currentFolderId s; folderPath := v;
     deleteModalOpen := deleteModalOpen s; emptyTrashModalOpen := emptyTrashModalOpen s;
     selectedFile := selectedFile s |}.

Definition setCurrentFolderId (v : option string) (s : ListState) : ListState :=
  {| files := files s; loading := loading s; activeTab := activeTab s;
     currentFolderId := v; folderPath := folderPath s;
     deleteModalOpen := deleteModalOpen s; emptyTrashModalOpen := emptyTrashModalOpen s;
     selectedFile := selectedFile s |}.

(** [navigateToFolder] (lines 211-216). *)
Definition navigateToFolder (folderId folderName : string) (s : ListState)
    : ListState * FolderChange :=
  let newPath := folderPath s ++ [mkCrumb folderId folderName] in
  (setCurrentFolderId (Some folderId) (setFolderPath newPath s),
   mkFolderChange (Some folderId) (Some folderName)).

(** [navigateUp] (lines 218-227): nothing happens at the root. *)
Definition navigateUp (s : ListState) : option (ListState * FolderChange) :=
  if bool_decide (0 < length (folderPath s))%nat then
    let newPath := removelast (folderPath s) in
    let newFolderId := crumb_id <$> last newPath in
    let newFolderName := crumb_name <$> last newPath in
    Some (setCurrentFolderId newFolderId (setFolderPath newPath s),
          mkFolderChange newFolderId newFolderName)
  else None.

(** [navigateToPathFolder] (lines 229-246): index -1 is the root; for a
    non-negative index the path is cut after that entry, and the last
    entry of the cut path is read (a [TypeError] when it is empty). *)
Definition navigateToPathFolder (index : Z) (s : ListState)
    : result JsError (ListState * FolderChange) :=
  if index <? 0 then
    Ok (setCurrentFolderId None (setFolderPath [] s), mkFolderChange None None)
  else
    let newPath := take (Z.to_nat (index + 1)) (folderPath s) in
    match last newPath with
    | None => Err TypeError
    | Some c =>
        Ok (setCurrentFolderId (Some (crumb_id c)) (setFolderPath newPath s),
            mkFolderChange (Some (crumb_id c)) (Some (crumb_name c)))
    end.

(** What a click on a row does besides navigation. *)
Inductive ClickEffect :=
| Navigated (fc : FolderChange)
| OpenedViewer (url : string)
| NoEffect.

(** [openImageViewer] (lines 203-208): the ImageKit URL of the image. *)
Definition openImageViewer (endpoint : string) (file : File) : option string :=
  if js_starts_with "image/" (type file)
  then Some (endpoint ++ "/tr:q-90,w-1600,h-1200,fo-auto/" ++ path file)%string
  else None.

(** [handleItemClick] (lines 249-255). *)
Definition handleItemClick (endpoint : string) (file : File) (s : ListState)
    : ListState * ClickEffect :=
  if isFolder file then
    let '(s', fc) := navigateToFolder (id file) (name file) s in (s', Navigated fc)
  else if js_starts_with "image/" (type file) then
    (s, match openImageViewer endpoint file with
        | Some url => OpenedViewer url
        | None => NoEffect
        end)
  else (s, NoEffect).

(** ** FolderNavigation.tsx *)

(** One rendered button: label, the index passed to
    [navigateToPathFolder], and whether it is highlighted
    ([text-primary]). *)
Record Button := mkButton { label : string; target : Z; highlighted : bool }.

Fixpoint crumb_buttons (n : nat) (i : nat) (path : list Crumb) : list Button :=
  match path with
  | [] => []
  | c :: rest =>
      mkButton (crumb_name c) (Z.of_nat i) (bool_decide (i = n - 1)%nat)
        :: crumb_buttons n (S i) rest
  end.

Definition breadcrumb_buttons (folderPath : list Crumb) : list Button :=
  mkButton (if bool_decide (length folderPath = 0)%nat then "My Files (Root)" else "My Files")
           (-1) (bool_decide (length folderPath = 0)%nat)
    :: crumb_buttons (length folderPath) 0 folderPath.

(** ** DashboardContent.tsx *)

(** The dashboard's own copy of the folder (lines 29-30). *)
Record DashFolder := mkDashFolder {
  dash_currentFolderId : option string;
  currentFolderPath : string
}.

(** [handleFolderChange] (lines 47-51): [folderName || '...'] shows
    ["..."] for a missing or empty name. *)
Definition handleFolderChange (fc : FolderChange) (d : DashFolder) : DashFolder :=
  let shown := js_or (fc_name fc) "..." in
  mkDashFolder (fc_id fc)
    (match fc_id fc with
     | Some fid => if fid === "" then "My Files" else ("My Files / " ++ shown)%string
     | None => "My Files"
     end).

(** ** Invariant *)

(** [currentFolderId] is the id of the last breadcrumb, [null] at the
    root. *)
Definition nav_inv (s : ListState) : Prop := currentFolderId s = crumb_id <$> last (folderPath s).

(** The navigation requests the user can make, and their effect on the
    file list and on the dashboard it calls back. *)
Inductive NavOp :=
| NavInto (folderId folderName : string)
| NavUp
| NavTo (index : Z).

Definition nav_step (op : NavOp) (s : ListState)
    : result JsError (ListState * option FolderChange) :=
  match op with
  | NavInto fid n => let '(s', fc) := navigateToFolder fid n s in Ok (s', Some fc)
  | NavUp => match navigateUp s with
             | Some (s', fc) => Ok (s', Some fc)
             | None => Ok (s, None)
             end
  | NavTo i => '(s', fc) ← navigateToPathFolder i s; Ok (s', Some fc)
  end.

(** [if (onFolderChange) onFolderChange(...)]: the dashboard hears every
    change. *)
Definition nav_with_dash (op : NavOp) (sd : ListState * DashFolder)
    : result JsError (ListState * DashFolder) :=
  '(s', ofc) ← nav_step op sd.1;
  Ok (s', match ofc with Some fc => handleFolderChange fc sd.2 | None => sd.2 end).

(** The file list and the dashboard agree on the current folder. *)
Definition nav_agree (sd : ListState * DashFolder) : Prop :=
  nav_inv sd.1 ∧ dash_currentFolderId sd.2 = currentFolderId sd.1.

(** ** Lemmas *)

Lemma last_take_S (l : list Crumb) k c :
  l !! k = Some c → last (take (S k) l) = Some c.
Proof. intros Hk. rewrite (take_S_r l k c Hk). apply last_snoc. Qed.

Lemma setters_id (s : ListState) :
  setCurrentFolderId (currentFolderId s) (setFolderPath (folderPath s) s) = s.
Proof. by destruct s. Qed.

Lemma crumb_buttons_spec n i path b :
  In b (crumb_buttons n i path) →
  ∃ k c, path !! k = Some c ∧ target b = Z.of_nat (i + k) ∧
         highlighted b = bool_decide (i + k = n - 1)%nat.
Proof.
  revert i. induction path as [|c path IH]; intros i; simpl; [done|].
  intros [<-|Hin].
  - exists 0%nat, c. simpl. by rewrite Nat.add_0_r.
  - destruct (IH (S i) Hin) as (k & c' & Hk & Ht & Hh).
    exists (S k), c'. rewrite Nat.add_succ_r. by split.
Qed.

Lemma crumb_buttons_highlighted n i path :
  (i + length path = n)%nat → (0 < length path)%nat →
  length (List.filter highlighted (crumb_buttons n i path)) = 1%nat.
Proof.
  revert i. induction path as [|c path IH]; intros i Hn Hlen; simpl in *; [lia|].
  destruct path as [|c' path'].
  - simpl in *. rewrite bool_decide_true by lia. done.
  - rewrite bool_decide_false by (simpl in Hn; lia). apply IH; simpl in *; lia.
Qed.

(** A navigation keeps the breadcrumb invariant and reports the new
    current folder to [onFolderChange]; when it reports nothing, the state
    is unchanged. *)
Lemma nav_step_inv op s s' ofc :
  nav_inv s → nav_step op s = Ok (s', ofc) →
  nav_inv s' ∧ match ofc with Some fc => fc_id fc = currentFolderId s' | None => s' = s end.
Proof.
  unfold nav_inv. intros Hinv Hstep.
  destruct op as [fid n| |i]; simpl in Hstep.
  - injection Hstep as <- <-. simpl. by rewrite last_snoc.
  - unfold navigateUp in Hstep.
    case_bool_decide; simpl in Hstep; injection Hstep as <- <-; simpl; [done|by split].
  - unfold navigateToPathFolder in Hstep.
    destruct (i <? 0); simpl in Hstep; [by injection Hstep as <- <-|].
    destruct (last (take _ (folderPath s))) as [c|] eqn:Hl; simpl in Hstep; [|done].
    injection Hstep as <- <-. simpl. by rewrite Hl.
Qed.

(** ** Properties *)

(** C7 (Navigation, invariant): every navigation request keeps the file
    list's [currentFolderId] equal to the id of the last breadcrumb (the
    root when the breadcrumb is empty), and keeps the dashboard's copy of
    the current folder equal to it through the [onFolderChange]
    callback. *)
Theorem nav_with_dash_agree op sd sd' :
  nav_agree sd → nav_with_dash op sd = Ok sd' → nav_agree sd'.
Proof.
  destruct sd as [s d]. unfold nav_agree, nav_with_dash. simpl.
  intros [Hinv Hd] Hstep.
  destruct (nav_step op s) as [[s1 ofc]|] eqn:Hs; simpl in Hstep; [|done].
  injection Hstep as <-. destruct (nav_step_inv op s s1 ofc Hinv Hs) as [Hi Hfc].
  split; [done|]. destruct ofc as [fc|]; simpl; [done|by subst].
Qed.

(** C8 (Navigation, round trip): going into a folder and then up one
    level gives back exactly the state before, and the dashboard is told
    the folder it came from. *)
Theorem navigate_into_then_up s fid n :
  nav_inv s →
  navigateUp (navigateToFolder fid n s).1 =
    Some (s, mkFolderChange (currentFolderId s) (crumb_name <$> last (folderPath s))).
Proof.
  unfold nav_inv. intros Hinv. unfold navigateUp, navigateToFolder. simpl.
  rewrite length_app. simpl. rewrite bool_decide_true by lia.
  rewrite removelast_last, <-Hinv. by destruct s.
Qed.

(** C9 (Navigation, error): [navigateToPathFolder] throws a [TypeError]
    exactly for a non-negative index on an empty breadcrumb, and none of
    the buttons FolderNavigation renders can trigger it: every button
    navigates, exactly one button is highlighted, and the highlighted
    button leads back to the current folder. *)
Theorem breadcrumb_buttons_safe s :
  (∀ i, navigateToPathFolder i s = Err TypeError ↔ 0 ≤ i ∧ folderPath s = []) ∧
  (∀ b, In b (breadcrumb_buttons (folderPath s)) →
        ∃ r, navigateToPathFolder (target b) s = Ok r ∧
             (highlighted b = true → nav_inv s → r.1 = s)) ∧
  length (List.filter highlighted (breadcrumb_buttons (folderPath s))) = 1%nat.
Proof.
  split; [|split].
  - intros i. unfold navigateToPathFolder.
    destruct (Z.ltb_spec i 0); [split; [done|lia]|].
    destruct (folderPath s) as [|c path] eqn:Hp.
    + rewrite take_nil. naive_solver.
    + replace (Z.to_nat (i + 1)) with (S (Z.to_nat i)) by lia. simpl.
      destruct (last (c :: take (Z.to_nat i) path)) eqn:Hl.
      * naive_solver.
      * apply last_None in Hl. done.
  - intros b Hb. unfold breadcrumb_buttons in Hb. destruct Hb as [<-|Hb].
    + eexists. split; [done|]. simpl. intros Hh Hinv. case_bool_decide; [|done].
      apply nil_length_inv in H. unfold nav_inv in Hinv. rewrite H in Hinv.
      destruct s; simpl in *; by subst.
    + destruct (crumb_buttons_spec _ _ _ _ Hb) as (k & c & Hk & -> & ->). simpl.
      unfold navigateToPathFolder.
      rewrite (proj2 (Z.ltb_ge _ _)) by lia.
      replace (Z.to_nat (Z.of_nat k + 1)) with (S k) by lia.
      rewrite (last_take_S _ _ _ Hk). eexists. split; [done|]. simpl.
      intros Hh Hinv. case_bool_decide as Hkn; [|done].
      pose proof (lookup_lt_Some _ _ _ Hk).
      rewrite take_ge by lia. unfold nav_inv in Hinv.
      assert (Hlast : last (folderPath s) = Some c).
      { rewrite <-(take_ge (folderPath s) (S k)) by lia. by apply last_take_S. }
      rewrite Hlast in Hinv. simpl in Hinv. rewrite <-Hinv. apply setters_id.
  - unfold breadcrumb_buttons.
    destruct (folderPath s) as [|c path] eqn:Hp; [done|].
    cbn [List.filter highlighted]. rewrite bool_decide_false by (simpl; lia).
    apply crumb_buttons_highlighted; simpl; lia.
Qed.

(** ** Witnesses *)

Definition demo_nav : ListState * DashFolder := (initial_state, mkDashFolder None "My Files").

Lemma nav_with_dash_agree_witness :
  nav_agree demo_nav ∧
  ∃ sd', nav_with_dash (NavInto "d1" "Docs") demo_nav = Ok sd' ∧ nav_agree sd'.
Proof.
  assert (H0 : nav_agree demo_nav) by (split; reflexivity).
  split; [exact H0|]. eexists. split; [reflexivity|].
  apply (nav_with_dash_agree (NavInto "d1" "Docs") demo_nav); [exact H0|reflexivity].
Defined.

Lemma navigate_into_then_up_witness :
  nav_inv initial_state ∧
  navigateUp (navigateToFolder "d1" "Docs" initial_state).1 =
    Some (initial_state, mkFolderChange None None).
Proof.
  assert (H0 : nav_inv initial_state) by reflexivity.
  split; [exact H0|]. apply (navigate_into_then_up initial_state "d1" "Docs" H0).
Defined.

End Navigation.
