(* ===== verification/CreateFolder.v ===== *)
(** * CreateFolder: the new-folder dialog (src/components/CreateFolderModal.tsx)

    [ModalState] is the dialog's three [useState] hooks.
    [handleCreateFolder] (lines 47-92) is cut at its [await]:
    [handleCreateFolder_start] clears the error, refuses a name that is
    blank after [trim()] or that contains a character of the class
    [invalidChars], and otherwise marks the dialog busy and sends
    [POST /api/folders/create] with the trimmed name;
    [handleCreateFolder_finish] shows the success toast and calls
    [onCreateSuccess], or shows the server's [error] message (or the
    default one), and finally clears the busy flag.  The Create button
    is disabled while the trimmed name is blank or a creation is running
    (line 139); the Enter key of the input calls the handler directly
    (line 121).

    The theorems connect the dialog to the server's validator
    (Hierarchy.v): a name the dialog sends is never refused as
    [InvalidName]; and they show that the Enter key, unlike the button,
    sends the same creation twice. *)

From Stdlib Require Import Ascii.
From S2P Require Import Prelude Schema Api Store Hierarchy Client.
Import Schema Api Store Hierarchy Client.

Module CreateFolder.

(** [CreateFolderModalProps] (lines 18-31): [currentFolderId] defaults
    to [null] when omitted; [onCreateSuccess] is the boolean the
    continuation returns. *)
Record CreateFolderModalProps := mkCreateFolderModalProps {
  cfm_userId : string;
  cfm_currentFolderId : option string;
  cfm_isOpen : bool
}.

Definition create_folder_modal_props (userId : string) (currentFolderId : option (option string))
    (isOpen : bool) : CreateFolderModalProps :=
  mkCreateFolderModalProps userId (default None currentFolderId) isOpen.

(** The hooks of lines 32-34. *)
Record ModalState := mkModalState {
  folderName : string;
  creatingFolder : bool;
  error : option string
}.

Definition initial_modal : ModalState := mkModalState "" false None.

Definition setFolderName (v : string) (s : ModalState) : ModalState :=
  mkModalState v (creatingFolder s) (error s).
Definition setCreatingFolder (v : bool) (s : ModalState) : ModalState :=
  mkModalState (folderName s) v (error s).
Definition setError (v : option string) (s : ModalState) : ModalState :=
  mkModalState (folderName s) (creatingFolder s) v.

(** The reset of lines 37-45, run 300 ms after the dialog closes. *)
Definition reset_on_close (s : ModalState) : ModalState :=
  setError None (setCreatingFolder false (setFolderName "" s)).

(** The class of the regular expression of line 54: backslash, slash,
    colon, star, question mark, double quote, less, greater, bar. *)
Definition invalidChars : list ascii :=
  ["\"; "/"; ":"; "*"; "?"; dquote; "<"; ">"; "|"]%char.

(** The body of [POST /api/folders/create]. *)
Record CreateRequest := mkCreateRequest {
  req_name : string;
  req_userId : string;
  req_parentId : option string
}.

Definition handleCreateFolder_start (userId : string) (currentFolderId : option string)
    (s : ModalState) : ModalState * option CreateRequest :=
  let s := setError None s in
  if js_trim (folderName s) === "" then
    (setError (Some "Please enter a valid folder name.") s, None)
  else if js_test_class invalidChars (folderName s) then
    (setError (Some "Folder name contains invalid characters.") s, None)
  else
    (setCreatingFolder true s,
     Some (mkCreateRequest (js_trim (folderName s)) userId currentFolderId)).

(** The answer: success, or an error whose body may carry a message
    ([error.response?.data?.error]). *)
Definition CreateResponse := result (option string) unit.

(** The continuation for the [folderName] captured when the handler
    started; the boolean tells whether [onCreateSuccess] was called. *)
Definition handleCreateFolder_finish (name : string) (r : CreateResponse) (s : ModalState)
    : ModalState * list Toast * bool :=
  let '(s1, toasts, called) :=
    match r with
    | Ok _ =>
        (s, [mkToast "Folder Created" (Some ("Folder " ++ quoted (js_trim name) ++ " created.")%string)
              "success"], true)
    | Err msg =>
        let errorMessage :=
          match msg with
          | Some m => if m === "" then "We couldn't create the folder. Please try again." else m
          | None => "We couldn't create the folder. Please try again."
          end in
        (setError (Some errorMessage) s,
         [mkToast "Folder Creation Failed" (Some errorMessage) "danger"], false)
    end in
  (setCreatingFolder false s1, toasts, called).

(** [isDisabled={!folderName.trim() || creatingFolder}] (line 139). *)
Definition create_button_disabled (s : ModalState) : bool :=
  (js_trim (folderName s) === "") || creatingFolder s.

(** The two ways of submitting: the button (only when enabled) and the
    Enter key of the input (always). *)
Inductive Submit := PressButton | PressEnter.

Definition submit (how : Submit) (userId : string) (currentFolderId : option string)
    (s : ModalState) : ModalState * option CreateRequest :=
  match how with
  | PressButton =>
      if create_button_disabled s then (s, None)
      else handleCreateFolder_start userId currentFolderId s
  | PressEnter => handleCreateFolder_start userId currentFolderId s
  end.

(** What the dialog renders (lines 94-148): the name input with its
    error ([isInvalid={!!error}], [errorMessage={error}]), the hint that
    names the current folder by its id ([currentFolderId || 'root'],
    line 127), and the Create button, loading while a creation runs,
    disabled as above, its arrow hidden while loading. *)
Record CreateDialogView := mkCreateDialogView {
  cd_name : string;
  cd_invalid : bool;
  cd_error : option string;
  cd_hint : string;
  cd_loading : bool;
  cd_disabled : bool;
  cd_arrow : bool
}.

Definition create_dialog_view (currentFolderId : option string) (s : ModalState) : CreateDialogView :=
  mkCreateDialogView (folderName s) (js_truthy (error s)) (error s)
    ("Enter a name for the new folder in the current directory (" +:+
       js_or currentFolderId "root" +:+ ").")
    (creatingFolder s) (create_button_disabled s) (negb (creatingFolder s)).

(** ** Lemmas *)

Lemma invalidChars_reserved : invalidChars = reserved_chars.
Proof. reflexivity. Qed.

Lemma start_request userId cf s s' req :
  handleCreateFolder_start userId cf s = (s', Some req) →
  js_trim (folderName s) ≠ "" ∧ js_test_class invalidChars (folderName s) = false ∧
  req = mkCreateRequest (js_trim (folderName s)) userId cf ∧ creatingFolder s' = true.
Proof.
  unfold handleCreateFolder_start. simpl.
  destruct (String.eqb_spec (js_trim (folderName s)) ""); [done|].
  destruct (js_test_class invalidChars (folderName s)); [done|].
  intros [= <- <-]. done.
Qed.

(** A name the dialog accepts passes the server's name check. *)
Lemma start_valid_name userId cf s s' req :
  handleCreateFolder_start userId cf s = (s', Some req) → valid_name (req_name req) = true.
Proof.
  intros (Hne & Hcls & -> & _)%start_request. simpl. unfold valid_name.
  destruct (String.eqb_spec (js_trim (folderName s)) ""); [done|]. simpl.
  destruct (js_test_class reserved_chars (js_trim (folderName s))) eqn:Hr; [|done].
  apply js_test_class_trim in Hr. rewrite <-invalidChars_reserved in Hr. congruence.
Qed.

Lemma api_create_entry_valid_name u p n meta fresh now rows :
  valid_name n = true → api_create_entry u p n meta fresh now rows ≠ Err InvalidName.
Proof.
  intros Hv. unfold api_create_entry. rewrite Hv. simpl.
  destruct (check_parent u p rows) as [[]|e] eqn:Hp; simpl.
  - unfold derive_path. destruct (ancestor_names _ _ _); simpl; [|done].
    destruct (bool_decide _); simpl; [done|]. by destruct (insert_row _ _ _).
  - destruct p as [pid|]; simpl in Hp; [|done].
    destruct (find_row rows pid); [|congruence].
    unfold check in Hp. destruct (_ && _); congruence.
Qed.

(** ** Properties *)

(** C12 (CreateFolder, refinement of the validator): whenever the dialog
    sends a creation, whatever the folder, the fresh id and the table,
    the server never refuses it with [InvalidName]: the dialog's checks on
    the untrimmed name (not blank after [trim], no character of
    [invalidChars]) imply the server's checks on the trimmed name it
    sends. *)
Theorem dialog_name_accepted userId cf s s' req u p fresh now rows :
  handleCreateFolder_start userId cf s = (s', Some req) →
  api_create_entry u p (req_name req) None fresh now rows ≠ Err InvalidName.
Proof. intros H. by apply api_create_entry_valid_name, (start_valid_name userId cf s s'). Qed.

(** The handler keeps the typed name. *)
Lemma start_folderName userId cf s s' o :
  handleCreateFolder_start userId cf s = (s', o) → folderName s' = folderName s.
Proof. unfold handleCreateFolder_start. simpl. repeat case_match; by intros [= <- _]. Qed.

(** Whether [insert_row] accepts a row depends only on its size. *)
Lemma insert_row_size fresh now nf fresh' now' nf' f :
  insert_row fresh now nf = Some f → nf_size nf' = nf_size nf → ∃ f', insert_row fresh' now' nf' = Some f'.
Proof. unfold insert_row. intros H ->. destruct (int4_in_range _); [eauto|done]. Qed.

(** The create route is not idempotent: once it has accepted an entry,
    it accepts the same entry again under any id not yet used. *)
Lemma api_create_entry_again u p n meta fresh fresh' now now' rows rows1 f1 :
  api_create_entry u p n meta fresh now rows = Ok (rows1, f1) → fresh' ∉ ids rows1 →
  ∃ f2, api_create_entry u p n meta fresh' now' rows1 = Ok (rows1 ++ [f2], f2) ∧ id f2 = fresh'.
Proof.
  intros H Hfr. pose proof H as (Hv & Hp & (c & Hc & Hi) & _ & ->)%api_create_entry_Ok.
  assert (Hp' : check_parent u p (rows ++ [f1]) = Ok ()).
  { destruct p as [pid|]; [|done]. simpl in *.
    destruct (find_row rows pid) as [g|] eqn:Hg; [|done]. by rewrite (find_row_app_Some _ _ _ _ Hg). }
  assert (Hc' : chain (length (rows ++ [f1])) (rows ++ [f1]) p = Some c).
  { apply chain_app. eapply chain_mono; [exact Hc|]. rewrite length_app. lia. }
  destruct (insert_row_size _ _ _ fresh' now'
              (new_entry u p n (join_path (rev (map name c)) ++ "/" ++ n)%string meta) _ Hi)
    as [f2 Hi2]; [by destruct meta|].
  exists f2. split; [|by destruct (insert_new_entry _ _ _ _ _ _ _ _ Hi2)].
  unfold api_create_entry. rewrite Hv. simpl. rewrite Hp'. simpl.
  unfold derive_path, ancestor_names. rewrite Hc'. simpl. rewrite join_path_snoc.
  rewrite bool_decide_false by exact Hfr. simpl. by rewrite Hi2.
Qed.

(** ** Properties *)

(** C13 (CreateFolder, code bug): the Create button is disabled once a
    creation is running, but the Enter key of the input calls
    [handleCreateFolder] without looking at [creatingFolder].  Whenever
    the dialog sends a creation, a second Enter before the answer sends
    the very same request again, while the button would do nothing; and
    whenever the server accepted the first request, it accepts the
    second under any unused id, so that the folder then lists two
    distinct entries under the same name. *)
Theorem enter_twice_creates_twice userId cf s s1 req fresh1 fresh2 now1 now2 rows rows1 f1 :
  handleCreateFolder_start userId cf s = (s1, Some req) →
  api_create_entry (req_userId req) (req_parentId req) (req_name req) None fresh1 now1 rows = Ok (rows1, f1) →
  fresh2 ∉ ids rows1 →
  create_button_disabled s1 = true ∧ submit PressButton userId cf s1 = (s1, None) ∧
  (∃ s2, submit PressEnter userId cf s1 = (s2, Some req)) ∧
  ∃ f2, api_create_entry (req_userId req) (req_parentId req) (req_name req) None fresh2 now2 rows1 =
          Ok (rows1 ++ [f2], f2) ∧
        id f2 ≠ id f1 ∧ name f2 = name f1 ∧
        In f1 (api_list (req_userId req) (req_parentId req) (rows1 ++ [f2])) ∧
        In f2 (api_list (req_userId req) (req_parentId req) (rows1 ++ [f2])).
Proof.
  intros Hst Hc1 Hfr. pose proof (start_folderName _ _ _ _ _ Hst) as Hname.
  destruct (start_request _ _ _ _ _ Hst) as (Hne & Hcls & -> & Hbusy). simpl in *.
  assert (Hdis : create_button_disabled s1 = true) by (unfold create_button_disabled; rewrite Hbusy; apply orb_true_r).
  split; [done|]. split; [by unfold submit; rewrite Hdis|].
  split.
  { unfold submit, handleCreateFolder_start. simpl. rewrite Hname.
    destruct (String.eqb_spec (js_trim (folderName s)) ""); [done|]. rewrite Hcls. by eexists. }
  destruct (api_create_entry_again _ _ _ _ _ _ _ now2 _ _ _ Hc1 Hfr) as (f2 & Hc2 & Hid).
  pose proof (api_create_entry_listed _ _ _ _ _ _ _ _ _ Hc1) as Hin1.
  pose proof (api_create_entry_listed _ _ _ _ _ _ _ _ _ Hc2) as Hin2.
  apply api_create_entry_Ok in Hc1 as (_ & _ & (c1 & _ & Hi1) & _ & ->).
  pose proof Hc2 as (_ & _ & (c2 & _ & Hi2) & _ & _)%api_create_entry_Ok.
  destruct (insert_new_entry _ _ _ _ _ _ _ _ Hi1) as (_ & _ & Hn1 & _).
  destruct (insert_new_entry _ _ _ _ _ _ _ _ Hi2) as (_ & _ & Hn2 & _).
  exists f2. split; [done|]. split.
  { intros Heq. apply Hfr. rewrite <-Hid, Heq. unfold ids. rewrite map_app.
    apply elem_of_app. right. by left. }
  split; [congruence|]. split; [|done].
  unfold api_list in *. apply filter_In in Hin1 as [Hr Hq]. apply filter_In. split; [apply in_or_app; by left|done].
Qed.

(** ** Witnesses *)

(** The dialog with "Docs" typed in, at the root of ["alice"]. *)
Definition typed_docs : ModalState := setFolderName "Docs" initial_modal.

Lemma dialog_name_accepted_witness :
  handleCreateFolder_start "alice" None typed_docs =
    (setCreatingFolder true typed_docs, Some (mkCreateRequest "Docs" "alice" None)) ∧
  api_create_entry "alice" None "Docs" None "d1" 0 [] ≠ Err InvalidName.
Proof.
  assert (Hs : handleCreateFolder_start "alice" None typed_docs =
    (setCreatingFolder true typed_docs, Some (mkCreateRequest "Docs" "alice" None))) by reflexivity.
  split; [exact Hs|].
  exact (dialog_name_accepted "alice" None typed_docs _ _ "alice" None "d1" 0 [] Hs).
Defined.


Lemma enter_twice_creates_twice_witness :
  handleCreateFolder_start "alice" None typed_docs =
    (setCreatingFolder true typed_docs, Some (mkCreateRequest "Docs" "alice" None)) ∧
  api_create_entry "alice" None "Docs" None "d1" 0 [] = Ok ([demo_folder], demo_folder) ∧
  ("d2" ∉ ids [demo_folder]) ∧
  ∃ s2, submit PressEnter "alice" None (setCreatingFolder true typed_docs) =
    (s2, Some (mkCreateRequest "Docs" "alice" None)).
Proof.
  assert (Hs : handleCreateFolder_start "alice" None typed_docs =
    (setCreatingFolder true typed_docs, Some (mkCreateRequest "Docs" "alice" None))) by reflexivity.
  assert (Hfr : "d2" ∉ ids [demo_folder]) by decide_by_eval.
  split; [exact Hs|]. split; [exact create_docs|]. split; [exact Hfr|].
  exact (proj1 (proj2 (proj2
    (enter_twice_creates_twice "alice" None typed_docs _ _ "d1" "d2" 0 1 [] _ _ Hs create_docs Hfr)))).
Defined.

End CreateFolder.
