(* ===== verification/Upload.v ===== *)
(** * Upload: the upload dialog (src/components/FileUploadModal.tsx)

    [UploadState] is the dialog's five [useState] hooks (lines 40-44).
    A file enters the dialog through the file input ([handleFileChange])
    or a drop on the drop zone ([handleDrop]); both go through
    [validateAndSetFile] (lines 78-100), which keeps the file only when it
    is at most 5 MB and of an allowed type.  [handleUpload] (lines
    116-174) is cut at its [await]: [handleUpload_start] refuses when no
    file is selected, an upload is running or the last one succeeded, and
    otherwise marks the dialog busy and sends [POST /api/files/upload];
    [onUploadProgress] reports [Math.round(loaded * 100 / total)];
    [handleUpload_finish] records the success (progress 100, the success
    toast, [onUploadSuccess] one second later) or the error, and finally
    clears the busy flag.  The close effect (lines 48-59) resets the
    dialog 300 ms after it closes.

    [UWorld] pairs the dialog with the files of the uploads in flight;
    [upload_event] is one event of the dialog (a user action, a progress
    report or an answer), and [run] a sequence of them.

    The theorems show that every file the dialog holds, hence every file
    it sends, meets the size and type limits, and is never refused by the
    table's integer column; that the progress is [Math.round] of the
    exact percentage and stays in [0, 100]; that without closing the
    dialog at most one upload is in flight; and that two interleavings
    the guards do not cover go wrong from every state with an upload in
    flight: a drop, and a close followed by a new upload. *)

From stdpp Require Import pretty.
From Stdlib Require Import QArith.
From S2P Require Import Prelude Rounding Schema Api Store Hierarchy Client.
Import Rounding Schema Api Store Hierarchy Client.

Module Upload.

Local Open Scope Z_scope.

(** The browser's [File]: its name, its size in bytes and its MIME type. *)
Record SelFile := mkSelFile { sf_name : string; sf_size : N; sf_type : string }.

Record UploadState := mkUploadState {
  file : option SelFile;
  uploading : bool;
  progress : Z;
  error : option string;
  isSuccess : bool
}.

Definition initial_upload : UploadState := mkUploadState None false 0 None false.

Definition setFile (v : option SelFile) (s : UploadState) : UploadState :=
  mkUploadState v (uploading s) (progress s) (error s) (isSuccess s).
Definition setUploading (v : bool) (s : UploadState) : UploadState :=
  mkUploadState (file s) v (progress s) (error s) (isSuccess s).
Definition setProgress (v : Z) (s : UploadState) : UploadState :=
  mkUploadState (file s) (uploading s) v (error s) (isSuccess s).
(** The dialog's [setError]. *)
Definition setUploadError (v : option string) (s : UploadState) : UploadState :=
  mkUploadState (file s) (uploading s) (progress s) v (isSuccess s).
Definition setIsSuccess (v : bool) (s : UploadState) : UploadState :=
  mkUploadState (file s) (uploading s) (progress s) (error s) v.

(** [FileUploadModalProps] (lines 26-39): [currentFolderId] defaults to
    [null] when omitted; [onUploadSuccess] is the boolean the
    continuation returns, and [isOpen] drives the reset below. *)
Record FileUploadModalProps := mkFileUploadModalProps {
  fum_userId : string;
  fum_currentFolderId : option string;
  fum_isOpen : bool
}.

Definition file_upload_modal_props (userId : string) (currentFolderId : option (option string))
    (isOpen : bool) : FileUploadModalProps :=
  mkFileUploadModalProps userId (default None currentFolderId) isOpen.

(** The reset of lines 48-59. *)
Definition upload_reset_on_close (s : UploadState) : UploadState :=
  setIsSuccess false (setUploadError None (setProgress 0 (setUploading false (setFile None s)))).

(** ** Selecting a file *)

Definition maxSize : Z := 5 * 1024 * 1024.

Definition allowedTypes : list string :=
  ["image/jpeg"; "image/png"; "image/gif"; "image/webp"; "application/pdf"; "text/plain"].

Definition validateAndSetFile (selectedFile : SelFile) (s : UploadState) : UploadState :=
  let s := setIsSuccess false (setUploadError None s) in
  if bool_decide (Z.of_N (sf_size selectedFile) > maxSize) then
    setFile None (setUploadError
      (Some ("File size exceeds " +:+ pretty (maxSize / (1024 * 1024)) +:+ "MB limit.")) s)
  else if negb (bool_decide (sf_type selectedFile ∈ allowedTypes)) then
    setFile None (setUploadError
      (Some "Invalid file type. Supported: JPG, PNG, GIF, WebP, PDF, TXT") s)
  else setUploadError None (setFile (Some selectedFile) s).

(** [e.target.files[0]] when present (lines 62-67). *)
Definition handleFileChange (files : list SelFile) (s : UploadState) : UploadState :=
  match files with
  | selectedFile :: _ => validateAndSetFile selectedFile s
  | [] => s
  end.

(** Lines 69-76: the success mark is cleared before the drop is read. *)
Definition handleDrop (files : list SelFile) (s : UploadState) : UploadState :=
  let s := setIsSuccess false s in
  match files with
  | droppedFile :: _ => validateAndSetFile droppedFile s
  | [] => s
  end.

(** Lines 107-114. *)
Definition clearFile (s : UploadState) : UploadState :=
  setIsSuccess false (setUploadError None (setFile None s)).

(** ** Uploading *)

(** The [FormData] of lines 119-124. *)
Record UploadRequest := mkUploadRequest {
  up_file : SelFile;
  up_userId : string;
  up_parentId : option string
}.

Definition handleUpload_start (userId : string) (currentFolderId : option string)
    (s : UploadState) : option (UploadState * UploadRequest) :=
  match file s with
  | None => None
  | Some f =>
      if uploading s || isSuccess s then None
      else Some (setIsSuccess false (setUploadError None (setProgress 0 (setUploading true s))),
                 mkUploadRequest f userId (folder_param currentFolderId))
  end.

(** [onUploadProgress] (lines 134-141): [progressEvent.total] may be
    missing or zero, and is then ignored. *)
Definition onUploadProgress (loaded : N) (total : option N) (s : UploadState) : UploadState :=
  match total with
  | Some t =>
      if bool_decide (t = 0%N) then s
      else setProgress (js_round_div (Z.of_N loaded * 100) (Z.of_N t)) s
  | None => s
  end.

Definition UploadResponse := result (option string) unit.

(** [POST /api/files/upload] (spec-modelled, sections 6 and 7): the
    object storage answers with the URL and the optional thumbnail of
    the stored bytes, or fails ([None]), which the route reports as
    [StorageUnavailable] without retrying; it then creates the file's
    entry for the authenticated user under the requested parent. *)
Definition StorageAnswer := option (string * option string).

Definition api_upload (u : string) (req : UploadRequest) (storage : StorageAnswer)
    (fresh : string) (now : Z) (rows : list File) : result ApiError (list File * File) :=
  match storage with
  | None => Err StorageUnavailable
  | Some (url, thumb) =>
      api_create_entry u (up_parentId req) (sf_name (up_file req))
        (Some (mkFileMeta (Z.of_N (sf_size (up_file req))) (sf_type (up_file req)) url thumb))
        fresh now rows
  end.

(** Lines 144-173 for the file captured when the handler started; the
    boolean tells whether [onUploadSuccess] is scheduled. *)
Definition handleUpload_finish (f : SelFile) (r : UploadResponse) (s : UploadState)
    : UploadState * list Toast * bool :=
  let '(s1, toasts, called) :=
    match r with
    | Ok _ =>
        (setProgress 100 (setIsSuccess true s),
         [mkToast "Upload Successful" (Some (sf_name f +:+ " uploaded.")) "success"], true)
    | Err msg =>
        let errorMessage :=
          match msg with
          | Some m => if m === "" then "Failed to upload file. Please try again." else m
          | None => "Failed to upload file. Please try again."
          end in
        (setUploadError (Some errorMessage) s,
         [mkToast "Upload Failed" (Some errorMessage) "danger"], false)
    end in
  (setUploading false s1, toasts, called).

(** ** What the dialog renders *)

(** The Upload button (lines 295-305): shown when a file is selected and
    not yet uploaded; [Some disabled] when shown. *)
Definition upload_button (s : UploadState) : option bool :=
  match file s with
  | Some _ => if isSuccess s then None else Some (js_truthy (error s) || uploading s)
  | None => None
  end.

(** The clear button of the preview (lines 251-255). *)
Definition clear_button_shown (s : UploadState) : bool :=
  match file s with
  | Some _ => negb (isSuccess s) && negb (uploading s)
  | None => false
  end.

(** The success panel (lines 264-270): the name it reports as uploaded. *)
Definition success_panel (s : UploadState) : option string :=
  if isSuccess s then (λ f, sf_name f +:+ " uploaded successfully!") <$> file s else None.

(** ** The dialog and its uploads in flight *)

Record UWorld := mkUWorld { dialog : UploadState; in_flight : list SelFile }.

Inductive UEvent :=
| EPick (files : list SelFile)
| EDrop (files : list SelFile)
| EClear
| EPressUpload
| EProgress (loaded : N) (total : option N)
| EReply (r : UploadResponse)
| EDismissError
| EClose.

(** One event, for the user [userId] in the folder [cf]: a click on a
    button that is hidden or disabled does nothing; an answer or a progress
    report concerns the oldest upload in flight. *)
Definition upload_event (userId : string) (cf : option string) (ev : UEvent) (w : UWorld)
    : UWorld :=
  let s := dialog w in
  match ev with
  | EPick fs => mkUWorld (handleFileChange fs s) (in_flight w)
  | EDrop fs => mkUWorld (handleDrop fs s) (in_flight w)
  | EClear => if clear_button_shown s then mkUWorld (clearFile s) (in_flight w) else w
  | EPressUpload =>
      match upload_button s with
      | Some false =>
          match handleUpload_start userId cf s with
          | Some (s', req) => mkUWorld s' (in_flight w ++ [up_file req])
          | None => w
          end
      | _ => w
      end
  | EProgress l t =>
      match in_flight w with
      | _ :: _ => mkUWorld (onUploadProgress l t s) (in_flight w)
      | [] => w
      end
  | EReply r =>
      match in_flight w with
      | f :: rest => mkUWorld (handleUpload_finish f r s).1.1 rest
      | [] => w
      end
  | EDismissError => mkUWorld (setUploadError None s) (in_flight w)
  | EClose => mkUWorld (upload_reset_on_close s) (in_flight w)
  end.

Definition run (userId : string) (cf : option string) (evs : list UEvent) (w : UWorld) : UWorld :=
  fold_left (λ w ev, upload_event userId cf ev w) evs w.

(** A progress report never says more was sent than the total. *)
Definition event_ok (ev : UEvent) : Prop :=
  match ev with
  | EProgress l (Some t) => (l ≤ t)%N
  | _ => True
  end.

Definition is_close (ev : UEvent) : bool := match ev with EClose => true | _ => false end.

(** ** Invariants *)

(** A file that meets the dialog's limits. *)
Definition file_ok (f : SelFile) : Prop :=
  Z.of_N (sf_size f) ≤ maxSize ∧ sf_type f ∈ allowedTypes.

(** The selected file and the files in flight meet the limits, and the
    progress is a percentage. *)
Definition upload_safe (w : UWorld) : Prop :=
  (∀ f, file (dialog w) = Some f → file_ok f) ∧ Forall file_ok (in_flight w) ∧
  0 ≤ progress (dialog w) ≤ 100.

(** At most one upload is in flight, exactly while the dialog is busy. *)
Definition single_flight (w : UWorld) : Prop :=
  (length (in_flight w) ≤ 1)%nat ∧ (uploading (dialog w) = true ↔ in_flight w ≠ []).

(** ** Lemmas *)

Lemma validate_file sel s f :
  file (validateAndSetFile sel s) = Some f → f = sel ∧ file_ok sel.
Proof.
  unfold validateAndSetFile, file_ok. simpl.
  case_bool_decide as Hs; simpl; [done|].
  case_bool_decide as Ht; simpl; [|done]. intros [= <-]. split; [done|]. split; [lia|done].
Qed.

(** A file within the limits is selected, with the error and the
    success mark cleared. *)
Lemma validate_ok_state sel s :
  file_ok sel →
  validateAndSetFile sel s = setUploadError None (setFile (Some sel) (setIsSuccess false (setUploadError None s))).
Proof.
  intros [Hs Ht]. unfold validateAndSetFile.
  rewrite bool_decide_false by lia. rewrite bool_decide_true by done. done.
Qed.

Lemma validate_ok sel s :
  file_ok sel → file (validateAndSetFile sel s) = Some sel ∧ isSuccess (validateAndSetFile sel s) = false.
Proof. intros Hok. by rewrite validate_ok_state. Qed.

Lemma validate_keeps sel s :
  uploading (validateAndSetFile sel s) = uploading s ∧
  progress (validateAndSetFile sel s) = progress s.
Proof. unfold validateAndSetFile. by repeat case_bool_decide. Qed.

Lemma handleFileChange_file fs s f :
  file (handleFileChange fs s) = Some f → file s = Some f ∨ file_ok f.
Proof.
  destruct fs as [|sel fs]; simpl; [by left|].
  intros (-> & ?)%validate_file. by right.
Qed.

Lemma handleFileChange_keeps fs s :
  uploading (handleFileChange fs s) = uploading s ∧ progress (handleFileChange fs s) = progress s.
Proof. destruct fs; [done|apply validate_keeps]. Qed.

Lemma handleDrop_file fs s f :
  file (handleDrop fs s) = Some f → file s = Some f ∨ file_ok f.
Proof.
  destruct fs as [|sel fs]; simpl; [by left|].
  intros (-> & ?)%validate_file. by right.
Qed.

Lemma handleDrop_keeps fs s :
  uploading (handleDrop fs s) = uploading s ∧ progress (handleDrop fs s) = progress s.
Proof. destruct fs; [done|]. apply (validate_keeps _ (setIsSuccess false s)). Qed.

Lemma onUploadProgress_bounds l t s :
  (∀ t', t = Some t' → (l ≤ t')%N) → 0 ≤ progress s ≤ 100 →
  0 ≤ progress (onUploadProgress l t s) ≤ 100.
Proof.
  intros Hl Hp. destruct t as [t|]; simpl; [|done].
  case_bool_decide; [done|]. simpl.
  apply js_round_div_percent; specialize (Hl t eq_refl); lia.
Qed.

Lemma upload_button_enabled s :
  upload_button s = Some false → ∃ f, file s = Some f ∧ uploading s = false ∧ isSuccess s = false.
Proof.
  unfold upload_button. destruct (file s) as [f|]; [|done].
  destruct (isSuccess s); [done|]. intros [= Hd]. apply orb_false_iff in Hd as [_ Hu]. eauto.
Qed.

Lemma onUploadProgress_file l t s : file (onUploadProgress l t s) = file s.
Proof. unfold onUploadProgress. destruct t; [case_bool_decide|]; done. Qed.

Lemma handleUpload_finish_file f r s : file (handleUpload_finish f r s).1.1 = file s.
Proof. by destruct r. Qed.

(** The selected file meets the limits. *)
Definition selected_ok (w : UWorld) : Prop := ∀ f, file (dialog w) = Some f → file_ok f.

Lemma selected_ok_step u cf ev w : selected_ok w → selected_ok (upload_event u cf ev w).
Proof.
  destruct w as [d fl]. unfold selected_ok. simpl. intros Hf.
  destruct ev as [fs|fs| | |l t|r| |]; simpl.
  - intros f [?|?]%handleFileChange_file; auto.
  - intros f [?|?]%handleDrop_file; auto.
  - by destruct (clear_button_shown _).
  - destruct (upload_button d) as [[]|]; [exact Hf| |exact Hf].
    unfold handleUpload_start. destruct (file d) eqn:Hd; [|simpl; by rewrite Hd].
    destruct (_ || _); simpl; rewrite ?Hd; [exact Hf|]. intros f [= <-]. by apply Hf.
  - destruct fl; [done|]. simpl. by rewrite onUploadProgress_file.
  - destruct fl; [done|]. simpl. by rewrite handleUpload_finish_file.
  - done.
  - done.
Qed.

Lemma upload_safe_step u cf ev w :
  event_ok ev → upload_safe w → upload_safe (upload_event u cf ev w).
Proof.
  destruct w as [d fl]. intros Hev (Hf & Hin & Hp). unfold upload_safe. simpl in *.
  destruct ev as [fs|fs| | |l t|r| |]; simpl.
  - destruct (handleFileChange_keeps fs d) as [_ Hk].
    split; [|split; [done|by rewrite Hk]].
    intros f [Hf'|Hok]%handleFileChange_file; [by apply Hf|done].
  - destruct (handleDrop_keeps fs d) as [_ Hk].
    split; [|split; [done|by rewrite Hk]].
    intros f [Hf'|Hok]%handleDrop_file; [by apply Hf|done].
  - destruct (clear_button_shown _); simpl; naive_solver.
  - destruct (upload_button d) as [[]|] eqn:Hb; simpl; try naive_solver.
    destruct (upload_button_enabled _ Hb) as (f & Hfile & Hu & Hs).
    unfold handleUpload_start. rewrite Hfile, Hu, Hs. simpl.
    split; [done|]. split; [|lia].
    apply Forall_app. split; [done|]. by constructor; [apply Hf|].
  - destruct fl; simpl; [naive_solver|]. rewrite onUploadProgress_file.
    split; [done|]. split; [done|].
    apply onUploadProgress_bounds; [|done]. intros t' ->. exact Hev.
  - destruct fl as [|f rest]; simpl; [naive_solver|]. apply Forall_cons in Hin as [_ Hrest].
    destruct r; simpl; (split; [done|]); (split; [done|]); simpl; lia.
  - done.
  - split; [done|]. split; [done|]. simpl. lia.
Qed.

Lemma single_flight_step u cf ev w :
  is_close ev = false → single_flight w → single_flight (upload_event u cf ev w).
Proof.
  destruct w as [d fl]. intros Hev [Hlen Hu]. unfold single_flight. simpl in *.
  destruct ev as [fs|fs| | |l t|r| |]; simpl; try done.
  - by rewrite (proj1 (handleFileChange_keeps fs d)).
  - by rewrite (proj1 (handleDrop_keeps fs d)).
  - by destruct (clear_button_shown _).
  - destruct (upload_button d) as [[]|] eqn:Hb; try naive_solver.
    destruct (upload_button_enabled _ Hb) as (f & Hfile & Hu' & Hs).
    assert (fl = []) as Hnil.
    { destruct fl; [done|]. rewrite Hu' in Hu. discriminate (proj2 Hu ltac:(done)). }
    unfold handleUpload_start. rewrite Hfile, Hu', Hs, Hnil. simpl. split; [done|]. done.
  - destruct fl; simpl; [naive_solver|]. split; [done|].
    unfold onUploadProgress. destruct t as [t|]; [case_bool_decide|]; done.
  - destruct fl as [|f rest]; simpl; [naive_solver|]. simpl in Hlen.
    destruct rest; [|simpl in Hlen; lia]. split; [simpl; lia|].
    destruct r; simpl; done.
Qed.

(** The create route refuses an entry for its size only when the size
    does not fit the [integer] column. *)
Lemma api_create_entry_OutOfRange u p n meta fresh now rows :
  api_create_entry u p n meta fresh now rows = Err OutOfRange →
  ∃ m, meta = Some m ∧ int4_in_range (meta_size m) = false.
Proof.
  unfold api_create_entry. destruct (valid_name n); simpl; [|done].
  destruct (check_parent u p rows) as [[]|e] eqn:Hp; simpl.
  - unfold derive_path. destruct (ancestor_names _ _ _); simpl; [|done].
    destruct (bool_decide _); simpl; [done|].
    unfold insert_row. destruct meta as [m|]; simpl; [|done].
    destruct (int4_in_range (meta_size m)) eqn:Hr; simpl; [done|]. eauto.
  - destruct p as [pid|]; simpl in Hp; [|done].
    destruct (find_row rows pid); [|congruence].
    unfold check in Hp. destruct (_ && _); congruence.
Qed.

(** An invariant of every event allowed in a sequence holds after the
    sequence. *)
Lemma run_invariant u cf (P : UWorld → Prop) (Q : UEvent → Prop) evs w :
  (∀ ev w, Q ev → P w → P (upload_event u cf ev w)) →
  Forall Q evs → P w → P (run u cf evs w).
Proof.
  intros Hstep Hevs. revert w. induction Hevs as [|ev evs Hev Hevs IH]; intros w Hw; [done|].
  simpl. apply IH. by apply Hstep.
Qed.

Lemma file_ok_int4 f : file_ok f → int4_in_range (Z.of_N (sf_size f)) = true.
Proof.
  intros [Hs _]. unfold int4_in_range, int4_min, int4_max, maxSize in *.
  apply andb_true_iff. split; apply Z.leb_le; lia.
Qed.

(** ** Properties *)

(** C14 (Upload, invariant): whatever the user does and in whatever
    order the progress reports and answers arrive, the file the dialog
    holds and every file it has sent are at most 5 MB and of an allowed
    type, and the progress shown stays between 0 and 100, provided no
    progress report claims more bytes than its total. *)
Theorem upload_safe_run u cf evs w :
  upload_safe w → Forall event_ok evs → upload_safe (run u cf evs w).
Proof. intros Hw Hevs. exact (run_invariant u cf _ _ evs w (upload_safe_step u cf) Hevs Hw). Qed.

(** C15 (Upload, safety): as long as the dialog is not closed, at most
    one upload is in flight, and the dialog is busy exactly while it is:
    the guard [!file || uploading || isSuccess] and the disabled button
    prevent a second upload. *)
Theorem single_flight_run u cf evs w :
  single_flight w → Forall (λ ev, is_close ev = false) evs → single_flight (run u cf evs w).
Proof. intros Hw Hevs. exact (run_invariant u cf _ _ evs w (single_flight_step u cf) Hevs Hw). Qed.

(** Sample files and the dialog before any event. *)
Definition a_txt : SelFile := mkSelFile "a.txt" 3 "text/plain".
Definition b_txt : SelFile := mkSelFile "b.txt" 5 "text/plain".
Definition w_init : UWorld := mkUWorld initial_upload [].

(** C16 (Upload, bounds): after any sequence of events from the dialog's
    first render, the request its Upload handler sends is never refused
    by the upload route for an out-of-range size, whatever the storage
    answers: [validateAndSetFile] admits only files of at most 5 MB,
    which fits the table's 32-bit [integer] column [size]. *)
Theorem upload_request_fits u cf evs s' req storage fresh now rows :
  handleUpload_start u cf (dialog (run u cf evs w_init)) = Some (s', req) →
  api_upload u req storage fresh now rows ≠ Err OutOfRange.
Proof.
  intros Hstart. destruct storage as [[url thumb]|]; simpl; [|done].
  assert (Hsel : selected_ok (run u cf evs w_init)).
  { apply (run_invariant u cf _ (λ _, True)); [intros ev w _; apply selected_ok_step| |done].
    by apply Forall_true. }
  intros Hc. apply api_create_entry_OutOfRange in Hc as (m & [= <-] & Hr).
  simpl in Hr. unfold handleUpload_start in Hstart.
  destruct (file (dialog (run u cf evs w_init))) as [f|] eqn:Hfile; [|done].
  destruct (_ || _); [done|]. injection Hstart as _ <-. simpl in Hr.
  rewrite file_ok_int4 in Hr by (by apply Hsel). done.
Qed.

(** C17 (Upload, code bug): the drop zone stays active during an upload
    and [validateAndSetFile] replaces the selected file.  Whenever one
    upload is in flight, dropping any file within the limits and then
    receiving the success of the upload leaves the dialog reporting the
    dropped file as uploaded, with the Upload and clear buttons hidden,
    although the file sent was the one in flight and the dropped file is
    never sent. *)
Theorem drop_during_upload u cf w f g r :
  in_flight w = [f] → file_ok g →
  let w2 := run u cf [EDrop [g]; EReply (Ok r)] w in
  in_flight w2 = [] ∧ success_panel (dialog w2) = Some (sf_name g +:+ " uploaded successfully!") ∧
  upload_button (dialog w2) = None ∧ clear_button_shown (dialog w2) = false.
Proof.
  destruct w as [d fl]. simpl. intros -> Hg. unfold run. simpl.
  rewrite validate_ok_state by done. done.
Qed.

(** C18 (Upload, code bug): closing the dialog resets [uploading] after
    300 ms while the request goes on.  Whenever one upload is in flight,
    closing the dialog, picking any file within the limits and pressing
    Upload puts a second upload in flight; the answer to the first then
    marks the dialog as idle and the second file as uploaded while the
    second upload is still in flight. *)
Theorem close_during_upload u cf w f g r :
  in_flight w = [f] → file_ok g →
  let w1 := run u cf [EClose; EPick [g]; EPressUpload] w in
  let w2 := upload_event u cf (EReply (Ok r)) w1 in
  in_flight w1 = [f; g] ∧ in_flight w2 = [g] ∧ uploading (dialog w2) = false ∧
  success_panel (dialog w2) = Some (sf_name g +:+ " uploaded successfully!").
Proof.
  destruct w as [d fl]. simpl. intros -> Hg. unfold run. simpl.
  rewrite validate_ok_state by done. done.
Qed.

(** C34 (Upload, equivalence): a progress report with a non-zero total
    sets the progress shown to [Math.round(loaded * 100 / total)], the
    integer closest to the exact percentage with ties going up, and
    changes nothing else of the dialog; a report with a zero total
    changes nothing. *)
Theorem onUploadProgress_math_round loaded t s :
  (t ≠ 0)%N →
  onUploadProgress loaded (Some t) s =
    setProgress (math_round (inject_Z (Z.of_N loaded * 100) / inject_Z (Z.of_N t))) s ∧
  onUploadProgress loaded (Some 0%N) s = s.
Proof.
  intros Ht. split; [|done]. unfold onUploadProgress. rewrite bool_decide_false by done.
  destruct t as [|t]; [done|]. simpl. by rewrite js_round_div_math_round.
Qed.

(** ** Witnesses *)

Lemma upload_safe_init : upload_safe w_init.
Proof. split; [done|]. split; [constructor|]. simpl. lia. Qed.

Lemma upload_safe_run_witness :
  Forall event_ok [EPick [a_txt]; EPressUpload; EProgress 1 (Some 3%N)] ∧
  upload_safe (run "alice" None [EPick [a_txt]; EPressUpload; EProgress 1 (Some 3%N)] w_init).
Proof.
  assert (Hevs : Forall event_ok [EPick [a_txt]; EPressUpload; EProgress 1 (Some 3%N)]).
  { repeat constructor. simpl. lia. }
  split; [exact Hevs|]. exact (upload_safe_run "alice" None _ w_init upload_safe_init Hevs).
Defined.

Lemma single_flight_run_witness :
  single_flight w_init ∧
  single_flight (run "alice" None [EPick [a_txt]; EPressUpload; EPressUpload] w_init).
Proof.
  assert (H0 : single_flight w_init) by (split; simpl; [lia|done]).
  split; [exact H0|].
  apply (single_flight_run "alice" None _ w_init H0). repeat constructor.
Defined.

Lemma upload_request_fits_witness :
  handleUpload_start "alice" None (dialog (run "alice" None [EPick [a_txt]] w_init)) =
    Some (mkUploadState (Some a_txt) true 0 None false, mkUploadRequest a_txt "alice" None) ∧
  api_upload "alice" (mkUploadRequest a_txt "alice" None) (Some ("https://cdn/a.txt", None))
    "f1" 0 [] ≠ Err OutOfRange.
Proof.
  assert (Hs : handleUpload_start "alice" None (dialog (run "alice" None [EPick [a_txt]] w_init)) =
    Some (mkUploadState (Some a_txt) true 0 None false, mkUploadRequest a_txt "alice" None))
    by reflexivity.
  split; [exact Hs|].
  exact (upload_request_fits "alice" None _ _ _ (Some ("https://cdn/a.txt", None)) "f1" 0 [] Hs).
Defined.

Lemma file_ok_b_txt : file_ok b_txt.
Proof. split; [simpl; unfold maxSize; lia|]. decide_by_eval. Qed.

(** "a.txt" in flight, "b.txt" dropped, then the success of "a.txt". *)
Lemma drop_during_upload_witness :
  let w1 := run "alice" None [EPick [a_txt]; EPressUpload] w_init in
  in_flight w1 = [a_txt] ∧
  success_panel (dialog (run "alice" None [EDrop [b_txt]; EReply (Ok ())] w1)) =
    Some "b.txt uploaded successfully!".
Proof.
  assert (H1 : in_flight (run "alice" None [EPick [a_txt]; EPressUpload] w_init) = [a_txt])
    by reflexivity.
  split; [exact H1|].
  exact (proj1 (proj2 (drop_during_upload "alice" None _ a_txt b_txt () H1 file_ok_b_txt))).
Defined.

Lemma close_during_upload_witness :
  let w1 := run "alice" None [EPick [a_txt]; EPressUpload] w_init in
  in_flight w1 = [a_txt] ∧
  in_flight (run "alice" None [EClose; EPick [b_txt]; EPressUpload] w1) = [a_txt; b_txt].
Proof.
  assert (H1 : in_flight (run "alice" None [EPick [a_txt]; EPressUpload] w_init) = [a_txt])
    by reflexivity.
  split; [exact H1|].
  exact (proj1 (close_during_upload "alice" None _ a_txt b_txt () H1 file_ok_b_txt)).
Defined.

(** One byte of three: 33 %. *)
Lemma onUploadProgress_math_round_witness :
  progress (onUploadProgress 1 (Some 3%N) initial_upload) = 33 ∧
  onUploadProgress 1 (Some 3%N) initial_upload =
    setProgress (math_round (inject_Z (Z.of_N 1 * 100) / inject_Z (Z.of_N 3))) initial_upload.
Proof.
  split; [reflexivity|]. exact (proj1 (onUploadProgress_math_round 1 3 initial_upload ltac:(discriminate))).
Defined.

End Upload.
