(* ===== verification/Sizes.v ===== *)
(** * Sizes: the size labels of the file list and of the upload preview

    FileList.tsx (line 355) prints a row's size as [—] for a folder, and
    otherwise as bytes below 1024, as [(size / 1024).toFixed(1)] KB below
    1024 * 1024, and as [(size / (1024 * 1024)).toFixed(1)] MB above;
    FileUploadModal.tsx (line 247) prints the selected file's size the same
    way, without the folder case.

    [toFixed1] is [Number.prototype.toFixed(1)] (ECMAScript 21.1.3.3) on
    the exact quotient, a rational of QArith: it picks the integer [n]
    closest to [10 x], the larger on a tie, that is [Math.round(10 x)]
    (Rounding.v), and writes [n / 10], a point and [n mod 10].  The
    quotients are exact in binary64 since the divisors are powers of two
    and the sizes are below [2 ^ 53]; they are below [10 ^ 21], so the
    exponent form [toFixed] falls back to is never reached.

    The theorems show that the number the label shows is within 0.05 of
    the size in the label's unit, and that the kilobyte branch goes up to ["1024.0 KB"]: the 51 sizes from 1048525
    to 1048575 bytes are shown as 1024.0 KB rather than 1.0 MB. *)

From Stdlib Require Import QArith Qround.
From stdpp Require Import pretty.
From S2P Require Import Prelude Rounding Schema Upload.
Import Rounding Schema Upload.

Module Sizes.

Local Open Scope Z_scope.

(** The digits [toFixed(1)] writes for the rounded integer [n >= 0]:
    the integer part, a point and one decimal. *)
Definition fixed1_digits (n : Z) : string := pretty (n / 10) +:+ "." +:+ pretty (n mod 10).

(** [x.toFixed(1)] for [x < 10 ^ 21]: the sign, then the digits of
    [Math.round(10 |x|)]. *)
Definition toFixed1 (x : Q) : string :=
  if Qle_bool 0 x then fixed1_digits (math_round (x * 10))
  else "-" +:+ fixed1_digits (math_round (- x * 10)).

(** The size expression of FileUploadModal.tsx line 247 (and of the
    non-folder branch of FileList.tsx line 355). *)
Definition size_text (size : Z) : string :=
  if size <? 1024 then pretty size +:+ " B"
  else if size <? 1024 * 1024 then toFixed1 (inject_Z size / inject_Z 1024) +:+ " KB"
  else toFixed1 (inject_Z size / inject_Z (1024 * 1024)) +:+ " MB".

(** The size column of a row, FileList.tsx line 355. *)
Definition size_label (f : File) : string :=
  if isFolder f then "—" else size_text (size f).

(** The preview of the selected file, FileUploadModal.tsx line 247. *)
Definition preview_size_label (f : SelFile) : string := size_text (Z.of_N (sf_size f)).

(** ** Lemmas *)

(** [toFixed(1)] of a non-negative quotient of integers is the rounded
    integer computation. *)
Lemma toFixed1_div (a : Z) (b : positive) :
  0 ≤ a → toFixed1 (inject_Z a / inject_Z (Zpos b)) = fixed1_digits (js_round_div (a * 10) (Zpos b)).
Proof.
  intros Ha. unfold toFixed1.
  replace (Qle_bool 0 (inject_Z a / inject_Z (Zpos b))) with true.
  - by rewrite math_round_scaled.
  - symmetry. apply Qle_bool_iff. apply Qle_shift_div_l; [reflexivity|].
    rewrite Qmult_0_l. unfold Qle. simpl. lia.
Qed.

(** The rounded integer [n = round(10 a / b)] is within half a unit. *)
Lemma js_round_div_scaled_bound (a b : Z) :
  0 < b → - b ≤ 20 * a - 2 * b * js_round_div (a * 10) b < b.
Proof.
  intros Hb. unfold js_round_div.
  pose proof (Z.div_mod (2 * (a * 10) + b) (2 * b) ltac:(lia)).
  pose proof (Z.mod_pos_bound (2 * (a * 10) + b) (2 * b) ltac:(lia)). lia.
Qed.

(** The label of a size of at least 1024 bytes: the digits of a number
    [n] and the unit, with [n] within 0.05 of the size in that unit
    ([|size / unit - n / 10| <= 1/20], written over the integers). *)
Lemma size_text_large (s : Z) :
  1024 ≤ s →
  ∃ n, (s < 1024 * 1024 ∧ size_text s = fixed1_digits n +:+ " KB" ∧
        - 1024 ≤ 20 * s - 2048 * n < 1024) ∨
       (1024 * 1024 ≤ s ∧ size_text s = fixed1_digits n +:+ " MB" ∧
        - 1048576 ≤ 20 * s - 2097152 * n < 1048576).
Proof.
  intros Hs. unfold size_text. rewrite (proj2 (Z.ltb_ge s 1024)) by lia.
  destruct (Z.ltb_spec s (1024 * 1024)).
  - exists (js_round_div (s * 10) 1024). left.
    rewrite (toFixed1_div s 1024) by lia.
    pose proof (js_round_div_scaled_bound s 1024 ltac:(lia)).
    split; [lia|]. split; [reflexivity|lia].
  - exists (js_round_div (s * 10) (1024 * 1024)). right.
    change (inject_Z (1024 * 1024)) with (inject_Z (Zpos (1024 * 1024))).
    rewrite (toFixed1_div s (1024 * 1024)) by lia.
    pose proof (js_round_div_scaled_bound s (1024 * 1024) ltac:(lia)).
    split; [lia|]. split; [reflexivity|lia].
Qed.

(** ** Properties *)

(** C36 (Sizes, bounds): the size column of a file row is exact below
    1024 bytes, and above it shows one decimal of the size in KB or MB
    that is within 0.05 of the exact quotient: the shown number is
    [n / 10] with [|size / unit - n / 10| <= 1/20], the unit being 1024
    below 1024 * 1024 bytes and 1024 * 1024 from there on. *)
Theorem size_label_accuracy (f : File) :
  isFolder f = false → 0 ≤ size f →
  (size f < 1024 ∧ size_label f = pretty (size f) +:+ " B") ∨
  ∃ n, (1024 ≤ size f < 1024 * 1024 ∧ size_label f = fixed1_digits n +:+ " KB" ∧
        - 1024 ≤ 20 * size f - 2048 * n < 1024) ∨
       (1024 * 1024 ≤ size f ∧ size_label f = fixed1_digits n +:+ " MB" ∧
        - 1048576 ≤ 20 * size f - 2097152 * n < 1048576).
Proof.
  intros Hf Hs. unfold size_label. rewrite Hf.
  destruct (Z.ltb_spec (size f) 1024) as [Hlt|Hge].
  - left. unfold size_text. rewrite (proj2 (Z.ltb_lt _ _) Hlt). done.
  - right. destruct (size_text_large (size f) Hge) as (n & [(? & ? & ?)|(? & ? & ?)]);
      exists n; [left|right]; split_and!; done || lia.
Qed.

(** C38 (Sizes, bounds): the kilobyte branch is taken up to 1048575
    bytes, and [toFixed(1)] rounds the 51 sizes from 1048525 bytes on to
    10240 tenths: their rows read ["1024.0 KB"], while one more byte reads
    ["1.0 MB"]. *)
Theorem kb_label_reaches_1024 (f : File) :
  isFolder f = false → 1048525 ≤ size f < 1048576 → size_label f = "1024.0 KB".
Proof.
  intros Hf Hs. unfold size_label, size_text. rewrite Hf.
  rewrite (proj2 (Z.ltb_ge _ _)), (proj2 (Z.ltb_lt _ _)) by lia.
  rewrite (toFixed1_div (size f) 1024) by lia.
  replace (js_round_div (size f * 10) 1024) with 10240; [reflexivity|].
  apply (Z.div_unique_pos _ _ _ (2 * (size f * 10) + 1024 - 2048 * 10240)); lia.
Qed.

(** ** Witnesses *)

Definition with_size (z : Z) (f : File) : File :=
  {| id := id f; parentId := parentId f; name := name f; path := path f; size := z;
     type := type f; fileUrl := fileUrl f; thumbnailUrl := thumbnailUrl f;
     userId := userId f; isFolder := isFolder f; isStarred := isStarred f;
     isTrash := isTrash f; createdAt := createdAt f; updatedAt := updatedAt f |}.

(** A text file of 1536 bytes: 1.5 KB. *)
Definition kb_file : File := with_size 1536 demo_file.

Lemma size_label_accuracy_witness :
  size_label kb_file = "1.5 KB" ∧
  ((size kb_file < 1024 ∧ size_label kb_file = pretty (size kb_file) +:+ " B") ∨
   ∃ n, (1024 ≤ size kb_file < 1024 * 1024 ∧ size_label kb_file = fixed1_digits n +:+ " KB" ∧
         - 1024 ≤ 20 * size kb_file - 2048 * n < 1024) ∨
        (1024 * 1024 ≤ size kb_file ∧ size_label kb_file = fixed1_digits n +:+ " MB" ∧
         - 1048576 ≤ 20 * size kb_file - 2097152 * n < 1048576)).
Proof.
  split; [vm_compute; reflexivity|].
  exact (size_label_accuracy kb_file eq_refl ltac:(vm_compute; discriminate)).
Defined.

Lemma kb_label_reaches_1024_witness :
  size_label (with_size 1048575 kb_file) = "1024.0 KB" ∧
  size_label (with_size 1048576 kb_file) = "1.0 MB".
Proof.
  split; [|vm_compute; reflexivity].
  exact (kb_label_reaches_1024 (with_size 1048575 kb_file) eq_refl ltac:(cbn; lia)).
Defined.

End Sizes.
