(* ===== verification/UploadView.v ===== *)
(** * UploadView: what the upload dialog renders

    The body of src/components/FileUploadModal.tsx (lines 176-312) is a
    function of the dialog's state ([Upload.UploadState]): the style of
    the drop zone (lines 202-210), its content (lines 221-270: the browse
    prompt, the preview of the selected file with its size label
    (Sizes.v), its clear button and progress bar, or the success
    message), the error box (lines 273-285) and the two footer buttons
    (lines 290-305).  The content is three independent conditions of
    JSX; [upload_panels] lists the panels they select.

    The theorem shows that, as long as the dialog is not closed and the
    files picked or dropped meet its limits, every state reached shows
    exactly one panel.  The counterexamples of the same file show the
    two interleavings that leave the drop zone empty: an invalid drop
    during an upload, and a close during an upload followed by its
    answer. *)

From stdpp Require Import pretty.
From S2P Require Import Prelude Schema Client Upload Sizes.
Import Schema Client Upload Sizes.

Module UploadView.

Local Open Scope Z_scope.

(** The class of the drop zone, lines 202-210. *)
Inductive DropStyle := DzDanger | DzSuccess | DzSelected | DzIdle.

Definition dropzone_style (s : UploadState) : DropStyle :=
  if js_truthy (error s) then DzDanger
  else if isSuccess s then DzSuccess
  else if bool_decide (is_Some (file s)) then DzSelected
  else DzIdle.

(** The panels of the drop zone: the browse prompt (lines 221-230), the
    preview with the file's name and size, the clear button and the
    progress bar (lines 232-262), the success message (lines 264-269). *)
Inductive ContentPanel :=
| PBrowse
| PPreview (name size : string) (clear : bool) (bar : option Z)
| PSuccess (message : string).

Definition upload_panels (s : UploadState) : list ContentPanel :=
  (if negb (bool_decide (is_Some (file s))) && negb (isSuccess s) then [PBrowse] else []) ++
  (match file s with
   | Some f =>
       if isSuccess s then []
       else [PPreview (sf_name f) (preview_size_label f) (clear_button_shown s)
               (if uploading s then Some (progress s) else None)]
   | None => []
   end) ++
  (match success_panel s with Some m => [PSuccess m] | None => [] end).

(** The error box, lines 273-285; its button is [EDismissError]. *)
Definition error_box (s : UploadState) : option string :=
  if js_truthy (error s) then error s else None.

(** The labels of the footer buttons, lines 292 and 303. *)
Definition close_label (s : UploadState) : string := if isSuccess s then "Close" else "Cancel".

Definition upload_button_label (s : UploadState) : string :=
  if uploading s then "Uploading... " +:+ pretty (progress s) +:+ "%" else "Upload File".

(** The whole dialog (lines 176-312): its title, the drop zone's style
    and panels, the error box, the close button's label, and the Upload
    button when shown, with its label, loading flag and disabled flag. *)
Record UploadDialogView := mkUploadDialogView {
  ud_title : string;
  ud_style : DropStyle;
  ud_panels : list ContentPanel;
  ud_error : option string;
  ud_close : string;
  ud_upload : option (string * bool * bool)
}.

Definition upload_dialog_view (s : UploadState) : UploadDialogView :=
  mkUploadDialogView "Upload New File" (dropzone_style s) (upload_panels s) (error_box s)
    (close_label s) ((λ disabled, (upload_button_label s, uploading s, disabled)) <$> upload_button s).

(** The events of a session in which the dialog stays open and every
    file picked or dropped meets the limits. *)
Definition view_ok (ev : UEvent) : Prop :=
  match ev with
  | EPick fs | EDrop fs => Forall file_ok fs
  | EClose => False
  | _ => True
  end.

(** The invariant: one upload at most, in flight while the dialog is
    busy, and a file selected when the dialog reports a success or waits
    for an answer. *)
Definition view_inv (w : UWorld) : Prop :=
  single_flight w ∧ (isSuccess (dialog w) = true → is_Some (file (dialog w))) ∧
  (in_flight w ≠ [] → is_Some (file (dialog w))).

(** ** Lemmas *)

Lemma panels_one s : (isSuccess s = true → is_Some (file s)) → length (upload_panels s) = 1%nat.
Proof.
  unfold upload_panels, success_panel.
  destruct (file s) as [f|], (isSuccess s); simpl; try done.
  intros H. by destruct (H eq_refl).
Qed.

Lemma onUploadProgress_isSuccess l t s : isSuccess (onUploadProgress l t s) = isSuccess s.
Proof. unfold onUploadProgress. destruct t; [case_bool_decide|]; done. Qed.

Lemma view_inv_step u cf ev w : view_ok ev → view_inv w → view_inv (upload_event u cf ev w).
Proof.
  intros Hev (Hsf & Hs & Hfl).
  assert (is_close ev = false) as Hnc by (by destruct ev).
  split; [by apply single_flight_step|].
  destruct w as [d fl]. destruct Hsf as [Hlen Hu]. simpl in *.
  destruct ev as [[|sel fs]|[|sel fs]| | |l t|r| |]; simpl in *.
  - done.
  - apply Forall_cons in Hev as [Hok _]. destruct (validate_ok sel d Hok) as [-> ->]. done.
  - split; [done|exact Hfl].
  - apply Forall_cons in Hev as [Hok _].
    destruct (validate_ok sel (setIsSuccess false d) Hok) as [-> ->]. done.
  - destruct (clear_button_shown d) eqn:Hc; simpl; [|by split].
    assert (uploading d = false) as Hud.
    { unfold clear_button_shown in Hc. destruct (file d); [|done].
      by apply andb_true_iff in Hc as [_ ?%negb_true_iff]. }
    split; [done|]. intros Hne. by rewrite (proj2 Hu Hne) in Hud.
  - destruct (upload_button d) as [[]|] eqn:Hb; try done.
    destruct (upload_button_enabled _ Hb) as (f & Hfile & Hu' & Hs').
    unfold handleUpload_start. rewrite Hfile, Hu', Hs'. simpl. rewrite Hfile. done.
  - destruct fl; simpl; [done|]. by rewrite onUploadProgress_file, onUploadProgress_isSuccess.
  - destruct fl as [|f rest]; simpl; [done|]. rewrite handleUpload_finish_file.
    split; intros _; apply Hfl; done.
  - done.
  - done.
Qed.

(** ** Properties *)

(** C40 (UploadView, invariant): from the dialog's first render, as long
    as it is not closed and the files picked or dropped meet its limits,
    whatever the order of the user's actions, progress reports and
    answers, the drop zone shows exactly one panel: the browse prompt,
    the preview of the selected file, or the success message. *)
Theorem upload_view_one_panel u cf evs :
  Forall view_ok evs → length (upload_panels (dialog (run u cf evs w_init))) = 1%nat.
Proof.
  intros Hevs. apply panels_one.
  assert (view_inv w_init) as Hi by (split; [split; [simpl; lia|done]|done]).
  exact (proj1 (proj2 (run_invariant u cf _ _ evs w_init (view_inv_step u cf) Hevs Hi))).
Qed.

(** ** Counterexamples without the hypotheses *)

(** A file over the limit. *)
Definition big_txt : SelFile := mkSelFile "big.txt" 6000000 "text/plain".

(** A file over the limit dropped during an upload unselects the file;
    the answer then marks the dialog as successful: the drop zone shows
    no panel, only the error box, and the toast announces "a.txt". *)
Lemma invalid_drop_during_upload_blank :
  let w1 := run "alice" None [EPick [a_txt]; EPressUpload; EDrop [big_txt]] w_init in
  let '(s2, toasts, _) := handleUpload_finish a_txt (Ok ()) (dialog w1) in
  upload_panels s2 = [] ∧ dropzone_style s2 = DzDanger ∧
  error_box s2 = Some "File size exceeds 5MB limit." ∧ close_label s2 = "Close" ∧
  toasts = [mkToast "Upload Successful" (Some "a.txt uploaded.") "success"].
Proof. vm_compute. repeat split. Qed.

(** Closed during an upload, the dialog is reset; the answer that
    arrives afterwards marks it as successful with no file: reopened, it
    shows a green drop zone with no panel, hence no browse prompt. *)
Lemma close_during_upload_blank :
  let w := run "alice" None [EPick [a_txt]; EPressUpload; EClose; EReply (Ok ())] w_init in
  upload_panels (dialog w) = [] ∧ dropzone_style (dialog w) = DzSuccess ∧
  error_box (dialog w) = None ∧ close_label (dialog w) = "Close".
Proof. vm_compute. repeat split. Qed.

(** ** Witnesses *)

Lemma upload_view_one_panel_witness :
  let evs := [EPick [a_txt]; EPressUpload; EProgress 1%N (Some 3%N); EReply (Ok ())] in
  Forall view_ok evs ∧
  length (upload_panels (dialog (run "alice" None evs w_init))) = 1%nat ∧
  upload_panels (dialog (run "alice" None (take 3 evs) w_init)) =
    [PPreview "a.txt" "3 B" false (Some 33)] ∧
  upload_button_label (dialog (run "alice" None (take 3 evs) w_init)) = "Uploading... 33%".
Proof.
  assert (Hok : Forall view_ok [EPick [a_txt]; EPressUpload; EProgress 1%N (Some 3%N); EReply (Ok ())]).
  { assert (file_ok a_txt) as Ha.
    { split; [simpl; unfold maxSize; lia|]. decide_by_eval. }
    apply Forall_cons; split; [by apply Forall_singleton|].
    apply Forall_cons; split; [exact I|]. apply Forall_cons; split; [exact I|].
    by apply Forall_singleton. }
  split; [exact Hok|]. split; [exact (upload_view_one_panel "alice" None _ Hok)|].
  split; vm_compute; reflexivity.
Defined.

End UploadView.
