(* ===== verification/Actions.v ===== *)
(** * Actions: what the file list offers and shows for each row

    - [file_actions] is src/components/FileActions.tsx: the star button
      (not in the trash) and the dropdown items (download for files not in
      the trash, trash or restore always, delete permanently in the
      trash); [item_action] is the [UserAction] of Client.v each one
      starts, the delete going through the confirmation modal of
      FileList.tsx ([onDelete], [confirm_delete]);
    - [Badge] and [file_tabs] are src/components/FileTabs.tsx;
    - [empty_trash_button_shown] and [header_actions] are
      src/components/FileListHeaderActions.tsx;
    - [file_icon] is src/components/FileIcon.tsx, with [split("/")] and
      the [undefined] of a missing second part;
    - [list_view], the row handlers and markers, [row_view] (one row of
      the table, with its size label from Sizes.v), and the download of
      FileList.tsx (lines 178-200 and 257-360).

    The theorems show that every action a row of a synced list offers is
    accepted by the server, in particular that permanent deletion is
    offered only where the server allows it, and that every file the
    upload dialog accepts gets a specific icon. *)

From Stdlib Require Import Ascii.
From stdpp Require Import pretty.
From S2P Require Import Prelude Schema Views Api Store Lifecycle Client Navigation Upload Sizes.
Import Schema Views Api Store Lifecycle Client Navigation Upload Sizes.

Module Actions.

Local Open Scope Z_scope.

(** ** FileActions.tsx *)

Inductive RowItem :=
| StarButton (ariaLabel : string)
| DownloadItem
| TrashRestoreItem (label : string)
| DeleteItem.

(** [dropdownItems] (lines 26-63). *)
Definition dropdown_items (file : File) : list RowItem :=
  (if negb (isTrash file) && negb (isFolder file) then [DownloadItem] else []) ++
  [TrashRestoreItem (if isTrash file then "Restore" else "Move to Trash")] ++
  (if isTrash file then [DeleteItem] else []).

(** The star button (lines 69-83) and the dropdown. *)
Definition file_actions (file : File) : list RowItem :=
  (if negb (isTrash file) then [StarButton (if isStarred file then "Unstar file" else "Star file")]
   else []) ++ dropdown_items file.

(** [onDelete] of FileList.tsx (lines 372-375) and the [onConfirm] of
    the deletion modal (lines 396-400). *)
Definition onDelete (file : File) (s : ListState) : ListState :=
  setDeleteModalOpen true (setSelectedFile (Some file) s).

Definition confirm_delete (s : ListState) : option UserAction :=
  (λ f, ADelete (id f)) <$> selectedFile s.

(** The action of the file list each item starts; the download does not
    call the server's routes. *)
Definition item_action (s : ListState) (file : File) (i : RowItem) : option UserAction :=
  match i with
  | StarButton _ => Some (AStar (id file))
  | DownloadItem => None
  | TrashRestoreItem _ => Some (ATrash (id file))
  | DeleteItem => confirm_delete (onDelete file s)
  end.

(** ** FileTabs.tsx *)

(** [Badge] (lines 8-28): nothing for 0, "99+" above 99. *)
Definition Badge (count : nat) : option string :=
  if bool_decide (count = 0%nat) then None
  else if bool_decide (99 < count)%nat then Some "99+" else Some (pretty count).

(** The three tabs: key, label and badge (lines 63-92). *)
Definition file_tabs (allFilesCount starredCount trashCount : nat)
    : list (string * string * option string) :=
  [("all", "All Files", Badge allFilesCount);
   ("starred", "Starred", Badge starredCount);
   ("trash", "Trash", Badge trashCount)].

(** ** FileListHeaderActions.tsx *)

(** Line 36. *)
Definition empty_trash_button_shown (activeTab : string) (trashCount : nat) : bool :=
  (activeTab === "trash") && bool_decide (0 < trashCount)%nat.

(** The buttons of FileListHeaderActions.tsx (lines 20-49): refresh,
    and Empty Trash under the condition above. *)
Inductive HeaderButton := RefreshButton | EmptyTrashButton.

Definition header_actions (activeTab : string) (trashCount : nat) : list HeaderButton :=
  RefreshButton :: (if empty_trash_button_shown activeTab trashCount then [EmptyTrashButton] else []).

(** ** FileIcon.tsx *)

Inductive Icon :=
| IFolder
| IThumbnail (path : string)
| IVideo
| IAudio
| IFileSpreadsheet
| IFileCode
| IFileText (color : string)
| IFileArchive
| IFileQuestion.

(** [a === b] where [a] may be [undefined]. *)
Definition js_opt_eq (o : option string) (s : string) : bool :=
  match o with Some x => x === s | None => false end.

(** [arr.includes(o)] for an array of strings. *)
Definition js_includes (l : list string) (o : option string) : bool :=
  match o with Some x => existsb (String.eqb x) l | None => false end.

Definition file_icon (file : File) : Icon :=
  if isFolder file then IFolder else
  let genericType := js_index (js_split "/"%char (type file)) 0 in
  let specificType := js_index (js_split "/"%char (type file)) 1 in
  if js_opt_eq genericType "image" then IThumbnail (path file)
  else if js_opt_eq genericType "video" then IVideo
  else if js_opt_eq genericType "audio" then IAudio
  else if js_opt_eq genericType "text" then
    if js_opt_eq specificType "csv" then IFileSpreadsheet
    else if js_includes ["html"; "css"; "javascript"; "typescript"; "jsx"; "tsx"] specificType
    then IFileCode
    else IFileText "text-gray-500"
  else if js_opt_eq genericType "application" then
    if js_opt_eq specificType "pdf" then IFileText "text-red-500"
    else if js_includes ["zip"; "rar"; "7z"; "tar"; "gz"] specificType then IFileArchive
    else if js_includes ["vnd.ms-excel"; "vnd.openxmlformats-officedocument.spreadsheetml.sheet";
                          "spreadsheet"] specificType then IFileSpreadsheet
    else if js_includes ["msword"; "vnd.openxmlformats-officedocument.wordprocessingml.document"]
              specificType then IFileText "text-blue-600"
    else IFileText "text-orange-500"
  else IFileQuestion.

(** ** FileList.tsx: the list, its rows and the download *)

Inductive ListView :=
| VLoading
| VEmpty (activeTab : string)
| VTable (rows : list File).

(** Lines 257-298. *)
Definition list_view (s : ListState) : ListView :=
  if loading s then VLoading else
  match filteredFiles (activeTab s) (files s) with
  | [] => VEmpty (activeTab s)
  | ff => VTable ff
  end.

(** Line 285. *)
Definition folder_navigation_shown (s : ListState) : bool := activeTab s === "all".

(** [onDoubleClick] and [onClick] of a row (lines 330-331). *)
Definition row_double_click (endpoint : string) (file : File) (s : ListState)
    : option (ListState * ClickEffect) :=
  if isFolder file then Some (handleItemClick endpoint file s) else None.

Definition row_click (endpoint : string) (file : File) (s : ListState)
    : option (ListState * ClickEffect) :=
  if negb (isFolder file) && js_starts_with "image/" (type file)
  then Some (handleItemClick endpoint file s) else None.

(** The star and the view hint next to the name (lines 340-349). *)
Definition starred_marker (file : File) : bool := isStarred file && negb (isTrash file).
Definition view_hint (file : File) : bool :=
  js_starts_with "image/" (type file) && negb (isFolder file) && negb (isTrash file).

(** One row of the table (lines 324-357): the pointer cursor of the
    rows a click opens, the icon, the name, the star, the view hint and
    the size column; the dates of the next column are formatted by
    date-fns. *)
Record RowView := mkRowView {
  rv_pointer : bool;
  rv_icon : Icon;
  rv_name : string;
  rv_star : bool;
  rv_hint : bool;
  rv_size : string
}.

Definition row_view (file : File) : RowView :=
  mkRowView (isFolder file || js_starts_with "image/" (type file)) (file_icon file) (name file)
    (starred_marker file) (view_hint file) (size_label file).

(** [handleDownloadFile] (lines 178-200): the URL fetched, and the toast
    after the fetch ([ok] when it succeeded). *)
Definition download_url (endpoint : string) (file : File) : string :=
  if js_starts_with "image/" (type file)
  then (endpoint +:+ "/tr:q-100,orig-true/" +:+ path file)
  else fileUrl file.

Definition handleDownloadFile_start (endpoint : string) (file : File) : Toast * string :=
  (mkToast "Preparing Download..." None "primary", download_url endpoint file).

Definition handleDownloadFile_finish (ok : bool) : Toast :=
  if ok then mkToast "Download Started" None "success"
  else mkToast "Download Failed" None "danger".

(** Whether the browser receives a body (no [catch]). *)
Definition response_ok (r : Response) : bool :=
  match r with
  | FilesResp (Ok _) | StarResp (Ok _) | TrashResp (Ok _) | EmptyResp (Ok _) => true
  | DeleteResp (Ok b) => success b
  | _ => false
  end.

(** ** Lemmas *)

Lemma list_equiv_In (l1 l2 : list File) x :
  l1 ≡ l2 → In x l1 → ∃ y, In y l2 ∧ x ≡ y.
Proof.
  intros Hl%list_equiv_Forall2. revert l2 Hl.
  induction l1 as [|z l1 IH]; intros l2 Hl Hx; [done|].
  inversion Hl as [|? y ? l2' Hzy Hrest]; subst.
  destruct Hx as [<-|Hx]; [exists y; split; [by left|done]|].
  destruct (IH _ Hrest Hx) as (y' & Hy' & Hxy'). exists y'. split; [by right|done].
Qed.

(** A row the synced browser shows is a row of the user in the table,
    with the same id and the same trash flag. *)
Lemma synced_row u s rows f :
  NoDup (ids rows) → synced u s rows → In f (files s) →
  ∃ g, find_row rows (id f) = Some g ∧ userId g = u ∧ isTrash g = isTrash f.
Proof.
  intros Hnd Hs Hf. destruct (list_equiv_In _ _ _ Hs Hf) as (g & Hg & Hfg).
  simpl in Hg. unfold api_list in Hg. apply filter_In in Hg as [Hg Hug]. cbv beta in Hug.
  apply andb_true_iff in Hug as [Hu _]. exists g.
  rewrite (id_proper f g Hfg), (isTrash_proper f g Hfg), find_row_In by done.
  split; [done|]. split; [|done]. by destruct (String.eqb_spec (userId g) u).
Qed.

(** The request each action sends. *)
Lemma action_request a s s1 p req :
  start a s = Some (s1, p, req) →
  req = match a with
        | AStar fid => PatchStar fid | ATrash fid => PatchTrash fid
        | ADelete fid => DeleteFile fid | AEmptyTrash => DeleteEmptyTrash
        end.
Proof.
  destruct a; simpl;
    [unfold handleStarFile_start|unfold handleTrashFile_start|unfold handleDeleteFile_start|
     unfold handleEmptyTrash_start];
    intros Hst; repeat case_match; congruence.
Qed.

(** The actions a row offers, and the trash flag of the rows offering
    a permanent deletion. *)
Lemma item_action_cases s f i a :
  In i (file_actions f) → item_action s f i = Some a →
  a = AStar (id f) ∨ a = ATrash (id f) ∨ (a = ADelete (id f) ∧ isTrash f = true).
Proof.
  unfold file_actions, dropdown_items.
  destruct (isTrash f), (isFolder f); simpl;
    intros Hi Ha; repeat destruct Hi as [<-|Hi]; simpl in Ha; try done;
    injection Ha as <-; naive_solver.
Qed.

(** ** Properties *)

(** C19 (Actions, safety): every action a row of the file list offers
    (star, trash or restore, and delete permanently after the
    confirmation), started while the browser shows the server's listing,
    is accepted by the server: in particular [Delete Permanently] is
    offered only on trashed rows, so the route never answers
    [NotTrashed] to it. *)
Theorem offered_actions_succeed u now s rows f i a s1 p req :
  NoDup (ids rows) → synced u s rows → In f (files s) →
  In i (file_actions f) → item_action s f i = Some a → start a s = Some (s1, p, req) →
  response_ok (serve u now req rows).2 = true.
Proof.
  intros Hnd Hs Hf Hi Ha Hst. apply action_request in Hst as ->.
  destruct (synced_row u s rows f Hnd Hs Hf) as (g & Hg & Hu & Ht).
  assert (Hown : owned_row u rows (id f) = Ok g) by (apply owned_row_Ok; done).
  destruct (item_action_cases s f i a Hi Ha) as [->|[->|[-> Htr]]]; simpl;
    unfold api_toggle_star, api_toggle_trash, api_delete; rewrite Hown; simpl; [done|done|].
  by rewrite Ht, Htr.
Qed.

(** C20 (Actions, functional): the icon of a row whose type is one the
    upload dialog accepts: a PDF gets the red document icon, a plain text
    file the grey one, and each of the four image types its thumbnail;
    none gets the fallback icon, nor the video or audio icon the code
    keeps for types it cannot receive. *)
Theorem accepted_upload_icon sel f :
  file_ok sel → type f = sf_type sel → isFolder f = false →
  file_icon f =
    if bool_decide (sf_type sel = "application/pdf") then IFileText "text-red-500"
    else if bool_decide (sf_type sel = "text/plain") then IFileText "text-gray-500"
    else IThumbnail (path f).
Proof.
  intros [_ Hty] Ht Hfold. unfold file_icon. rewrite Hfold, Ht.
  repeat (apply elem_of_cons in Hty as [->|Hty]; [vm_compute; reflexivity|]).
  by apply elem_of_nil in Hty.
Qed.

(** ** Witnesses *)

Lemma offered_actions_succeed_witness :
  NoDup (ids [demo_file]) ∧
  synced "alice" (setFiles [demo_file] initial_state) [demo_file] ∧
  response_ok (serve "alice" 1 (PatchStar "f1") [demo_file]).2 = true.
Proof.
  assert (Hnd : NoDup (ids [demo_file])) by decide_by_eval.
  assert (Hs : synced "alice" (setFiles [demo_file] initial_state) [demo_file])
    by (unfold synced; reflexivity).
  split; [exact Hnd|]. split; [exact Hs|].
  exact (offered_actions_succeed "alice" 1 _ [demo_file] demo_file (StarButton "Star file")
           (AStar "f1") _ _ _ Hnd Hs (or_introl eq_refl) (or_introl eq_refl) eq_refl eq_refl).
Defined.

(** A PDF row gets the red document icon. *)
Definition demo_pdf : File :=
  {| id := "f5"; parentId := None; name := "r.pdf"; path := "/r.pdf";
     size := 9; type := "application/pdf"; fileUrl := "https://cdn/r.pdf";
     thumbnailUrl := None; userId := "alice"; isFolder := false;
     isStarred := false; isTrash := false; createdAt := 0; updatedAt := 0 |}.

Lemma accepted_upload_icon_witness :
  file_ok (mkSelFile "r.pdf" 9 "application/pdf") ∧
  file_icon demo_pdf = IFileText "text-red-500".
Proof.
  assert (Hok : file_ok (mkSelFile "r.pdf" 9 "application/pdf"))
    by (split; [vm_compute; done|decide_by_eval]).
  split; [exact Hok|].
  exact (accepted_upload_icon (mkSelFile "r.pdf" 9 "application/pdf") demo_pdf Hok eq_refl eq_refl).
Defined.

End Actions.
