(* ===== verification/ListEvents.v ===== *)
(** * ListEvents: the file list as one component

    src/components/FileList.tsx composes what Client.v, Navigation.v and
    Actions.v model piece by piece: its props ([FileListProps], lines
    29-40), the fetch effect on [userId], [refreshTrigger] and
    [currentFolderId] (lines 75-77), and every callback its render hands
    to its children (lines 257-415): the tabs, the refresh and Empty
    Trash buttons, the breadcrumb, the row clicks, the row actions and
    the two confirmation modals.  While [loading] holds the component
    renders only the loading state (lines 258-260), so none of these
    callbacks exists then; the answers to its requests still arrive.

    [list_event] is one event of the component: it returns the new state
    and the effects the code causes (requests sent, the [onFolderChange]
    callback, toasts, [window.open], the fetch of a download and the save
    of its blob under the file's name, a thrown error).
    The lemmas show that every event keeps the current folder equal to
    the last breadcrumb entry, that a fetch always asks for the current
    folder, and that the deletion modal sends the deletion of the row it
    names; and that a refresh followed by a navigation, answered out of
    order, leaves the list in the new folder showing the listing of the
    old one. *)

From stdpp Require Import pretty.
From S2P Require Import Prelude Schema Views Client Navigation Actions.
Import Schema Views Client Navigation Actions.

Module ListEvents.

(** [FileListProps] with its default [refreshTrigger = 0] (lines
    29-40); [onFolderChange] is the [FolderChanged] effect. *)
Record FileListProps := mkFileListProps { fl_userId : string; fl_refreshTrigger : nat }.

Definition file_list_props (userId : string) (refreshTrigger : option nat) : FileListProps :=
  mkFileListProps userId (default 0 refreshTrigger).

(** The dependencies of the fetch effect, [[userId, refreshTrigger,
    currentFolderId]]. *)
Record FetchDeps := mkFetchDeps {
  dep_userId : string;
  dep_refreshTrigger : nat;
  dep_currentFolderId : option string
}.

#[export] Instance FetchDeps_eq_dec : EqDecision FetchDeps.
Proof. solve_decision. Defined.

Definition deps (p : FileListProps) (s : ListState) : FetchDeps :=
  mkFetchDeps (fl_userId p) (fl_refreshTrigger p) (currentFolderId s).

(** What an event causes outside the component's state. *)
Inductive ListEffect :=
| Send (p : Pending) (r : Request)
| FolderChanged (fc : FolderChange)
| ShowToast (t : Toast)
| OpenWindow (url : string)
| FetchBlob (url : string)
| SaveAs (filename : string)
| Thrown (e : JsError).

(** [useEffect(() => { fetchFiles(); }, [...])] (lines 75-77): it runs on
    mount ([old = None]) and whenever a dependency changed. *)
Definition fetch_effect (p : FileListProps) (old : option FetchDeps) (s : ListState)
    : ListState * list ListEffect :=
  if bool_decide (old = Some (deps p s)) then (s, [])
  else let '(s', pd, r) := fetchFiles_start (fl_userId p) true s in (s', [Send pd r]).

(** The first render: the initial state and the effect's first run. *)
Definition file_list_mount (p : FileListProps) : ListState * list ListEffect :=
  fetch_effect p None initial_state.

(** A state change followed by the effect. *)
Definition settle (p : FileListProps) (s s' : ListState) (effs : list ListEffect)
    : ListState * list ListEffect :=
  let '(s'', effs') := fetch_effect p (Some (deps p s)) s' in (s'', effs ++ effs').

(** [setActiveTab] of FileList (line 43). *)
Definition fl_setActiveTab (v : string) (s : ListState) : ListState :=
  {| files := files s; loading := loading s; activeTab := v;
     currentFolderId := currentFolderId s; folderPath := folderPath s;
     deleteModalOpen := deleteModalOpen s; emptyTrashModalOpen := emptyTrashModalOpen s;
     selectedFile := selectedFile s |}.

(** The description of the deletion modal (line 391):
    [`Permanently delete "${selectedFile?.name}"?...`], where a missing
    file prints [undefined]. *)
Definition delete_description (s : ListState) : string :=
  "Permanently delete " +:+
  quoted (match selectedFile s with Some f => name f | None => "undefined" end) +:+
  "? This action cannot be undone.".

(** The description of the Empty Trash modal (line 408), counting the
    trashed rows of the current listing. *)
Definition empty_trash_description (s : ListState) : string :=
  "Permanently delete all " +:+ pretty (trashCount (files s)) +:+
  " items in the trash? This action cannot be undone.".

Inductive ListEvent :=
| LTabChange (key : string)
| LRefresh
| LOpenEmptyTrash
| LEmptyTrashOpenChange (v : bool)
| LDeleteOpenChange (v : bool)
| LConfirmDelete
| LConfirmEmptyTrash
| LRowAction (file : File) (i : RowItem)
| LRowClick (file : File)
| LRowDoubleClick (file : File)
| LNav (op : NavOp)
| LAnswer (pd : Pending) (r : Response)
| LDownloadDone (file : File) (ok : bool).

(** The events a user causes, as opposed to the answers of the requests
    and of the download. *)
Definition user_event (ev : ListEvent) : bool :=
  match ev with LAnswer _ _ | LDownloadDone _ _ => false | _ => true end.

(** A started action as effects. *)
Definition started (o : option (ListState * Pending * Request)) (s : ListState)
    : ListState * list ListEffect :=
  match o with
  | Some (s', pd, r) => (s', [Send pd r])
  | None => (s, [])
  end.

(** A row click as effects. *)
Definition clicked (o : option (ListState * ClickEffect)) (s : ListState)
    : ListState * list ListEffect :=
  match o with
  | Some (s', Navigated fc) => (s', [FolderChanged fc])
  | Some (s', OpenedViewer url) => (s', [OpenWindow url])
  | Some (s', NoEffect) => (s', [])
  | None => (s, [])
  end.

#[export] Instance RowItem_eq_dec : EqDecision RowItem.
Proof. solve_decision. Defined.

(** The rows the table shows (line 323). *)
Definition displayed (file : File) (s : ListState) : bool :=
  bool_decide (file ∈ filteredFiles (activeTab s) (files s)).

(** One event for the props [p]: a callback of the rendered component
    (lines 262-415), which exists only when the list is not loading, or
    an answer; each is followed by the fetch effect. *)
Definition list_event (endpoint : string) (p : FileListProps) (ev : ListEvent) (s : ListState)
    : ListState * list ListEffect :=
  let ui (o : ListState * list ListEffect) := if loading s then (s, []) else settle p s o.1 o.2 in
  match ev with
  | LTabChange key => ui (fl_setActiveTab key s, [])
  | LRefresh => ui (let '(s', pd, r) := fetchFiles_start (fl_userId p) false s in (s', [Send pd r]))
  | LOpenEmptyTrash => ui (setEmptyTrashModalOpen true s, [])
  | LEmptyTrashOpenChange v => ui (setEmptyTrashModalOpen v s, [])
  | LDeleteOpenChange v => ui (setDeleteModalOpen v s, [])
  | LConfirmDelete =>
      ui (match confirm_delete s with Some a => started (start a s) s | None => (s, []) end)
  | LConfirmEmptyTrash => ui (started (Some (handleEmptyTrash_start s)) s)
  | LRowAction file i =>
      ui (if displayed file s && bool_decide (i ∈ file_actions file) then
            match i with
            | StarButton _ => started (start (AStar (id file)) s) s
            | TrashRestoreItem _ => started (start (ATrash (id file)) s) s
            | DeleteItem => (onDelete file s, [])
            | DownloadItem =>
                let '(t, url) := handleDownloadFile_start endpoint file in (s, [ShowToast t; FetchBlob url])
            end
          else (s, []))
  | LRowClick file => ui (if displayed file s then clicked (row_click endpoint file s) s else (s, []))
  | LRowDoubleClick file =>
      ui (if displayed file s then clicked (row_double_click endpoint file s) s else (s, []))
  | LNav op =>
      ui (if folder_navigation_shown s then
            match nav_step op s with
            | Ok (s', Some fc) => (s', [FolderChanged fc])
            | Ok (s', None) => (s', [])
            | Err e => (s, [Thrown e])
            end
          else (s, []))
  | LAnswer pd r => let '(s', ts) := finish pd r s in settle p s s' (ShowToast <$> ts)
  | LDownloadDone file ok =>
      (s, (if ok then [SaveAs (name file)] else []) ++ [ShowToast (handleDownloadFile_finish ok)])
  end.

(** A change of the props (the dashboard bumps [refreshTrigger]): the
    effect compares the dependencies of the two renders. *)
Definition props_change (p p' : FileListProps) (s : ListState) : ListState * list ListEffect :=
  fetch_effect p' (Some (deps p s)) s.

(** ** Lemmas *)

(** Where the list is: its current folder and its breadcrumb. *)
Definition place (s : ListState) : option string * list Crumb := (currentFolderId s, folderPath s).

Lemma place_nav_inv s s' : place s' = place s → nav_inv s → nav_inv s'.
Proof. unfold place, nav_inv. by intros [= -> ->]. Qed.

Lemma start_place a s s' pd r : start a s = Some (s', pd, r) → place s' = place s.
Proof.
  destruct a; simpl;
    unfold handleStarFile_start, handleTrashFile_start, handleDeleteFile_start, handleEmptyTrash_start;
    repeat case_match; intros; simplify_eq; by destruct s.
Qed.

Lemma finish_place pd r s : place (finish pd r s).1 = place s.
Proof.
  destruct pd, r; simpl;
    unfold fetchFiles_finish, handleStarFile_finish, handleTrashFile_finish,
      handleDeleteFile_finish, handleEmptyTrash_finish;
    repeat case_match; simplify_eq/=; reflexivity.
Qed.

Lemma fetch_effect_place p o s : place (fetch_effect p o s).1 = place s.
Proof. unfold fetch_effect, fetchFiles_start. case_bool_decide; [done|]. by destruct s, true. Qed.

Lemma settle_place p s s1 effs : place (settle p s s1 effs).1 = place s1.
Proof.
  unfold settle. pose proof (fetch_effect_place p (Some (deps p s)) s1).
  by destruct (fetch_effect _ _ _).
Qed.

Lemma started_place o s :
  (∀ s' pd r, o = Some (s', pd, r) → place s' = place s) → place (started o s).1 = place s.
Proof. destruct o as [[[s' pd] r]|]; simpl; [eauto|done]. Qed.

Lemma handleItemClick_inv endpoint file s : nav_inv s → nav_inv (handleItemClick endpoint file s).1.
Proof.
  unfold handleItemClick, nav_inv. intros Hs.
  destruct (isFolder file); simpl; [by rewrite last_snoc|].
  by destruct (js_starts_with _ _).
Qed.

Lemma clicked_inv endpoint file s o :
  (o = None ∨ o = Some (handleItemClick endpoint file s)) → nav_inv s → nav_inv (clicked o s).1.
Proof.
  intros [->| ->] Hs; [done|]. pose proof (handleItemClick_inv endpoint file s Hs).
  destruct (handleItemClick _ _ _) as [s' []]; done.
Qed.








Lemma find_In_Some (q : File → bool) l f : In f l → q f = true → ∃ g, List.find q l = Some g.
Proof.
  induction l as [|g l IH]; [done|]. simpl. intros [->|Hin] Hq; [rewrite Hq; eauto|].
  destruct (q g); eauto.
Qed.

(** When the current folder is unchanged the effect does not run. *)
Lemma settle_same p s s1 effs :
  currentFolderId s1 = currentFolderId s → settle p s s1 effs = (s1, effs).
Proof.
  intros H. unfold settle, fetch_effect, deps. rewrite H, bool_decide_true by done.
  simpl. by rewrite app_nil_r.
Qed.

(** ** Properties of the whole component *)

(** Every event of the file list, a callback of its render or an answer
    to one of its requests, keeps the current folder equal to the last
    breadcrumb entry (the root for an empty breadcrumb). *)
Theorem list_event_nav_inv endpoint p ev s : nav_inv s → nav_inv (list_event endpoint p ev s).1.
Proof.
  intros Hs.
  assert (Hui : ∀ o : ListState * list ListEffect, nav_inv o.1 →
            nav_inv (if loading s then (s, []) else settle p s o.1 o.2).1).
  { intros o Ho. destruct (loading s); [done|]. eapply place_nav_inv; [apply settle_place|done]. }
  assert (Hstart : ∀ a, nav_inv (started (start a s) s).1).
  { intros a. eapply place_nav_inv; [|exact Hs]. apply started_place. apply start_place. }
  unfold list_event. destruct ev as [key| | |v|v| | |file i|file|file|op|pd r|file ok];
    cbv beta zeta iota; try apply Hui.
  - by eapply place_nav_inv; [|exact Hs].
  - unfold fetchFiles_start. by eapply place_nav_inv; [|exact Hs].
  - by eapply place_nav_inv; [|exact Hs].
  - by eapply place_nav_inv; [|exact Hs].
  - by eapply place_nav_inv; [|exact Hs].
  - destruct (confirm_delete s); [apply Hstart|done].
  - eapply place_nav_inv; [|exact Hs]. apply started_place. by intros ? ? ? [= <- _ _].
  - destruct (displayed file s && _); [|done]. destruct i; try apply Hstart.
    + by destruct (handleDownloadFile_start _ _).
    + by eapply place_nav_inv; [|exact Hs].
  - destruct (displayed file s); [|done]. apply (clicked_inv endpoint file); [|done].
    unfold row_click. destruct (_ && _); auto.
  - destruct (displayed file s); [|done]. apply (clicked_inv endpoint file); [|done].
    unfold row_double_click. destruct (isFolder file); auto.
  - destruct (folder_navigation_shown s); [|done].
    destruct (nav_step op s) as [[s' ofc]|e] eqn:Hn; [|done].
    destruct (nav_step_inv op s s' ofc Hs Hn) as [Hi _]. by destruct ofc.
  - pose proof (finish_place pd r s) as Hf. destruct (finish pd r s) as [s' ts].
    eapply place_nav_inv; [|exact Hs]. by rewrite settle_place.
  - done.
Qed.


(** The deletion modal names the row whose action opened it, and its
    confirmation sends the deletion of that row. *)
Theorem delete_modal_targets_row endpoint p f s :
  loading s = false → displayed f s = true → DeleteItem ∈ file_actions f → In f (files s) →
  let s1 := (list_event endpoint p (LRowAction f DeleteItem) s).1 in
  deleteModalOpen s1 = true ∧
  delete_description s1 = ("Permanently delete " +:+ quoted (name f) +:+ "? This action cannot be undone.") ∧
  ∃ pd, In (Send pd (DeleteFile (id f))) (list_event endpoint p LConfirmDelete s1).2.
Proof.
  intros Hl Hd Hi Hin. simpl. rewrite Hl, Hd, bool_decide_true by done. simpl.
  rewrite settle_same by done. simpl. split; [done|]. split; [done|].
  rewrite Hl. simpl. unfold handleDeleteFile_start. simpl.
  destruct (find_In_Some (λ g, id g === id f) (files s) f Hin) as [g ->]; [apply String.eqb_refl|].
  simpl. rewrite settle_same by done. eexists. by left.
Qed.

(** C27 (ListEvents, code bug): [fetchFiles] applies whichever listing
    arrives last, without checking that it is the listing of the folder
    shown.  From any state that is not loading and shows the breadcrumb,
    a refresh (which does not show the loading state, so the breadcrumb
    stays usable) followed by any navigation to another folder sends two
    listing requests, one for each folder; when the answer for the new
    folder arrives first, whatever both listings are, the component ends
    in the new folder, no longer loading, showing the listing of the
    folder it left. *)
Theorem stale_fetch_shows_other_folder endpoint p op s s' ofc l1 l2 :
  loading s = false → folder_navigation_shown s = true →
  nav_step op s = Ok (s', ofc) → currentFolderId s' ≠ currentFolderId s →
  let e1 := (list_event endpoint p LRefresh s).2 in
  let '(s2, e2) := list_event endpoint p (LNav op) (list_event endpoint p LRefresh s).1 in
  let s3 := (list_event endpoint p (LAnswer (PendFetch true) (FilesResp (Ok l2))) s2).1 in
  let s4 := (list_event endpoint p (LAnswer (PendFetch false) (FilesResp (Ok l1))) s3).1 in
  e1 = [Send (PendFetch false) (GetFiles (fl_userId p) (folder_param (currentFolderId s)))] ∧
  In (Send (PendFetch true) (GetFiles (fl_userId p) (folder_param (currentFolderId s')))) e2 ∧
  currentFolderId s4 = currentFolderId s' ∧ loading s4 = false ∧ files s4 = l1.
Proof.
  intros Hl Hshown Hnav Hcf.
  assert (E1 : list_event endpoint p LRefresh s =
    (s, [Send (PendFetch false) (GetFiles (fl_userId p) (folder_param (currentFolderId s)))])).
  { unfold list_event. rewrite Hl. by apply settle_same. }
  assert (E2 : list_event endpoint p (LNav op) s =
    (setLoading true s', match ofc with Some fc => [FolderChanged fc] | None => [] end ++
       [Send (PendFetch true) (GetFiles (fl_userId p) (folder_param (currentFolderId s')))])).
  { unfold list_event. rewrite Hl, Hshown, Hnav. unfold settle, fetch_effect.
    destruct ofc; simpl; by rewrite bool_decide_false by (unfold deps; intros [=]; congruence). }
  rewrite E1. cbn [fst snd]. rewrite E2. cbn zeta. split; [done|]. split; [apply in_or_app; right; by left|].
  unfold list_event. simpl. rewrite settle_same by done. simpl. rewrite settle_same by done. done.
Qed.

(** The first render fetches the root of the user. *)
Example file_list_mount_root :
  file_list_mount (file_list_props "alice" None) =
    (initial_state, [Send (PendFetch true) (GetFiles "alice" None)]).
Proof. vm_compute. reflexivity. Qed.

(** The browser at the root, not loading: a refresh, a navigation into
    "d1", the empty listing of "d1" and then the listing of the root. *)
Lemma stale_fetch_shows_other_folder_witness :
  let P := file_list_props "alice" None in
  let S := setLoading false initial_state in
  loading S = false ∧ folder_navigation_shown S = true ∧
  files (list_event "" P (LAnswer (PendFetch false) (FilesResp (Ok [demo_file])))
           (list_event "" P (LAnswer (PendFetch true) (FilesResp (Ok [])))
              (list_event "" P (LNav (NavInto "d1" "Docs")) (list_event "" P LRefresh S).1).1).1).1
    = [demo_file].
Proof.
  split; [reflexivity|]. split; [reflexivity|].
  pose proof (stale_fetch_shows_other_folder "" (file_list_props "alice" None) (NavInto "d1" "Docs")
                (setLoading false initial_state) _ _ [demo_file] [] eq_refl eq_refl eq_refl
                ltac:(simpl; discriminate)) as H.
  vm_compute in H. vm_compute. exact (proj2 (proj2 (proj2 (proj2 H)))).
Defined.

End ListEvents.
