(* ===== verification/Auth.v ===== *)
(** * Auth: the sign-in and sign-up forms

    src/components/SignInForm.tsx and src/components/SignUpForm.tsx talk
    to the identity provider (Clerk) through [signIn.create],
    [signUp.create], [signUp.prepareEmailAddressVerification],
    [signUp.attemptEmailAddressVerification] and [setActive]; each call
    is a [ClerkCall] whose answer is a [ClerkAnswer]: the resource it
    resolved with, or the error it threw.  The identity provider itself is
    outside the repository and outside the specification (section 6);
    its answers are inputs of the model.

    Each form is a state machine: its [useState] hooks, plus the list of
    its calls still awaited, each with the continuation of the handler
    that waits for it.  Neither form refuses a submission while one is
    running, so several calls may be awaited; an answer names the awaited
    call it answers ([answer_at]).  The verification code goes through
    the input's [maxLength={6}] and [verificationEmailSchema]
    (src/schemas/verificationEmailSchema.ts) before the handler sees it.

    The two pages that depend on the session are here as well:
    src/app/dashboard/page.tsx redirects without a user and hands the
    user's fields to the navigation bar, and src/app/page.tsx shows
    different links to signed-in and signed-out
    visitors.

    The sign-in and sign-up schemas ([signInSchema], [signUpSchema]) are
    imported by the forms but are not part of the repository: the data
    they validate is an input of the submit events. *)

From S2P Require Import Prelude Client.
Import Client.

Module Auth.

(** ** The identity provider's interface *)

(** An entry of [error.errors] of an error Clerk throws. *)
Record ClerkError := mkClerkError { longMessage : option string; message : option string }.

Inductive ClerkCall :=
| SignInCreate (identifier password : string)
| SetActive (session : option string)
| SignUpCreate (emailAddress password : string)
| PrepareEmailCode
| AttemptEmailCode (code : string).

(** [errors] is missing from an error that does not come from Clerk (a
    network failure). *)
Inductive ClerkAnswer :=
| Resolved (status : string) (createdSessionId : option string)
| Thrown (errors : option (list ClerkError)).


(** [error.errors?.[0]?.longMessage || error.errors?.[0]?.message || d]. *)
Definition clerk_error_message (errors : option (list ClerkError)) (d : string) : string :=
  match errors ≫= head with
  | Some e => js_or (longMessage e) (js_or (message e) d)
  | None => d
  end.

(** ** Awaited calls *)

Section Awaiting.
Context {S K : Type}.
Context (pending : S → list K) (set_pending : list K → S → S).
(** The continuation of a handler on the answer to the call it awaits:
    the new state and, when the handler awaits again, the next call. *)
Context (cont : K → ClerkAnswer → S → S * option (K * ClerkCall)).

(** The answer [a] to the [i]-th awaited call. *)
Definition answer_at (i : nat) (a : ClerkAnswer) (s : S) : S * option ClerkCall :=
  match pending s !! i with
  | None => (s, None)
  | Some k =>
      let s0 := set_pending (delete i (pending s)) s in
      match cont k a s0 with
      | (s1, Some (k', c)) => (set_pending (pending s1 ++ [k']) s1, Some c)
      | (s1, None) => (s1, None)
      end
  end.
End Awaiting.

(** ** SignInForm.tsx *)

Inductive SignInCont := KSignInCreate | KSignInActivate.

(** The hooks of lines 19-21, the route pushed, and the awaited calls. *)
Record SignInState := mkSignInState {
  si_isSubmitting : bool;
  si_authError : option string;
  si_showPassword : bool;
  si_route : option string;
  si_pending : list SignInCont
}.

Definition signin_initial : SignInState := mkSignInState false None false None [].

Definition si_set_pending (v : list SignInCont) (s : SignInState) : SignInState :=
  mkSignInState (si_isSubmitting s) (si_authError s) (si_showPassword s) (si_route s) v.
Definition si_setIsSubmitting (v : bool) (s : SignInState) : SignInState :=
  mkSignInState v (si_authError s) (si_showPassword s) (si_route s) (si_pending s).
Definition si_setAuthError (v : option string) (s : SignInState) : SignInState :=
  mkSignInState (si_isSubmitting s) v (si_showPassword s) (si_route s) (si_pending s).
Definition si_push (r : string) (s : SignInState) : SignInState :=
  mkSignInState (si_isSubmitting s) (si_authError s) (si_showPassword s) (Some r) (si_pending s).

(** The fields [signInSchema] validates. *)
Record SignInData := mkSignInData { identifier : string; password : string }.

(** [useForm]'s [defaultValues] (lines 23-30). *)
Definition signin_defaults : SignInData := mkSignInData "" "".

(** [onSubmit] (lines 33-36) up to its first [await]. *)
Definition signin_onSubmit (isLoaded : bool) (data : SignInData) (s : SignInState)
    : SignInState * option ClerkCall :=
  if negb isLoaded then (s, None)
  else (si_set_pending (si_pending s ++ [KSignInCreate]) (si_setAuthError None (si_setIsSubmitting true s)),
        Some (SignInCreate (identifier data) (password data))).

Definition signin_default_error : string := "Invalid email or password. Please try again.".

(** Lines 37-58 after each [await]; [finally] clears [isSubmitting]. *)
Definition signin_cont (k : SignInCont) (a : ClerkAnswer) (s : SignInState)
    : SignInState * option (SignInCont * ClerkCall) :=
  match k, a with
  | KSignInCreate, Resolved st sess =>
      if st === "complete" then (s, Some (KSignInActivate, SetActive sess))
      else (si_setIsSubmitting false (si_setAuthError
              (Some "Sign-in could not be completed. Please check your credentials.") s), None)
  | KSignInActivate, Resolved _ _ => (si_setIsSubmitting false (si_push "/dashboard" s), None)
  | _, Thrown e =>
      (si_setIsSubmitting false (si_setAuthError (Some (clerk_error_message e signin_default_error)) s),
       None)
  end.

Inductive SignInEvent :=
| SISubmit (data : SignInData)
| SIToggleShow
| SIAnswer (i : nat) (a : ClerkAnswer).

Definition signin_event (isLoaded : bool) (ev : SignInEvent) (s : SignInState)
    : SignInState * option ClerkCall :=
  match ev with
  | SISubmit d => signin_onSubmit isLoaded d s
  | SIToggleShow =>
      (mkSignInState (si_isSubmitting s) (si_authError s) (negb (si_showPassword s)) (si_route s)
         (si_pending s), None)
  | SIAnswer i a => answer_at si_pending si_set_pending signin_cont i a s
  end.

(** ** verificationEmailSchema.ts and the code input *)

(** The message of the first failing check of
    [z.string().min(1, ...).min(6, ...)], as react-hook-form shows it. *)
Definition verification_code_issue (code : string) : option string :=
  if bool_decide (String.length code < 1)%nat then Some "Verification Code is Required"
  else if bool_decide (String.length code < 6)%nat then Some "Verification code is of 6 characters"
  else None.

(** [maxLength={6}]: the input keeps at most 6 characters. *)
Definition code_input (typed : string) : string := String.substring 0 6 typed.

(** ** SignUpForm.tsx *)

Inductive SignUpCont := KSignUpCreate | KPrepare | KAttempt | KActivate | KResend.

(** The hooks of lines 22-27, the route pushed, the field error of the
    verification form, the toasts shown and the awaited calls. *)
Record SignUpState := mkSignUpState {
  su_isSubmitting : bool;
  su_authError : option string;
  su_verifying : bool;
  su_verificationError : option string;
  su_showPassword : bool;
  su_showConfirmPassword : bool;
  su_codeFieldError : option string;
  su_route : option string;
  su_toasts : list Toast;
  su_pending : list SignUpCont
}.

Definition signup_initial : SignUpState :=
  mkSignUpState false None false None false false None None [] [].


Definition su_set_pending (v : list SignUpCont) (s : SignUpState) : SignUpState :=
  mkSignUpState (su_isSubmitting s) (su_authError s) (su_verifying s) (su_verificationError s)
    (su_showPassword s) (su_showConfirmPassword s) (su_codeFieldError s) (su_route s) (su_toasts s) v.
Definition su_setIsSubmitting (v : bool) (s : SignUpState) : SignUpState :=
  mkSignUpState v (su_authError s) (su_verifying s) (su_verificationError s)
    (su_showPassword s) (su_showConfirmPassword s) (su_codeFieldError s) (su_route s) (su_toasts s)
    (su_pending s).
Definition su_setAuthError (v : option string) (s : SignUpState) : SignUpState :=
  mkSignUpState (su_isSubmitting s) v (su_verifying s) (su_verificationError s)
    (su_showPassword s) (su_showConfirmPassword s) (su_codeFieldError s) (su_route s) (su_toasts s)
    (su_pending s).
Definition su_setVerifying (v : bool) (s : SignUpState) : SignUpState :=
  mkSignUpState (su_isSubmitting s) (su_authError s) v (su_verificationError s)
    (su_showPassword s) (su_showConfirmPassword s) (su_codeFieldError s) (su_route s) (su_toasts s)
    (su_pending s).
Definition su_setVerificationError (v : option string) (s : SignUpState) : SignUpState :=
  mkSignUpState (su_isSubmitting s) (su_authError s) (su_verifying s) v
    (su_showPassword s) (su_showConfirmPassword s) (su_codeFieldError s) (su_route s) (su_toasts s)
    (su_pending s).
Definition su_setCodeFieldError (v : option string) (s : SignUpState) : SignUpState :=
  mkSignUpState (su_isSubmitting s) (su_authError s) (su_verifying s) (su_verificationError s)
    (su_showPassword s) (su_showConfirmPassword s) v (su_route s) (su_toasts s) (su_pending s).
Definition su_push (r : string) (s : SignUpState) : SignUpState :=
  mkSignUpState (su_isSubmitting s) (su_authError s) (su_verifying s) (su_verificationError s)
    (su_showPassword s) (su_showConfirmPassword s) (su_codeFieldError s) (Some r) (su_toasts s)
    (su_pending s).
Definition su_toast (t : Toast) (s : SignUpState) : SignUpState :=
  mkSignUpState (su_isSubmitting s) (su_authError s) (su_verifying s) (su_verificationError s)
    (su_showPassword s) (su_showConfirmPassword s) (su_codeFieldError s) (su_route s)
    (su_toasts s ++ [t]) (su_pending s).

(** The fields [signUpSchema] validates. *)
Record SignUpData := mkSignUpData { email : string; su_password : string; passwordConfirmation : string }.

(** The [defaultValues] of the two forms (lines 29-47): the account form
    and the verification code. *)
Definition signup_defaults : SignUpData := mkSignUpData "" "" "".
Definition verification_defaults : string := "".

(** [onSubmit] (lines 49-52) up to its first [await]. *)
Definition signup_onSubmit (isLoaded : bool) (data : SignUpData) (s : SignUpState)
    : SignUpState * option ClerkCall :=
  if negb isLoaded then (s, None)
  else (su_set_pending (su_pending s ++ [KSignUpCreate]) (su_setAuthError None (su_setIsSubmitting true s)),
        Some (SignUpCreate (email data) (su_password data))).

(** [handleVerificationSubmit] (lines 72-75) up to its first [await];
    [signUp] is defined once Clerk has loaded. *)
Definition handleVerificationSubmit (isLoaded : bool) (code : string) (s : SignUpState)
    : SignUpState * option ClerkCall :=
  if negb isLoaded then (s, None)
  else (su_set_pending (su_pending s ++ [KAttempt])
          (su_setVerificationError None (su_setIsSubmitting true s)),
        Some (AttemptEmailCode code)).

(** The resend button (lines 160-172): it does not set [isSubmitting]. *)
Definition resend_code (isLoaded : bool) (s : SignUpState) : SignUpState * option ClerkCall :=
  if negb isLoaded then (s, None)
  else (su_set_pending (su_pending s ++ [KResend]) (su_setVerificationError None s),
        Some PrepareEmailCode).

Definition signup_default_error : string := "An error occurred during sign-up. Please try again.".
Definition verify_default_error : string := "Invalid verification code. Please check and try again.".

(** The three handlers after each [await] (lines 53-67, 76-94,
    164-170). *)
Definition signup_cont (k : SignUpCont) (a : ClerkAnswer) (s : SignUpState)
    : SignUpState * option (SignUpCont * ClerkCall) :=
  match k, a with
  | KSignUpCreate, Resolved _ _ => (s, Some (KPrepare, PrepareEmailCode))
  | KPrepare, Resolved _ _ => (su_setIsSubmitting false (su_setVerifying true s), None)
  | (KSignUpCreate | KPrepare), Thrown e =>
      (su_setIsSubmitting false (su_setAuthError (Some (clerk_error_message e signup_default_error)) s),
       None)
  | KAttempt, Resolved st sess =>
      if st === "complete" then (s, Some (KActivate, SetActive sess))
      else (su_setIsSubmitting false (su_setVerificationError
              (Some "Verification could not be completed. Invalid code or session expired.") s), None)
  | KActivate, Resolved _ _ => (su_setIsSubmitting false (su_push "/dashboard" s), None)
  | (KAttempt | KActivate), Thrown e =>
      (su_setIsSubmitting false
         (su_setVerificationError (Some (clerk_error_message e verify_default_error)) s), None)
  | KResend, Resolved _ _ =>
      (su_toast (mkToast "Verification Code Resent" (Some "Check your email for the new code.") "success")
         s, None)
  | KResend, Thrown _ =>
      (su_setVerificationError (Some "Failed to resend code. Please wait a moment and try again.") s,
       None)
  end.

Inductive SignUpEvent :=
| SUSubmit (data : SignUpData)
| SUVerify (typed : string)
| SUResend
| SUTogglePassword
| SUToggleConfirm
| SUAnswer (i : nat) (a : ClerkAnswer).

(** One event: the sign-up form is shown while [verifying] is false
    (line 98), the verification form while it is true; the code goes
    through the input and the schema, and the resend button is disabled
    while [isSubmitting]. *)
Definition signup_event (isLoaded : bool) (ev : SignUpEvent) (s : SignUpState)
    : SignUpState * option ClerkCall :=
  match ev with
  | SUSubmit d => if su_verifying s then (s, None) else signup_onSubmit isLoaded d s
  | SUVerify typed =>
      if su_verifying s then
        let code := code_input typed in
        match verification_code_issue code with
        | Some m => (su_setCodeFieldError (Some m) s, None)
        | None => handleVerificationSubmit isLoaded code (su_setCodeFieldError None s)
        end
      else (s, None)
  | SUResend => if su_verifying s && negb (su_isSubmitting s) then resend_code isLoaded s else (s, None)
  | SUTogglePassword =>
      (mkSignUpState (su_isSubmitting s) (su_authError s) (su_verifying s) (su_verificationError s)
         (negb (su_showPassword s)) (su_showConfirmPassword s) (su_codeFieldError s) (su_route s)
         (su_toasts s) (su_pending s), None)
  | SUToggleConfirm =>
      (mkSignUpState (su_isSubmitting s) (su_authError s) (su_verifying s) (su_verificationError s)
         (su_showPassword s) (negb (su_showConfirmPassword s)) (su_codeFieldError s) (su_route s)
         (su_toasts s) (su_pending s), None)
  | SUAnswer i a => answer_at su_pending su_set_pending signup_cont i a s
  end.

(** A sequence of events, with the calls they make. *)
Fixpoint signup_run (isLoaded : bool) (evs : list SignUpEvent) (s : SignUpState)
    : SignUpState * list ClerkCall :=
  match evs with
  | [] => (s, [])
  | ev :: evs =>
      let '(s1, c) := signup_event isLoaded ev s in
      let '(s2, cs) := signup_run isLoaded evs s1 in
      (s2, option_list c ++ cs)
  end.

Fixpoint signin_run (isLoaded : bool) (evs : list SignInEvent) (s : SignInState)
    : SignInState * list ClerkCall :=
  match evs with
  | [] => (s, [])
  | ev :: evs =>
      let '(s1, c) := signin_event isLoaded ev s in
      let '(s2, cs) := signin_run isLoaded evs s1 in
      (s2, option_list c ++ cs)
  end.

(** ** The pages that depend on the session *)

(** The fields of Clerk's [currentUser()] the dashboard page reads, the
    addresses standing for [emailAddresses[i].emailAddress]. *)
Record ClerkUser := mkClerkUser {
  clerk_id : string;
  firstName : option string;
  lastName : option string;
  imageUrl : string;
  username : option string;
  emailAddresses : list string
}.

(** The user handed to the navigation bar (lines 22-31). *)
Record NavbarUser := mkNavbarUser {
  nu_id : string;
  nu_firstName : option string;
  nu_lastName : option string;
  nu_imageUrl : string;
  nu_username : option string;
  nu_emailAddress : option string
}.

Definition serialize_user (user : option ClerkUser) : option NavbarUser :=
  (λ u, mkNavbarUser (clerk_id u) (firstName u) (lastName u) (imageUrl u) (username u)
          (head (emailAddresses u))) <$> user.

Inductive DashboardPage :=
| Redirect (to : string)
| RenderDashboard (userId userName : string).

(** Whether the session has a user: [userId] is truthy (Clerk's
    [<SignedIn>] and the page's [if (!userId)] test the same value). *)
Definition signed_in (userId : option string) : bool := js_truthy userId.

(** src/app/dashboard/page.tsx (lines 13-49). *)
Definition dashboard_page (userId : option string) (user : option ClerkUser) : DashboardPage :=
  match userId with
  | Some uid =>
      if signed_in userId then
        RenderDashboard uid
          (js_or (user ≫= firstName)
             (js_or (user ≫= username) (js_or (user ≫= λ u, head (emailAddresses u)) "User")))
      else Redirect "/sign-in"
  | None => Redirect "/sign-in"
  end.

(** The links of src/app/page.tsx: [<SignedOut>] and [<SignedIn>]
    follow the session.  The hero section (lines 41-64): *)
Definition hero_links (userId : option string) : list string :=
  if signed_in userId then ["/dashboard"] else ["/sign-up"; "/sign-in"].

(** The call to action at the bottom (lines 168-195): *)
Definition cta_links (userId : option string) : list string :=
  if signed_in userId then ["/dashboard"] else ["/sign-up"].

(** ** Lemmas *)

Lemma js_or_nonempty o d : d ≠ "" → js_or o d ≠ "".
Proof. destruct o as [m|]; simpl; [|done]. by destruct (String.eqb_spec m ""). Qed.

Lemma clerk_error_message_nonempty e d : d ≠ "" → clerk_error_message e d ≠ "".
Proof.
  intros Hd. unfold clerk_error_message.
  destruct (e ≫= head) as [c|]; [|done]. by do 2 apply js_or_nonempty.
Qed.

#[export] Hint Resolve js_or_nonempty clerk_error_message_nonempty : echo.

(** [String.substring 0 n] keeps [min n (length s)] characters. *)
Lemma substring_0_length n s : String.length (String.substring 0 n s) = Nat.min n (String.length s).
Proof.
  revert n. induction s as [|c s IH]; intros [|n]; simpl; try done. by rewrite IH.
Qed.

Lemma code_input_length typed : String.length (code_input typed) = Nat.min 6 (String.length typed).
Proof. apply substring_0_length. Qed.

(** The answer to an awaited call, unfolded. *)
Lemma answer_at_Some {S K} pend set_pend (cont : K → ClerkAnswer → S → S * option (K * ClerkCall))
    i a s k :
  pend s !! i = Some k →
  answer_at pend set_pend cont i a s =
    match cont k a (set_pend (delete i (pend s)) s) with
    | (s1, Some (k', c)) => (set_pend (pend s1 ++ [k']) s1, Some c)
    | (s1, None) => (s1, None)
    end.
Proof. intros Hk. unfold answer_at. by rewrite Hk. Qed.

Ltac solve_nonempty := unfold signup_default_error, verify_default_error, signin_default_error;
  first [apply clerk_error_message_nonempty | idtac]; discriminate.

(** ** Properties *)

(** C28 (Auth, error): whatever error Clerk throws, and whichever awaited
    call of the sign-up form it answers, the handler stops there: it
    shows a non-empty message (in the sign-up error box for account
    creation and the code request, in the verification error box for the
    code check, the session activation and the resend), makes no further
    call, and, except for the resend that never set it, clears
    [isSubmitting]. *)
Theorem signup_error_settles isLoaded i e s k :
  su_pending s !! i = Some k →
  let '(s', c) := signup_event isLoaded (SUAnswer i (Thrown e)) s in
  c = None ∧ su_pending s' = delete i (su_pending s) ∧
  (k = KResend ∨ su_isSubmitting s' = false) ∧
  ∃ m, m ≠ "" ∧ (su_authError s' = Some m ∨ su_verificationError s' = Some m).
Proof.
  intros Hk. simpl. rewrite (answer_at_Some _ _ _ i _ s k Hk).
  destruct k; simpl; (split; [done|]); (split; [done|]);
    (split; [by (left + right)|]); eexists; (split; [|by (left + right)]); solve_nonempty.
Qed.

(** C29 (Auth, liveness): with an identity provider that accepts the
    account, sends the code, checks it and activates the session, the
    sign-up form reaches the dashboard: submitting the form and then a
    code of at least 6 typed characters makes exactly the four calls of
    the flow and ends on [/dashboard] with nothing awaited. *)
Theorem signup_reaches_dashboard d typed st1 x1 st2 x2 sess st3 x3 :
  (6 ≤ String.length typed)%nat →
  let '(s, calls) :=
    signup_run true [SUSubmit d; SUAnswer 0 (Resolved st1 x1); SUAnswer 0 (Resolved st2 x2);
                     SUVerify typed; SUAnswer 0 (Resolved "complete" sess);
                     SUAnswer 0 (Resolved st3 x3)] signup_initial in
  su_route s = Some "/dashboard" ∧ su_pending s = [] ∧ su_isSubmitting s = false ∧
  calls = [SignUpCreate (email d) (su_password d); PrepareEmailCode;
           AttemptEmailCode (code_input typed); SetActive sess].
Proof.
  intros Hlen.
  assert (Hcode : verification_code_issue (code_input typed) = None).
  { unfold verification_code_issue. rewrite code_input_length.
    rewrite !bool_decide_false by lia. done. }
  simpl. rewrite Hcode. done.
Qed.

(** C30 (Auth, bounds): every code the verification form sends to Clerk
    has exactly 6 characters (the input keeps at most 6, the schema wants
    at least 6); an empty code is refused with "Verification Code is
    Required" and a shorter one with "Verification code is of 6
    characters", without any call. *)
Theorem verification_code_six isLoaded typed s :
  su_verifying s = true →
  let '(s', c) := signup_event isLoaded (SUVerify typed) s in
  (∀ code, c = Some (AttemptEmailCode code) → String.length code = 6%nat) ∧
  (String.length typed = 0%nat → c = None ∧ su_codeFieldError s' = Some "Verification Code is Required") ∧
  (0 < String.length typed < 6 →
     c = None ∧ su_codeFieldError s' = Some "Verification code is of 6 characters")%nat.
Proof.
  intros Hv. simpl. rewrite Hv. unfold verification_code_issue. rewrite code_input_length.
  destruct (decide (String.length typed = 0%nat)) as [H0|H0].
  - rewrite H0. simpl. split; [done|]. split; [done|lia].
  - rewrite bool_decide_false by lia.
    destruct (decide (String.length typed < 6)%nat) as [H6|H6].
    + rewrite bool_decide_true by lia. simpl. split; [done|]. split; [lia|done].
    + rewrite bool_decide_false by lia. unfold handleVerificationSubmit.
      destruct isLoaded; simpl.
      * split; [|split; lia]. intros code [= <-]. rewrite code_input_length. lia.
      * split; [done|]. split; lia.
Qed.

(** C31 (Auth, functional): one sign-in attempt, whatever Clerk answers
    to [signIn.create] and to [setActive], ends with nothing awaited and
    [isSubmitting] cleared; it reaches [/dashboard] exactly when the
    creation answered "complete" and the activation succeeded, and
    otherwise shows a non-empty error. *)
Theorem signin_outcome d a1 a2 :
  let '(s, _) := signin_run true [SISubmit d; SIAnswer 0 a1; SIAnswer 0 a2] signin_initial in
  si_pending s = [] ∧ si_isSubmitting s = false ∧
  (si_route s = Some "/dashboard" ↔
     (∃ sess, a1 = Resolved "complete" sess) ∧ (∃ st x, a2 = Resolved st x)) ∧
  (si_route s = None → ∃ m, m ≠ "" ∧ si_authError s = Some m).
Proof.
  destruct a1 as [st sess|e].
  - simpl. unfold answer_at. simpl.
    destruct (String.eqb_spec st "complete") as [->|Hst]; simpl.
    + destruct a2 as [st2 x2|e2]; simpl.
      * split; [done|]. split; [done|]. split; [naive_solver|done].
      * split; [done|]. split; [done|]. split; [split; [done|naive_solver]|].
        intros _. eexists. split; [|done]. solve_nonempty.
    + split; [done|]. split; [done|]. split; [split; [done|naive_solver]|].
      intros _. eexists. split; [|done]. discriminate.
  - simpl. split; [done|]. split; [done|]. split; [split; [done|naive_solver]|].
    intros _. eexists. split; [|done]. solve_nonempty.
Qed.

(** C32 (Auth, safety): the dashboard page renders only for a signed-in
    user (a non-empty id), under that id and with a non-empty name, and
    redirects to [/sign-in] otherwise; the landing page offers the dashboard link
    exactly to the visitors the dashboard page renders for. *)
Theorem dashboard_access userId user :
  (In "/dashboard" (hero_links userId ++ cta_links userId) ↔
     ∃ u n, dashboard_page userId user = RenderDashboard u n) ∧
  (∀ u n, dashboard_page userId user = RenderDashboard u n → userId = Some u ∧ u ≠ "" ∧ n ≠ "") ∧
  (signed_in userId = false → dashboard_page userId user = Redirect "/sign-in").
Proof.
  unfold hero_links, cta_links, dashboard_page.
  destruct userId as [uid|]; simpl; [destruct (String.eqb_spec uid "") as [->|Hu]; simpl|].
  - split; [|split; [done|done]]. split; [|intros (? & ? & ?); done].
    intros [H|[H|[H|[]]]]; discriminate.
  - split; [split; [eauto|intros _; by left]|]. split; [|done].
    intros u n [= <- <-]. split; [done|]. split; [done|]. by repeat apply js_or_nonempty.
  - split; [|split; [done|done]]. split; [|intros (? & ? & ?); done].
    intros [H|[H|[H|[]]]]; discriminate.
Qed.

(** ** Witnesses *)

Lemma signup_error_settles_witness :
  su_pending (su_set_pending [KSignUpCreate] signup_initial) !! 0%nat = Some KSignUpCreate ∧
  let '(s', c) := signup_event true (SUAnswer 0 (Thrown None)) (su_set_pending [KSignUpCreate] signup_initial) in
  c = None ∧ su_pending s' = delete 0 [KSignUpCreate] ∧
  (KSignUpCreate = KResend ∨ su_isSubmitting s' = false) ∧
  ∃ m, m ≠ "" ∧ (su_authError s' = Some m ∨ su_verificationError s' = Some m).
Proof.
  assert (Hk : su_pending (su_set_pending [KSignUpCreate] signup_initial) !! 0%nat = Some KSignUpCreate)
    by reflexivity.
  split; [exact Hk|].
  exact (signup_error_settles true 0 None (su_set_pending [KSignUpCreate] signup_initial) _ Hk).
Defined.

Lemma signup_reaches_dashboard_witness :
  (6 ≤ String.length "123456")%nat ∧
  su_route (signup_run true [SUSubmit (mkSignUpData "a@b.c" "pw123456" "pw123456");
              SUAnswer 0 (Resolved "missing_requirements" None); SUAnswer 0 (Resolved "" None);
              SUVerify "123456"; SUAnswer 0 (Resolved "complete" (Some "sess_1"));
              SUAnswer 0 (Resolved "" None)] signup_initial).1 = Some "/dashboard".
Proof.
  assert (H6 : (6 ≤ String.length "123456")%nat) by (simpl; lia).
  split; [exact H6|].
  pose proof (signup_reaches_dashboard (mkSignUpData "a@b.c" "pw123456" "pw123456") "123456"
                "missing_requirements" None "" None (Some "sess_1") "" None H6) as H.
  destruct (signup_run _ _ signup_initial) as [s calls]. exact (proj1 H).
Defined.

Lemma verification_code_six_witness :
  su_verifying (su_setVerifying true signup_initial) = true ∧
  su_codeFieldError (signup_event true (SUVerify "12") (su_setVerifying true signup_initial)).1 =
    Some "Verification code is of 6 characters".
Proof.
  assert (Hv : su_verifying (su_setVerifying true signup_initial) = true) by reflexivity.
  split; [exact Hv|].
  pose proof (verification_code_six true "12" _ Hv) as H.
  destruct (signup_event true (SUVerify "12") (su_setVerifying true signup_initial)) as [s' c].
  destruct H as (_ & _ & H3). simpl. apply H3. simpl. lia.
Defined.

End Auth.
