(* ===== verification/AuthView.v ===== *)
(** * AuthView: what the sign-in and sign-up forms render

    The JSX of src/components/SignInForm.tsx (lines 62-177) and
    src/components/SignUpForm.tsx (lines 98-305) is a function of the
    form's state ([Auth.SignInState], [Auth.SignUpState]), of Clerk's
    [isLoaded], and of the field errors react-hook-form reports.  The
    schemas [signInSchema] and [signUpSchema] are not in the repository,
    so the errors of their fields are inputs; the error of the
    verification code is the state's [su_codeFieldError]
    (verificationEmailSchema.ts, Auth.v).

    Each view is a record of what the user sees and can press: the
    heading, the error box, each field's invalid flag and message, the
    password inputs with their show/hide button, the submit button's
    label and loading flag, the resend button, and the footer link.  The
    sign-up form shows the verification screen exactly while
    [verifying] holds (line 98). *)

From S2P Require Import Prelude Auth.
Import Auth.

Module AuthView.

(** A field error of react-hook-form: [errors.x] with its optional
    [message]. *)
Record FieldError := mkFieldError { fe_message : option string }.

(** An input's [isInvalid={!!errors.x}] and
    [errorMessage={errors.x?.message}]. *)
Record FieldView := mkFieldView { fv_invalid : bool; fv_message : option string }.

Definition field_view (e : option FieldError) : FieldView :=
  mkFieldView (bool_decide (is_Some e)) (e ≫= fe_message).

(** A password input with its show/hide button (SignInForm.tsx lines
    119-140, SignUpForm.tsx lines 231-240 and 252-261). *)
Record PasswordInput := mkPasswordInput { pi_type : string; pi_aria : string; pi_eye_off : bool }.

Definition password_input (show : bool) : PasswordInput :=
  mkPasswordInput (if show then "text" else "password")
    (if show then "Hide password" else "Show password") show.

(** [{authError && (<div>...<p>{authError}</p></div>)}]. *)
Definition form_error_box (e : option string) : option string := if js_truthy e then e else None.

(** ** SignInForm.tsx *)

Record SignInErrors := mkSignInErrors { err_identifier : option FieldError; err_password : option FieldError }.

Record SignInView := mkSignInView {
  siv_heading : string;
  siv_error : option string;
  siv_identifier : FieldView;
  siv_password : FieldView;
  siv_password_input : PasswordInput;
  siv_submit_label : string;
  siv_submit_loading : bool;
  siv_footer_link : string
}.

Definition signin_view (isLoaded : bool) (errs : SignInErrors) (s : SignInState) : SignInView :=
  mkSignInView "Welcome Back!" (form_error_box (si_authError s))
    (field_view (err_identifier errs)) (field_view (err_password errs))
    (password_input (si_showPassword s))
    (if si_isSubmitting s then "Signing In..." else "Sign In")
    (si_isSubmitting s || negb isLoaded) "/sign-up".

(** ** SignUpForm.tsx *)

Record SignUpErrors := mkSignUpErrors {
  err_email : option FieldError;
  err_su_password : option FieldError;
  err_passwordConfirmation : option FieldError
}.

Inductive SignUpScreen :=
(** Lines 98-183: the code form and the resend button. *)
| VerifyScreen (heading : string) (error : option string) (code : FieldView)
    (submit_label : string) (submit_loading : bool) (resend_disabled : bool)
(** Lines 186-305: the account form. *)
| AccountScreen (heading : string) (error : option string) (email password confirm : FieldView)
    (password_in confirm_in : PasswordInput) (submit_label : string) (submit_loading : bool)
    (footer_link : string).

(** The verification card (lines 99-182). *)
Definition verify_screen (isLoaded : bool) (s : SignUpState) : SignUpScreen :=
  VerifyScreen "Check Your Email" (form_error_box (su_verificationError s))
    (field_view ((λ m, mkFieldError (Some m)) <$> su_codeFieldError s))
    (if su_isSubmitting s then "Verifying..." else "Verify Email")
    (su_isSubmitting s || negb isLoaded) (su_isSubmitting s).

(** The sign-up card (lines 186-305). *)
Definition account_screen (isLoaded : bool) (errs : SignUpErrors) (s : SignUpState) : SignUpScreen :=
  AccountScreen "Create Your Account" (form_error_box (su_authError s))
    (field_view (err_email errs)) (field_view (err_su_password errs))
    (field_view (err_passwordConfirmation errs))
    (password_input (su_showPassword s)) (password_input (su_showConfirmPassword s))
    (if su_isSubmitting s then "Creating Account..." else "Create Account")
    (su_isSubmitting s || negb isLoaded) "/sign-in".

(** [if (verifying) return ...] (line 98). *)
Definition signup_view (isLoaded : bool) (errs : SignUpErrors) (s : SignUpState) : SignUpScreen :=
  if su_verifying s then verify_screen isLoaded s else account_screen isLoaded errs s.

(** ** The screens along a sign-up *)

Definition no_errors : SignUpErrors := mkSignUpErrors None None None.

(** The account form, the busy form while the account is created, the
    verification screen once the code is sent, and the verification
    screen with the schema's message for a short code. *)
Example signup_screens :
  let d := mkSignUpData "a@b.c" "secret12" "secret12" in
  let s1 := (signup_event true (SUSubmit d) signup_initial).1 in
  let s2 := (signup_run true [SUAnswer 0 (Resolved "missing_requirements" None);
                              SUAnswer 0 (Resolved "" None)] s1).1 in
  let s3 := (signup_event true (SUVerify "123") s2).1 in
  signup_view true no_errors signup_initial =
    AccountScreen "Create Your Account" None (mkFieldView false None) (mkFieldView false None)
      (mkFieldView false None) (password_input false) (password_input false) "Create Account"
      false "/sign-in" ∧
  signup_view true no_errors s1 =
    AccountScreen "Create Your Account" None (mkFieldView false None) (mkFieldView false None)
      (mkFieldView false None) (password_input false) (password_input false)
      "Creating Account..." true "/sign-in" ∧
  signup_view true no_errors s2 =
    VerifyScreen "Check Your Email" None (mkFieldView false None) "Verify Email" false false ∧
  signup_view true no_errors s3 =
    VerifyScreen "Check Your Email" None
      (mkFieldView true (Some "Verification code is of 6 characters")) "Verify Email" false false.
Proof. vm_compute. repeat split. Qed.

End AuthView.
