(* ===== verification/Shell.v ===== *)
(** * Shell: the root layout, the providers and the page titles

    src/app/layout.tsx wraps every page in Clerk's provider and in
    [Providers] (src/app/providers.tsx), and declares the title metadata
    [{ default: "EchoFiles", template: "%s - EchoFiles" }]; the dashboard
    and sign-up pages declare the titles "DashBoard" and "SignUp".
    Next.js puts a page's title into the first [%s] of the layout's
    template, and shows the default for a page without a title (the
    landing page).

    [Providers] gives ImageKit its public key and URL endpoint from the
    environment, falling back to [""] ([process.env.X || ""]), and an
    [authenticator] that fetches [/api/imagekit-auth] and returns the
    parsed body, logging and rethrowing any failure.  The fetch and the
    body parser are parameters: the route is not part of src/. *)

From S2P Require Import Prelude.

Module Shell.

(** ** Titles *)

(** The first occurrence of [pat] in [s] replaced by [rep]
    ([String.prototype.replace] with a string pattern). *)
Fixpoint str_replace_first (pat rep s : string) : string :=
  if String.prefix pat s then (rep ++ String.substring (String.length pat) (String.length s) s)%string
  else match s with
       | EmptyString => EmptyString
       | String c s' => String c (str_replace_first pat rep s')
       end.

Record TitleMetadata := mkTitleMetadata { title_default : string; title_template : string }.

(** layout.tsx, lines 12-15. *)
Definition root_title : TitleMetadata := mkTitleMetadata "EchoFiles" "%s - EchoFiles".

(** The titles the pages declare: dashboard/page.tsx lines 8-10 and
    sign-up/[[...sign-up]]/page.tsx lines 6-8 (the landing page declares
    none). *)
Definition dashboard_title : option string := Some "DashBoard".
Definition signup_title : option string := Some "SignUp".

Definition document_title (m : TitleMetadata) (page : option string) : string :=
  match page with
  | Some t => str_replace_first "%s" t (title_template m)
  | None => title_default m
  end.

(** The document the root layout renders (lines 17-33): its language,
    its theme class, the body's classes with the font's variable, and the
    description of the metadata (line 14). *)
Record RootLayout := mkRootLayout {
  rl_lang : string;
  rl_theme : string;
  rl_body_class : string;
  rl_description : string
}.

Definition root_layout (fontVariable : string) : RootLayout :=
  mkRootLayout "en" "dark" (fontVariable +:+ " antialiased bg-background text-foreground")
    "Keep your files protected on cloud using EchoFiles .".

(** ** Providers *)

Record ImageKitConfig := mkImageKitConfig { publicKey : string; urlEndpoint : string }.

(** providers.tsx, lines 43-44. *)
Definition imagekit_config (envPublicKey envUrlEndpoint : option string) : ImageKitConfig :=
  mkImageKitConfig (js_or envPublicKey "") (js_or envUrlEndpoint "").

Section Authenticator.
Context {R D E : Type}.

(** providers.tsx, lines 25-34: the parsed body, or the error rethrown
    after one console line. *)
Definition authenticator (fetch : string → result E R) (json : R → result E D)
    : result E D * list string :=
  match fetch "/api/imagekit-auth" ≫= json with
  | Ok data => (Ok data, [])
  | Err e => (Err e, ["Authentication error:"])
  end.

End Authenticator.

(** [Providers] (lines 36-51): HeroUI navigates with the router's
    [push], the toasts appear at the top right, and ImageKit receives the
    configuration and the authenticator above. *)
Record ProvidersTree := mkProvidersTree {
  heroui_navigate : string;
  toast_placement : string;
  imagekit : ImageKitConfig
}.

Definition providers (envPublicKey envUrlEndpoint : option string) : ProvidersTree :=
  mkProvidersTree "router.push" "top-right" (imagekit_config envPublicKey envUrlEndpoint).

(** ** Lemmas *)

(** The authenticator passes the body through and rethrows the very
    error it caught, whichever of the fetch and the parse failed. *)
Lemma authenticator_result {R D E} (fetch : string → result E R) (json : R → result E D) :
  (authenticator fetch json).1 = fetch "/api/imagekit-auth" ≫= json.
Proof. unfold authenticator. by destruct (_ ≫= _). Qed.

(** The three documents' titles. *)
Example page_titles :
  document_title root_title dashboard_title = "DashBoard - EchoFiles" ∧
  document_title root_title signup_title = "SignUp - EchoFiles" ∧
  document_title root_title None = "EchoFiles".
Proof. vm_compute. repeat split. Qed.

End Shell.
