(* ===== verification/Landing.v ===== *)
(** * Landing: the landing page and the sign-up page

    src/app/page.tsx is the landing page: a hero with the session's
    links ([Auth.hero_links]), four feature cards, a call to action with
    the session's links ([Auth.cta_links]) and a footer whose year is
    read from the clock ([new Date().getFullYear()], a parameter here).
    src/app/sign-up/[[...sign-up]]/page.tsx shows the sign-up form
    (AuthView.v) between the navigation bar and the same footer.  The
    navigation bar ([Navbar]) is imported from a file that is not in the
    repository. *)

From stdpp Require Import pretty.
From S2P Require Import Prelude Auth Shell.
Import Auth Shell.

Module Landing.

Local Open Scope Z_scope.

(** A feature card: its icon, title and text (lines 96-109). *)
Record FeatureCard := mkFeatureCard { fc_icon : string; fc_title : string; fc_text : string }.

(** Lines 94-155. *)
Definition feature_cards : list FeatureCard :=
  [mkFeatureCard "RefreshCw" "Effortless Sync"
     "Keep files updated automatically across all your devices. Work from anywhere, anytime.";
   mkFeatureCard "FolderSearch" "Intuitive Organization"
     "Simple folders and powerful search make finding exactly what you need a breeze.";
   mkFeatureCard "ShieldCheck" "Robust Security"
     "Your data is protected with industry-standard security measures. Privacy you can trust.";
   mkFeatureCard "Share2" "Access & Share"
     "Get your files on any device and share easily with secure, simple links."].

(** The footer of both pages (lines 200-215 here, lines 19-32 of the
    sign-up page). *)
Definition site_footer (year : Z) : string :=
  "© " +:+ pretty year +:+ " EchoFiles. All Rights Reserved.".

Record LandingPage := mkLandingPage {
  lp_heading : list string;
  lp_intro : string;
  lp_hero_links : list string;
  lp_features_heading : string;
  lp_features_intro : string;
  lp_features : list FeatureCard;
  lp_cta_heading : string;
  lp_cta_text : string;
  lp_cta_note : option string;
  lp_cta_links : list string;
  lp_footer : string
}.

(** [Home()] (lines 15-218) for the session's [userId] in the year
    [year]. *)
Definition landing_page (userId : option string) (year : Z) : LandingPage :=
  mkLandingPage ["Sync, Store, Access."; "Your Files, Effortlessly."]
    "EchoFiles provides secure cloud storage that keeps your important files safe, synchronized, and accessible wherever you go."
    (hero_links userId)
    "Unlock Seamless File Management"
    "EchoFiles offers the essential features you need, designed for simplicity and reliability."
    feature_cards
    "Ready to Simplify Your Storage?"
    "Join EchoFiles today and experience the easiest way to manage your digital life."
    (if signed_in userId then Some "Go to your dashboard to manage your files." else None)
    (cta_links userId) (site_footer year).

(** [SignUpPage()] (lines 10-35): its document title, the form and the
    footer. *)
Record SignUpPage := mkSignUpPage { sp_title : string; sp_footer : string }.

Definition signup_page (year : Z) : SignUpPage :=
  mkSignUpPage (document_title root_title signup_title) (site_footer year).

(** dashboard/page.tsx around its content: the user it hands to the
    navigation bar (lines 22-31) and the same footer (lines 52-64); the
    content itself is [Auth.dashboard_page]. *)
Record DashboardChrome := mkDashboardChrome { dch_navbar_user : option NavbarUser; dch_footer : string }.

Definition dashboard_chrome (user : option ClerkUser) (year : Z) : DashboardChrome :=
  mkDashboardChrome (serialize_user user) (site_footer year).

(** ** The page for each kind of visitor *)

Example landing_pages :
  lp_hero_links (landing_page None 2025) = ["/sign-up"; "/sign-in"] ∧
  lp_cta_note (landing_page None 2025) = None ∧
  lp_hero_links (landing_page (Some "user_1") 2025) = ["/dashboard"] ∧
  lp_cta_note (landing_page (Some "user_1") 2025) = Some "Go to your dashboard to manage your files." ∧
  lp_footer (landing_page None 2025) = "© 2025 EchoFiles. All Rights Reserved." ∧
  signup_page 2025 = mkSignUpPage "SignUp - EchoFiles" "© 2025 EchoFiles. All Rights Reserved.".
Proof. vm_compute. repeat split. Qed.

End Landing.
