(* ===== verification/Dashboard.v ===== *)
(** * Dashboard: the page that holds the file list and its dialogs

    src/components/DashboardContent.tsx keeps the selected tab, a
    [refreshTrigger] counter, its own copy of the current folder
    ([Navigation.DashFolder], updated by [handleFolderChange]) and the
    open state of the upload and new-folder dialogs.  It passes its
    [currentFolderId] to both dialogs and bumps [refreshTrigger] when one
    of them succeeds; FileList's effect (FileList.tsx lines 75-77) then
    fetches the current folder again.

    The theorem of this file composes four components: a folder created
    through the dialog (CreateFolder.v), accepted by the create route
    (Hierarchy.v), makes the dashboard close the dialog and bump the
    counter, and the fetch that follows shows the new folder in the file
    list (Client.v), provided the file list and the dashboard agree on
    the current folder (Navigation.v). *)

From S2P Require Import Prelude Schema Api Store Hierarchy Client Navigation CreateFolder ListEvents.
Import Schema Api Store Hierarchy Client Navigation CreateFolder ListEvents.

Module Dashboard.

(** The hooks of lines 27-34. *)
Record DashState := mkDashState {
  dc_activeTab : string;
  refreshTrigger : nat;
  dc_folder : DashFolder;
  isUploadModalOpen : bool;
  isFolderModalOpen : bool
}.

Definition dash_initial : DashState := mkDashState "files" 0 (mkDashFolder None "My Files") false false.

Definition setActiveTab (v : string) (d : DashState) : DashState :=
  mkDashState v (refreshTrigger d) (dc_folder d) (isUploadModalOpen d) (isFolderModalOpen d).
Definition setIsUploadModalOpen (v : bool) (d : DashState) : DashState :=
  mkDashState (dc_activeTab d) (refreshTrigger d) (dc_folder d) v (isFolderModalOpen d).
Definition setIsFolderModalOpen (v : bool) (d : DashState) : DashState :=
  mkDashState (dc_activeTab d) (refreshTrigger d) (dc_folder d) (isUploadModalOpen d) v.

(** The effect of lines 37-39 on the [tab] search parameter. *)
Definition tab_effect (tabParam : option string) (d : DashState) : DashState :=
  setActiveTab (if bool_decide (tabParam = Some "profile") then "profile" else "files") d.

(** [DashboardContentProps] (lines 14-26). *)
Record DashboardContentProps := mkDashboardContentProps { dcp_userId : string; dcp_userName : string }.

(** The first render (lines 21-39): the hooks' initial values, then the
    tab effect on [searchParams.get("tab")]. *)
Definition dashboard_mount (tabParam : option string) : DashState := tab_effect tabParam dash_initial.

(** [handleActionSuccess] (lines 42-44). *)
Definition handleActionSuccess (d : DashState) : DashState :=
  mkDashState (dc_activeTab d) (S (refreshTrigger d)) (dc_folder d) (isUploadModalOpen d)
    (isFolderModalOpen d).

(** The callbacks given to the dialogs (lines 162-165 and 173-176). *)
Definition onUploadSuccess (d : DashState) : DashState :=
  handleActionSuccess (setIsUploadModalOpen false d).
Definition onCreateSuccess (d : DashState) : DashState :=
  handleActionSuccess (setIsFolderModalOpen false d).

(** [onFolderChange={handleFolderChange}] (line 141). *)
Definition dash_folder_change (fc : FolderChange) (d : DashState) : DashState :=
  mkDashState (dc_activeTab d) (refreshTrigger d) (handleFolderChange fc (dc_folder d))
    (isUploadModalOpen d) (isFolderModalOpen d).

(** The user's actions on the dashboard: the tabs (line 72), the two
    buttons of the files tab (lines 115-132), and [onOpenChange] of the
    dialogs (lines 159 and 170). *)
Inductive DashAction :=
| DSelectTab (key : string)
| DNewFolder
| DUploadFile
| DUploadOpenChange (v : bool)
| DFolderOpenChange (v : bool).

Definition dash_action (a : DashAction) (d : DashState) : DashState :=
  match a with
  | DSelectTab key => setActiveTab key d
  | DNewFolder => if dc_activeTab d === "files" then setIsFolderModalOpen true d else d
  | DUploadFile => if dc_activeTab d === "files" then setIsUploadModalOpen true d else d
  | DUploadOpenChange v => setIsUploadModalOpen v d
  | DFolderOpenChange v => setIsFolderModalOpen v d
  end.

(** The [currentFolderId] the dialogs receive (lines 161 and 172). *)
Definition dialog_folder (d : DashState) : option string := dash_currentFolderId (dc_folder d).

(** FileList's effect (lines 75-77) when [refreshTrigger] changes from
    [old] to [new]: [fetchFiles()] with the loading indicator. *)
Definition refresh_effect (userId : string) (old new : nat) (s : ListState)
    : option (ListState * Pending * Request) :=
  if bool_decide (old = new) then None else Some (fetchFiles_start userId true s).

(** The dashboard after the create dialog's continuation: it calls
    [onCreateSuccess] when told so. *)
Definition after_create (called : bool) (d : DashState) : DashState :=
  if called then onCreateSuccess d else d.

(** What the dashboard renders (lines 54-178): the greeting with
    [userName || "User"], the selected tab, the content of the tabs
    (the files tab shows the current folder's path above the file list,
    lines 104-145; the profile tab, lines 147-153), and the two dialogs
    with their open state and the folder they receive. *)
Inductive DashContent := FilesPanel (folder_label : string) | ProfilePanel.

Record DashView := mkDashView {
  dv_greeting : string;
  dv_selected_tab : string;
  dv_content : list DashContent;
  dv_upload_dialog : bool * option string;
  dv_folder_dialog : bool * option string
}.

Definition dash_view (userName : string) (d : DashState) : DashView :=
  mkDashView ("Welcome back, " +:+ js_or (Some userName) "User" +:+ "!") (dc_activeTab d)
    ((if dc_activeTab d === "files" then [FilesPanel (currentFolderPath (dc_folder d))] else []) ++
     (if dc_activeTab d === "profile" then [ProfilePanel] else []))
    (isUploadModalOpen d, dialog_folder d) (isFolderModalOpen d, dialog_folder d).

(** The props the dashboard gives the file list (lines 138-142). *)
Definition dash_file_list_props (userId : string) (d : DashState) : FileListProps :=
  mkFileListProps userId (refreshTrigger d).

(** ** Lemmas *)

(** [refresh_effect] is the file list's fetch effect on the change of its
    props from one dashboard state to the next. *)
Lemma refresh_effect_props_change u d d' s s1 pd r :
  refresh_effect u (refreshTrigger d) (refreshTrigger d') s = Some (s1, pd, r) →
  props_change (dash_file_list_props u d) (dash_file_list_props u d') s = (s1, [Send pd r]).
Proof.
  unfold refresh_effect, props_change, fetch_effect.
  change (fl_userId (dash_file_list_props u d')) with u.
  destruct (fetchFiles_start u true s) as [[a b] c].
  case_bool_decide as Hn; [done|]. intros [= <- <- <-].
  rewrite bool_decide_false; [done|]. unfold deps. simpl. congruence.
Qed.

Lemma folder_param_id (cf : option string) : cf ≠ Some "" → folder_param cf = cf.
Proof.
  destruct cf as [c|]; simpl; [|done]. intros Hc.
  destruct (String.eqb_spec c ""); [by subst|done].
Qed.

(** ** Properties *)

(** C33 (Dashboard, functional): a folder created through the dialog
    shows up in the file list.  When the file list and the dashboard
    agree on the current folder, the dialog sends that folder as the
    parent; once the route accepts the folder, the dialog's continuation
    calls [onCreateSuccess], which closes the dialog and bumps
    [refreshTrigger]; FileList's effect then fetches the current folder,
    and its listing contains the new folder. *)
Theorem created_folder_listed u s d ms ms' req fresh now rows rows' f :
  nav_agree (s, dc_folder d) → currentFolderId s ≠ Some "" →
  handleCreateFolder_start u (dialog_folder d) ms = (ms', Some req) →
  api_create_entry u (req_parentId req) (req_name req) None fresh now rows = Ok (rows', f) →
  let d' := after_create (handleCreateFolder_finish (folderName ms) (Ok ()) ms').2 d in
  isFolderModalOpen d' = false ∧ refreshTrigger d' = S (refreshTrigger d) ∧
  ∃ s1 p r, refresh_effect u (refreshTrigger d) (refreshTrigger d') s = Some (s1, p, r) ∧
            In f (files (finish p (serve u now r rows').2 s1).1).
Proof.
  intros [_ Hagree] Hne Hstart Hc. simpl in Hagree.
  apply start_request in Hstart as (_ & _ & -> & _). simpl in Hc.
  unfold dialog_folder in Hc. rewrite Hagree in Hc.
  simpl. split; [done|]. split; [done|].
  unfold refresh_effect. rewrite bool_decide_false by lia.
  do 3 eexists. split; [reflexivity|]. simpl.
  rewrite folder_param_id by done. by eapply api_create_entry_listed.
Qed.

(** ** Witnesses *)

Lemma created_folder_listed_witness :
  let ms := setFolderName "Docs" initial_modal in
  nav_agree (initial_state, dc_folder dash_initial) ∧
  handleCreateFolder_start "alice" (dialog_folder dash_initial) ms =
    (setCreatingFolder true ms, Some (mkCreateRequest "Docs" "alice" None)) ∧
  api_create_entry "alice" None "Docs" None "d1" 0 [] = Ok ([demo_folder], demo_folder) ∧
  isFolderModalOpen (onCreateSuccess dash_initial) = false.
Proof.
  assert (Hn : nav_agree (initial_state, dc_folder dash_initial)) by (split; reflexivity).
  assert (Hs : handleCreateFolder_start "alice" (dialog_folder dash_initial) (setFolderName "Docs" initial_modal) =
    (setCreatingFolder true (setFolderName "Docs" initial_modal), Some (mkCreateRequest "Docs" "alice" None)))
    by reflexivity.
  assert (Hc : api_create_entry "alice" None "Docs" None "d1" 0 [] = Ok ([demo_folder], demo_folder))
    by (vm_compute; reflexivity).
  split; [exact Hn|]. split; [exact Hs|]. split; [exact Hc|].
  exact (proj1 (created_folder_listed "alice" initial_state dash_initial _ _ _ "d1" 0 [] _ _
                  Hn ltac:(discriminate) Hs Hc)).
Defined.

End Dashboard.
