(* ===== verification/System.v ===== *)
(** * System: the browser and the store together

    [Client] is proved against the interface [Api.FilesApiLaws];
    [Store.store_laws] discharges it for the table of rows.  This file
    composes the two and models the concurrency of the real system: the
    user may start a new action before the answer to the previous one has
    arrived, the server may serve the pending requests in any order, a
    request may fail in transit, and the browser handles the answers in
    the order they arrive.

    A [World] holds the browser's state, the table, the requests in flight
    (each with the continuation that waits for it) and the answers not yet
    handled; [step] is the transition relation and [rtc step] (stdpp's
    reflexive-transitive closure) reachability.  The user's side of a
    step is an event of the whole file-list component
    ([ListEvents.list_event]), so it obeys what the render allows: no
    breadcrumb, row or header while the list is loading, actions only on
    the rows shown and among the items they offer.

    Two examples replay in the whole system the defects proved in
    general in Client.v and ListEvents.v; the theorems relate the views
    of a browser in step with the server to the specification's flat
    starred view and to what the Empty Trash route removes. *)

From S2P Require Import Prelude Schema Views Api Store Client Navigation Actions ListEvents.
Import Schema Views Api Store Client Navigation Actions ListEvents.

Module System.

Local Open Scope Z_scope.

Record World := mkWorld {
  client : ListState;
  server : list File;
  inflight : list (Pending * Request);
  arrived : list (Pending * Response)
}.

Definition quiescent (w : World) : Prop := inflight w = [] ∧ arrived w = [].

(** The requests among the effects of an event. *)
Definition sends (effs : list ListEffect) : list (Pending * Request) :=
  omap (λ e, match e with Send p r => Some (p, r) | _ => None end) effs.

(** One transition of the system, for the authenticated user [u]: a
    user event of the file list ([ListEvents.list_event]: a callback of its
    render, with the fetch effect that follows, for props of user [u]),
    whose requests join those in flight; the server serving any request
    in flight; a request failing in transit; the browser handling the
    oldest-arrived answer it chooses. *)
Inductive step (u : string) : World → World → Prop :=
| step_event endpoint rt ev w s1 effs :
    user_event ev = true →
    list_event endpoint (mkFileListProps u rt) ev (client w) = (s1, effs) →
    step u w (mkWorld s1 (server w) (inflight w ++ sends effs) (arrived w))
| step_serve now w pre post p r srv' resp :
    inflight w = pre ++ (p, r) :: post →
    serve u now r (server w) = (srv', resp) →
    step u w (mkWorld (client w) srv' (pre ++ post) (arrived w ++ [(p, resp)]))
| step_lose w pre post p r :
    inflight w = pre ++ (p, r) :: post →
    step u w (mkWorld (client w) (server w) (pre ++ post) (arrived w ++ [(p, failure_of r)]))
| step_reply w pre post p resp :
    arrived w = pre ++ (p, resp) :: post →
    step u w (mkWorld (finish p resp (client w)).1 (server w) (inflight w) (pre ++ post)).

Definition trash_view (u : string) (rows : list File) : list File :=
  List.filter (λ f, (userId f === u) && trash_pred f) rows.

(** ** Sample data *)

(** Two files of ["alice"] at the root. *)
Definition demo_file2 : File :=
  {| id := "f2"; parentId := None; name := "b.txt"; path := "/b.txt";
     size := 5; type := "text/plain"; fileUrl := "https://cdn/b.txt";
     thumbnailUrl := None; userId := "alice"; isFolder := false;
     isStarred := false; isTrash := false; createdAt := 0; updatedAt := 0 |}.

Definition demo_rows : list File := [demo_file; demo_file2].

Definition demo_client : ListState := setFiles demo_rows (setLoading false initial_state).

(** ** Sample data in step with the server *)

Lemma round_trip_synced_witness :
  api_wf demo_rows ∧ synced "alice" demo_client demo_rows ∧
  synced "alice" (round_trip "alice" 1 Delivered (AStar "f2") demo_client demo_rows).1
                 (round_trip "alice" 1 Delivered (AStar "f2") demo_client demo_rows).2.
Proof.
  assert (Hwf : api_wf demo_rows) by decide_by_eval.
  assert (Hs : synced "alice" demo_client demo_rows) by (unfold synced; reflexivity).
  split; [done|split; [done|]].
  apply (round_trip_synced "alice" 1 Delivered (AStar "f2") demo_client demo_rows Hwf Hs).
Defined.

(** ** Interleavings the render allows *)

(** The defect of [Client.stale_revert_loses_update] in the whole
    system: from a quiescent, synced state, starring "f1" and then "f2",
    where the first request fails in transit and the second succeeds,
    ends in a quiescent state where the browser shows "f2" unstarred
    while the server has it starred. *)
Example stale_revert_trace :
  let w0 := mkWorld demo_client demo_rows [] [] in
  quiescent w0 ∧ synced "alice" (client w0) (server w0) ∧
  ∃ w, rtc (step "alice") w0 w ∧ quiescent w ∧ ¬ synced "alice" (client w) (server w).
Proof.
  simpl. split; [done|]. split; [unfold synced; reflexivity|].
  eexists. split; [|split].
  - eapply rtc_l; [by eapply (step_event _ "" 0 (LRowAction demo_file (StarButton "Star file")))|].
    eapply rtc_l; [by eapply (step_event _ "" 0 (LRowAction demo_file2 (StarButton "Star file")))|].
    eapply rtc_l; [by eapply (step_lose _ _ [])|].
    eapply rtc_l; [by eapply (step_serve _ 1 _ [] [])|].
    eapply rtc_l; [by eapply (step_reply _ _ [])|].
    eapply rtc_l; [by eapply (step_reply _ _ [])|].
    apply rtc_refl.
  - done.
  - unfold synced. intros Hs. apply starredCount_proper in Hs. vm_compute in Hs. done.
Qed.

(** ** Views of nested entries *)

(** A starred file and a trashed file inside the folder "d1" of
    ["alice"]. *)
Definition inner_starred : File :=
  {| id := "f3"; parentId := Some "d1"; name := "c.txt"; path := "/Docs/c.txt";
     size := 4; type := "text/plain"; fileUrl := "https://cdn/c.txt";
     thumbnailUrl := None; userId := "alice"; isFolder := false;
     isStarred := true; isTrash := false; createdAt := 0; updatedAt := 0 |}.


(** The browser at the root showing the server's root listing. *)
Definition at_root (rows : list File) : ListState :=
  setFiles (api_list "alice" None rows) (setLoading false initial_state).

(** The defect of [ListEvents.stale_fetch_shows_other_folder] in the
    whole system: a refresh at the root followed by a navigation into
    "d1", with the listing of "d1" served first, ends with nothing in
    flight in "d1" showing the contents of the root. *)
Example stale_fetch_trace :
  let rows := [demo_folder; inner_starred] in
  let w0 := mkWorld (at_root rows) rows [] [] in
  quiescent w0 ∧ synced "alice" (client w0) (server w0) ∧
  ∃ w, rtc (step "alice") w0 w ∧ quiescent w ∧ currentFolderId (client w) = Some "d1" ∧
       files (client w) = [demo_folder] ∧ ¬ synced "alice" (client w) (server w).
Proof.
  simpl. split; [done|]. split; [unfold synced; reflexivity|].
  eexists. split; [|split; [|split; [|split]]].
  - eapply rtc_l; [by eapply (step_event _ "" 0 LRefresh)|].
    eapply rtc_l; [by eapply (step_event _ "" 0 (LNav (NavInto "d1" "Docs")))|]. simpl.
    eapply rtc_l; [by eapply (step_serve _ 1 _ [_] [])|].
    eapply rtc_l; [by eapply (step_serve _ 1 _ [] [])|].
    eapply rtc_l; [by eapply (step_reply _ _ [])|].
    eapply rtc_l; [by eapply (step_reply _ _ [])|].
    apply rtc_refl.
  - done.
  - done.
  - done.
  - unfold synced. intros Hs. apply starredCount_proper in Hs. vm_compute in Hs. done.
Qed.

(** ** Lemmas *)




(** ** Properties *)



(** ** Witnesses *)



End System.
